(** * Faceting and plot dispatch of the crossfilter application

    A shallow embedding of [bokeh/crossfilter/models.py]: the facet classes,
    the facet combinator [make_facets], the plot plugins, the grid assembler
    with [hide_internal_axes], and the handlers of the [CrossFilter]
    controller, followed by the properties established about them.

    Conventions of the embedding.
    - A pandas [DataFrame] is a header of column names and a list of rows;
      a cell is a string (object dtype) or a number.  Numbers are rationals,
      so arithmetic is exact; missing values (NaN) are not part of the model.
    - A Python exception is a value of [exn]; a function that can raise
      returns a [result].  Methods that assign attributes of the controller
      are state transformers that keep the state reached when they raise.
    - The source runs on Python 2 and on Python 3 (it imports [six]); the two
      differ on comparing an integer with [None], which the grid assembler
      does, so that comparison takes the interpreter as an argument. *)

From Stdlib Require Import QArith Lqa List String Sorting Permutation OrdersEx.
From stdpp Require Import gmap strings.

Open Scope string_scope.

(** ** Exceptions and results *)

Inductive exn :=
| KeyError (key : string)
| ValueError (msg : string)
| TypeError (msg : string)
| IndexError (msg : string)
| AttributeError (msg : string).

Inductive result (A : Type) :=
| Ok (a : A)
| Raise (e : exn).
Arguments Ok {A} a.
Arguments Raise {A} e.

Definition rbind {A B} (m : result A) (k : A -> result B) : result B :=
  match m with
  | Ok a => k a
  | Raise e => Raise e
  end.

Notation "'let*' x ':=' m 'in' k" := (rbind m (fun x => k))
  (at level 10, x name, m at level 100, k at level 200).

Inductive python := Py2 | Py3.

(** ** Cells and data frames *)

Inductive cell :=
| Str (s : string)
| Num (q : Q).

(** Ordering of cells: numbers by value, strings lexicographically, and a
    number below a string.  This is the order of Python 2.  Python 3 orders
    two numbers and two strings the same way and refuses to order a string
    and a number: where the code sorts ([sorted_unique] below) the refusal
    is modelled; where it compares a column with a bound (the filter of a
    [ContinuousFacet], the span of a histogram selection) it is not, so
    what is stated about those comparisons is stated of columns of numbers,
    or of both sides of an equation alike.  Cells are strings and exact
    numbers; a missing value (NaN, None) is not a cell. *)
Definition cell_compare (a b : cell) : comparison :=
  match a, b with
  | Num p, Num q => (p ?= q)%Q
  | Num _, Str _ => Lt
  | Str _, Num _ => Gt
  | Str s, Str t => String_as_OT.compare s t
  end.

(** [a == b] *)
Definition cell_eqb (a b : cell) : bool :=
  match cell_compare a b with Eq => true | _ => false end.

(** [a > b] *)
Definition cell_gtb (a b : cell) : bool :=
  match cell_compare a b with Gt => true | _ => false end.

(** [a <= b] *)
Definition cell_leb (a b : cell) : bool :=
  match cell_compare a b with Gt => false | _ => true end.

(** [a >= b] *)
Definition cell_geb (a b : cell) : bool :=
  match cell_compare a b with Lt => false | _ => true end.

Record DataFrame := {
  df_columns : list string;
  df_values : list (list cell)
}.

(** Position of a column name in the header. *)
Fixpoint col_pos (name : string) (cols : list string) : option nat :=
  match cols with
  | [] => None
  | c :: cols' =>
      if String.eqb c name then Some O
      else match col_pos name cols' with
           | Some p => Some (S p)
           | None => None
           end
  end.

Definition missing : cell := Str "".

Definition row_get (p : nat) (row : list cell) : cell := nth p row missing.

(** [df[name]]: the column as a series. *)
Definition getitem (df : DataFrame) (name : string) : result (list cell) :=
  match col_pos name (df_columns df) with
  | Some p => Ok (map (row_get p) (df_values df))
  | None => Raise (KeyError name)
  end.

Fixpoint mask_select {A} (mask : list bool) (l : list A) : list A :=
  match mask, l with
  | b :: mask', a :: l' =>
      if b then a :: mask_select mask' l' else mask_select mask' l'
  | _, _ => []
  end.

(** [df[mask]]: the rows whose mask entry is true. *)
Definition getitem_mask (df : DataFrame) (mask : list bool) : DataFrame :=
  {| df_columns := df_columns df;
     df_values := mask_select mask (df_values df) |}.

(** [df.empty]: some axis has length zero. *)
Definition df_empty (df : DataFrame) : bool :=
  match df_columns df, df_values df with
  | [], _ => true
  | _, [] => true
  | _, _ => false
  end.

(** ** Facets *)

Record DiscreteFacet := {
  field : string;
  label : string;
  _value : cell
}.

(** A [ContinuousFacet] is a [DiscreteFacet] that also stores its bin; either
    bound of the bin may be [None]. *)
Record ContinuousFacet := {
  base : DiscreteFacet;
  bins : option Q * option Q
}.

Inductive Facet :=
| FDiscrete (f : DiscreteFacet)
| FContinuous (f : ContinuousFacet).

Definition facet_field (f : Facet) : string :=
  match f with
  | FDiscrete d => field d
  | FContinuous c => field (base c)
  end.

Definition facet_label (f : Facet) : string :=
  match f with
  | FDiscrete d => label d
  | FContinuous c => label (base c)
  end.

(** [__repr__] *)
Definition facet_repr (f : Facet) : string :=
  facet_field f ++ ":" ++ facet_label f.

(** [DiscreteFacet.filter]: [df[df[self.field] == self._value]] *)
Definition DiscreteFacet_filter (f : DiscreteFacet) (df : DataFrame)
  : result DataFrame :=
  let* col := getitem df (field f) in
  Ok (getitem_mask df (map (fun c => cell_eqb c (_value f)) col)).

(** [ContinuousFacet.filter] *)
Definition ContinuousFacet_filter (f : ContinuousFacet) (df : DataFrame)
  : result DataFrame :=
  let* df1 :=
    match fst (bins f) with
    | Some lo =>
        let* col := getitem df (field (base f)) in
        Ok (getitem_mask df (map (fun c => cell_gtb c (Num lo)) col))
    | None => Ok df
    end in
  match snd (bins f) with
  | Some hi =>
      let* col := getitem df1 (field (base f)) in
      Ok (getitem_mask df1 (map (fun c => cell_leb c (Num hi)) col))
  | None => Ok df1
  end.

Definition facet_filter (f : Facet) (df : DataFrame) : result DataFrame :=
  match f with
  | FDiscrete d => DiscreteFacet_filter d df
  | FContinuous c => ContinuousFacet_filter c df
  end.

(** [CrossFilter.facet_data] with the data frame given. *)
Fixpoint facet_data (facets : list Facet) (df : DataFrame) : result DataFrame :=
  match facets with
  | [] => Ok df
  | f :: facets' => let* df' := facet_filter f df in facet_data facets' df'
  end.

(** The row-wise condition a facet tests. *)
Definition facet_accepts (f : Facet) (c : cell) : bool :=
  match f with
  | FDiscrete d => cell_eqb c (_value d)
  | FContinuous cf =>
      match fst (bins cf) with
      | Some lo => cell_gtb c (Num lo)
      | None => true
      end
      && match snd (bins cf) with
         | Some hi => cell_leb c (Num hi)
         | None => true
         end
  end.

(** ** Library functions used by the source *)

(** Insertion into a strictly ascending list of cells. *)
Fixpoint insert_unique (c : cell) (l : list cell) : list cell :=
  match l with
  | [] => [c]
  | d :: l' =>
      match cell_compare c d with
      | Lt => c :: l
      | Eq => l
      | Gt => d :: insert_unique c l'
      end
  end.

(** [np.unique(values)] and [sorted(set(values))]: the distinct values in
    ascending order. *)
Definition np_unique (values : list cell) : list cell :=
  fold_right insert_unique [] values.

Fixpoint insert_float (a : Q) (l : list Q) : list Q :=
  match l with
  | [] => [a]
  | b :: l' => if Qle_bool a b then a :: l else b :: insert_float a l'
  end.

(** [np.sort] on numbers. *)
Definition sort_floats (l : list Q) : list Q := fold_right insert_float [] l.

(** The numbers of a numeric series; arithmetic on a string raises. *)
Fixpoint as_floats (col : list cell) : result (list Q) :=
  match col with
  | [] => Ok []
  | Num a :: col' => let* l := as_floats col' in Ok (a :: l)
  | Str _ :: _ => Raise (TypeError "unsupported operand type")
  end.

(** The score at the fraction [k/q] of an ascending series, as pandas
    computes it: position [k/q * (n - 1)], interpolated linearly between the
    two neighbours when the position is not an integer. *)
Definition quantile (sorted : list Q) (k q : nat) : Q :=
  let pos := (k * (length sorted - 1))%nat in
  let i := (pos / q)%nat in
  let r := (pos mod q)%nat in
  let a := nth i sorted 0%Q in
  if (r =? 0)%nat then a
  else (a + (nth (S i) sorted 0%Q - a) * (Z.of_nat r # Pos.of_nat q))%Q.

Definition quantile_edges (values : list Q) (q : nat) : list Q :=
  map (fun k => quantile (sort_floats values) k q) (seq 0 (S q)).

Fixpoint float_in (a : Q) (l : list Q) : bool :=
  match l with
  | [] => false
  | b :: l' => Qeq_bool a b || float_in a l'
  end.

Fixpoint has_duplicates (l : list Q) : bool :=
  match l with
  | [] => false
  | a :: l' => float_in a l' || has_duplicates l'
  end.

Fixpoint list_min (l : list Q) : option Q :=
  match l with
  | [] => None
  | a :: l' =>
      match list_min l' with
      | Some m => Some (if Qle_bool a m then a else m)
      | None => Some a
      end
  end.

Fixpoint list_max (l : list Q) : option Q :=
  match l with
  | [] => None
  | a :: l' =>
      match list_max l' with
      | Some m => Some (if Qle_bool m a then a else m)
      | None => Some a
      end
  end.

(** What the source takes from its collaborators and the model leaves
    uninterpreted: the text of a number, the label pandas gives a quantile
    bin, and the helpers of [crossfilter/plotting.py] that aggregate a bar
    source or build a histogram source. *)
Record External := {
  str_float : Q -> string;
  format_level : bool -> Q -> Q -> string;
  make_continuous_bar_source :
    DataFrame -> string -> string -> string -> result DataFrame;
  make_categorical_bar_source :
    DataFrame -> string -> string -> string -> result DataFrame;
  make_histogram_centers : list cell -> list Q
}.

(** Modelled from the spec: [cross] of [crossfilter/plotting.py], which is
    not among the sources.  The spec describes it as the step of a
    Cartesian-product fold: for each existing prefix and each new facet of
    the column, emit [prefix + [facet]]. *)
Definition cross {A} (start : list (list A)) (facets : list A)
  : list (list A) :=
  flat_map (fun prefix => map (fun facet => (prefix ++ [facet])%list) facets) start.

(** The argument [axes] of [hide_axes]: ['x'], ['y'], or left out. *)
Inductive axes_arg := axes_x | axes_y | axes_both.

(** ** Figures, ranges and the display tree *)

Inductive Range :=
| FactorRange (factors : list cell)
| DataRange1d (start end_ : option Q)
| Range1d (start end_ : option Q).

(** What a plugin draws into a figure. *)
Inductive Glyph :=
| Scatter (x y : string) (source : DataFrame)
| Line (x y : string) (source : DataFrame)
| Rect (x : string) (y : list Q) (width : Q) (height : string)
       (source : DataFrame).

(** A figure: its title, the keyword arguments the controller passes, the
    glyphs drawn and whether each axis has been suppressed.  Styling
    attributes (borders, symmetry, font size) are not represented. *)
Record Figure := {
  fig_title : string;
  fig_plot_height : nat;
  fig_plot_width : nat;
  fig_tools : string;
  fig_x_range : option Range;
  fig_y_range : option Range;
  fig_glyphs : list Glyph;
  xaxis_hidden : bool;
  yaxis_hidden : bool
}.

(** Modelled from the spec: [hide_axes] of [crossfilter/plotting.py], which
    is not among the sources.  It suppresses the named axes of a plot; called
    without [axes] it suppresses both. *)
Definition hide_axes (plot : Figure) (axes : axes_arg) : Figure :=
  {| fig_title := fig_title plot;
     fig_plot_height := fig_plot_height plot;
     fig_plot_width := fig_plot_width plot;
     fig_tools := fig_tools plot;
     fig_x_range := fig_x_range plot;
     fig_y_range := fig_y_range plot;
     fig_glyphs := fig_glyphs plot;
     xaxis_hidden :=
       match axes with axes_y => xaxis_hidden plot | _ => true end;
     yaxis_hidden :=
       match axes with axes_x => yaxis_hidden plot | _ => true end |}.

Definition add_glyph (plot : Figure) (g : Glyph) : Figure :=
  {| fig_title := fig_title plot;
     fig_plot_height := fig_plot_height plot;
     fig_plot_width := fig_plot_width plot;
     fig_tools := fig_tools plot;
     fig_x_range := fig_x_range plot;
     fig_y_range := fig_y_range plot;
     fig_glyphs := (fig_glyphs plot ++ [g])%list;
     xaxis_hidden := xaxis_hidden plot;
     yaxis_hidden := yaxis_hidden plot |}.

(** One page of the display: a single plot or a [GridPlot]. *)
Inductive Page :=
| PFigure (plot : Figure)
| PGridPlot (children : list (list Figure)) (plot_width : nat).

Record Panel := {
  child : Page;
  panel_title : string
}.

Inductive Display :=
| DPage (page : Page)
| DTabs (tabs : list Panel).

(** ** The controller's state *)

Inductive column_type := DiscreteColumn | TimeColumn | ContinuousColumn.

(** A column descriptor; the summary statistics are not represented. *)
Record descriptor := {
  col_name : string;
  col_type : column_type
}.

Definition is_discrete (t : column_type) : bool :=
  match t with DiscreteColumn => true | _ => false end.

Inductive plot_type_t := line | scatter | bar.

(** The [value] of a select widget: a list of options or a single string. *)
Inductive widget_value :=
| value_list (l : list cell)
| value_str (s : string).

(** A filter widget: a [MultiSelect] for a discrete column, a histogram plot
    for the others. *)
Inductive Widget :=
| MultiSelect (name : string) (options : list cell) (value : widget_value)
| Histogram (title : string).

(** The source behind a histogram widget: the bin centers and the selected
    bin indices. *)
Record HistSource := {
  centers : list Q;
  selected : list nat
}.

(** The attributes of a [CrossFilter].  A [ColumnDataSource] built from a
    data frame is represented by that frame: [source.data[c]] is [getitem],
    [to_df()] is the frame itself.  [cf__df] is the attribute [_df], present
    only on the object that [create] built. *)
Record CrossFilter := {
  cf_columns : list descriptor;
  cf_data : DataFrame;
  cf_filtered_data : DataFrame;
  cf_filter_sources : gmap string HistSource;
  cf_filtering_columns : list string;
  cf_filter_widgets : gmap string Widget;
  cf_facet_x : list string;
  cf_facet_y : list string;
  cf_facet_tab : list string;
  cf_plot : option Display;
  cf_x_range : option Range;
  cf_y_range : option Range;
  cf_plot_type : plot_type_t;
  cf_x : string;
  cf_y : string;
  cf_agg : string;
  cf__df : option DataFrame
}.

(** [column_descriptor_dict]: a later descriptor of a name replaces an
    earlier one. *)
Definition column_descriptor_dict (cf : CrossFilter) : gmap string descriptor :=
  fold_left (fun m d => <[col_name d := d]> m) (cf_columns cf) ∅.

(** The property [df]. *)
Definition cf_df (cf : CrossFilter) : DataFrame :=
  match cf__df cf with
  | Some df => df
  | None => cf_data cf
  end.

(** The property [filtered_df]. *)
Definition cf_filtered_df (cf : CrossFilter) : DataFrame :=
  match cf__df cf with
  | Some df => df
  | None => cf_filtered_data cf
  end.

(** [d[key]] on a dictionary keyed by column names. *)
Definition dict_get {V} (d : gmap string V) (key : string) : result V :=
  match d !! key with
  | Some v => Ok v
  | None => Raise (KeyError key)
  end.

Section Model.

Context (E : External) (py : python).

(** [str(value)] *)
Definition py_str (c : cell) : string :=
  match c with
  | Str s => s
  | Num q => str_float E q
  end.

(** [DiscreteFacet.__init__] *)
Definition new_DiscreteFacet (field : string) (value : cell)
           (label : option string) : DiscreteFacet :=
  {| field := field;
     label := match label with Some l => l | None => py_str value end;
     _value := value |}.

(** [ContinuousFacet.__init__] *)
Definition new_ContinuousFacet (field : string) (value : string)
           (bins : option Q * option Q) (label : option string)
  : ContinuousFacet :=
  {| base := new_DiscreteFacet field (Str value) label; bins := bins |}.

(** ** Quantile bins *)

Fixpoint pairs (l : list Q) : list (Q * Q) :=
  match l with
  | a :: (b :: _) as l' => (a, b) :: pairs l'
  | _ => []
  end.

(** The categories of a quantile cut: one label per pair of consecutive
    edges, the first closed on the left. *)
Definition categories (edges : list Q) : list string :=
  match pairs edges with
  | [] => []
  | (a, b) :: rest =>
      format_level E true a b
        :: map (fun ab => format_level E false (fst ab) (snd ab)) rest
  end.

(** [pd.qcut(series, q, retbins=True)]: the categories and the [q + 1]
    quantile edges.  pandas refuses edges that are not pairwise distinct,
    and fails with an [IndexError] on a series without values.  The edges
    are computed here in exact rationals; pandas computes them in doubles,
    which gives the same edges when the values are integers of moderate
    size (every difference, product by a quarter and sum is then exact) and
    may differ in the last digit otherwise.  Missing values, which pandas
    skips, are not cells of the model. *)
Definition pd_qcut (series : list cell) (q : nat)
  : result (list string * list Q) :=
  let* values := as_floats series in
  if (length values =? 0)%nat
  then Raise (IndexError "index out of bounds")
  else
    let edges := quantile_edges values q in
    if has_duplicates edges
    then Raise (ValueError "Bin edges must be unique")
    else Ok (categories edges, edges).

(** ** Plot plugins *)

Record FigureKwargs := {
  kw_plot_height : nat;
  kw_plot_width : nat;
  kw_tools : string;
  kw_x_range : option Range;
  kw_y_range : option Range
}.

(** A plugin instance.  [pl_class] tells which of [CrossLinePlugin],
    [CrossScatterPlugin] and [CrossBarPlugin] it is; the first two inherit
    everything modelled here but [make_plot] from [CrossFilterPlugin]. *)
Record Plugin := {
  pl_class : plot_type_t;
  pl_cf : CrossFilter;
  pl_x : string;
  pl_y : string;
  pl_agg : string;
  pl_source : DataFrame;
  pl_facet : bool;
  pl_col_meta : gmap string descriptor;
  pl_valid_plot : bool;
  pl__title : string;
  pl_kwargs : FigureKwargs
}.

Definition bar_width : Q := 7 # 10.

(** [CrossFilterPlugin.title] *)
Definition CrossFilterPlugin_title (x y : string) : string :=
  x ++ " by " ++ y.

(** [CrossBarPlugin.title] *)
Definition CrossBarPlugin_title (agg x y : string) : string :=
  agg ++ "(" ++ y ++ ") by " ++ x.

(** The property [title] of a plugin of class [cls]. *)
Definition plugin_title (cls : plot_type_t) (agg x y : string) : string :=
  match cls with
  | bar => CrossBarPlugin_title agg x y
  | _ => CrossFilterPlugin_title x y
  end.

(** [__init__] of the plugin classes. *)
Definition new_Plugin (cls : plot_type_t) (cf : CrossFilter)
           (source : DataFrame) (facet : bool) (title : option string)
           (kwargs : FigureKwargs) : Plugin :=
  {| pl_class := cls;
     pl_cf := cf;
     pl_x := cf_x cf;
     pl_y := cf_y cf;
     pl_agg := cf_agg cf;
     pl_source := source;
     pl_facet := facet;
     pl_col_meta := column_descriptor_dict cf;
     pl_valid_plot := true;
     pl__title :=
       match title with
       | Some t =>
           if String.eqb t "" then plugin_title cls (cf_agg cf) (cf_x cf) (cf_y cf)
           else t
       | None => plugin_title cls (cf_agg cf) (cf_x cf) (cf_y cf)
       end;
     pl_kwargs := kwargs |}.

Definition invalidate (p : Plugin) (title : string) : Plugin :=
  {| pl_class := pl_class p;
     pl_cf := pl_cf p;
     pl_x := pl_x p;
     pl_y := pl_y p;
     pl_agg := pl_agg p;
     pl_source := pl_source p;
     pl_facet := pl_facet p;
     pl_col_meta := pl_col_meta p;
     pl_valid_plot := false;
     pl__title := title;
     pl_kwargs := pl_kwargs p |}.

Definition with_source (p : Plugin) (source : DataFrame) : Plugin :=
  {| pl_class := pl_class p;
     pl_cf := pl_cf p;
     pl_x := pl_x p;
     pl_y := pl_y p;
     pl_agg := pl_agg p;
     pl_source := source;
     pl_facet := pl_facet p;
     pl_col_meta := pl_col_meta p;
     pl_valid_plot := pl_valid_plot p;
     pl__title := pl__title p;
     pl_kwargs := pl_kwargs p |}.

(** The property [y_type]. *)
Definition y_type (p : Plugin) : result column_type :=
  let* d := dict_get (pl_col_meta p) (pl_y p) in Ok (col_type d).

(** [CrossFilterPlugin.validate_plot] *)
Definition CrossFilterPlugin_validate_plot (p : Plugin) : result Plugin :=
  if negb (pl_facet p) then
    let* xs := getitem (pl_source p) (pl_x p) in
    if (length xs =? 0)%nat then Ok (invalidate p "All data is filtered out.")
    else
      let* ys := getitem (pl_source p) (pl_y p) in
      if (length ys =? 0)%nat then Ok (invalidate p "All data is filtered out.")
      else Ok p
  else Ok p.

(** [CrossBarPlugin.validate_plot] *)
Definition CrossBarPlugin_validate_plot (p : Plugin) : result Plugin :=
  let* p := CrossFilterPlugin_validate_plot p in
  let* t := y_type p in
  let p :=
    if is_discrete t
    then invalidate p "Bar does not support discrete y column" else p in
  let p :=
    if String.eqb (pl_x p) (pl_y p)
    then invalidate p "Bar does not support x and y of same column" else p in
  let p :=
    if df_empty (pl_source p)
    then invalidate p "All data is filtered out" else p in
  Ok p.

Definition validate_plot (p : Plugin) : result Plugin :=
  match pl_class p with
  | bar => CrossBarPlugin_validate_plot p
  | _ => CrossFilterPlugin_validate_plot p
  end.

(** [make_figure] *)
Definition make_figure (p : Plugin) : Figure :=
  {| fig_title := pl__title p;
     fig_plot_height := kw_plot_height (pl_kwargs p);
     fig_plot_width := kw_plot_width (pl_kwargs p);
     fig_tools := kw_tools (pl_kwargs p);
     fig_x_range := kw_x_range (pl_kwargs p);
     fig_y_range := kw_y_range (pl_kwargs p);
     fig_glyphs := [];
     xaxis_hidden := false;
     yaxis_hidden := false |}.

(** [CrossBarPlugin.transform_data] *)
Definition transform_data (p : Plugin) : result Plugin :=
  let* t := y_type p in
  let* source :=
    if is_discrete t
    then make_continuous_bar_source E (pl_source p) (pl_x p) (pl_y p) (pl_agg p)
    else make_categorical_bar_source E (pl_source p) (pl_x p) (pl_y p) (pl_agg p) in
  Ok (with_source p source).

(** [make_plot] of the three plugin classes. *)
Definition plugin_make_plot (p : Plugin) (plot : Figure) : result Figure :=
  match pl_class p with
  | scatter => Ok (add_glyph plot (Scatter (pl_x p) (pl_y p) (pl_source p)))
  | line => Ok (add_glyph plot (Line (pl_x p) (pl_y p) (pl_source p)))
  | bar =>
      let* p := transform_data p in
      let* col := getitem (pl_source p) (pl_y p) in
      let* vals := as_floats col in
      let y := map (fun val => (val / 2)%Q) vals in
      Ok (add_glyph plot (Rect (pl_x p) y bar_width (pl_y p) (pl_source p)))
  end.

(** [get_plot] *)
Definition get_plot (p : Plugin) : result Figure :=
  let* p := validate_plot p in
  let plot := make_figure p in
  if pl_valid_plot p then plugin_make_plot p plot else Ok plot.

Definition series_min (col : list cell) : result (option Q) :=
  let* vals := as_floats col in Ok (list_min vals).

Definition series_max (col : list cell) : result (option Q) :=
  let* vals := as_floats col in Ok (list_max vals).

(** Whether the values hold a string and a number: sorting them compares
    the two. *)
Definition mixed_types (values : list cell) : bool :=
  existsb (fun c => match c with Str _ => true | Num _ => false end) values
  && existsb (fun c => match c with Num _ => true | Str _ => false end) values.

(** [np.unique(values)] and [sorted(set(values))] as the interpreter runs
    them: Python 2 orders any two values, a number below a string, and
    Python 3 refuses to order a string and a number. *)
Definition sorted_unique (values : list cell) : result (list cell) :=
  match py with
  | Py2 => Ok (np_unique values)
  | Py3 =>
      if mixed_types values
      then Raise (TypeError "'<' not supported between 'str' and 'int'")
      else Ok (np_unique values)
  end.

Definition axis_range (cf : CrossFilter) (col : string) : result Range :=
  let* d := dict_get (column_descriptor_dict cf) col in
  let* vals := getitem (cf_df cf) col in
  if is_discrete (col_type d) then
    let* factors := sorted_unique vals in Ok (FactorRange factors)
  else
    let* lo := series_min vals in
    let* hi := series_max vals in
    Ok (DataRange1d lo hi).

(** [CrossFilterPlugin.make_xy_ranges] *)
Definition CrossFilterPlugin_make_xy_ranges (cf : CrossFilter)
  : result (Range * Range) :=
  let* x_range := axis_range cf (cf_x cf) in
  let* y_range := axis_range cf (cf_y cf) in
  Ok (x_range, y_range).

(** [CrossBarPlugin.make_xy_ranges] with the default [bar_width]. *)
Definition CrossBarPlugin_make_xy_ranges (cf : CrossFilter)
  : result (Range * Range) :=
  let x_col := cf_x cf in
  let y_col := cf_y cf in
  let df := cf_df cf in
  let* d := dict_get (column_descriptor_dict cf) x_col in
  let* sx :=
    if negb (is_discrete (col_type d)) then
      let* source := make_continuous_bar_source E df x_col y_col (cf_agg cf) in
      let* xs := getitem df x_col in
      let* lo := series_min xs in
      let* hi := series_max xs in
      Ok (source,
          Range1d (option_map (fun v => (v - bar_width)%Q) lo)
                  (option_map (fun v => (v - bar_width)%Q) hi))
    else
      let* source := make_categorical_bar_source E df x_col y_col (cf_agg cf) in
      let* xs := getitem source x_col in
      Ok (source, FactorRange xs) in
  let* ys := getitem (fst sx) y_col in
  let* top := series_max ys in
  match top with
  | None => Raise (ValueError "zero-size array to reduction operation")
  | Some t => Ok (snd sx, Range1d (Some 0%Q) (Some t))
  end.

Definition make_xy_ranges (cls : plot_type_t) (cf : CrossFilter)
  : result (Range * Range) :=
  match cls with
  | bar => CrossBarPlugin_make_xy_ranges cf
  | _ => CrossFilterPlugin_make_xy_ranges cf
  end.

(** ** The facet combinator *)

(** The facets of one column, as the body of the loop of [make_facets]
    builds them. *)
Definition field_facets (cf : CrossFilter) (field : string)
  : result (list Facet) :=
  let* d := dict_get (column_descriptor_dict cf) field in
  if is_discrete (col_type d) then
    let* values := getitem (cf_df cf) field in
    let* uniq := sorted_unique values in
    Ok (map (fun val => FDiscrete (new_DiscreteFacet field val None)) uniq)
  else
    let* series := getitem (cf_df cf) field in
    let* cb := pd_qcut series 4 in
    let cats := fst cb in
    let bins := map (fun ab => (Some (fst ab), Some (snd ab))) (pairs (snd cb)) in
    let* bins :=
      match bins with
      | [] => Raise (IndexError "list index out of range")
      | (_, hi) :: rest => Ok ((None, hi) :: rest)
      end in
    Ok (map (fun bv => FContinuous (new_ContinuousFacet field (snd bv) (fst bv) None))
            (combine bins cats)).

Fixpoint make_facets_loop (cf : CrossFilter) (facets : list string)
         (all_facets : list (list Facet)) : result (list (list Facet)) :=
  match facets with
  | [] => Ok all_facets
  | field :: facets' =>
      let* ff := field_facets cf field in
      make_facets_loop cf facets' (cross all_facets ff)
  end.

(** The facet columns of a dimension, [x], [y] or otherwise the tabs. *)
Definition dimension_facets (cf : CrossFilter) (dimension : string)
  : list string :=
  if String.eqb dimension "x" then cf_facet_x cf
  else if String.eqb dimension "y" then cf_facet_y cf
  else cf_facet_tab cf.

(** [CrossFilter.make_facets] *)
Definition make_facets (cf : CrossFilter) (dimension : string)
  : result (list (list Facet)) :=
  make_facets_loop cf (dimension_facets cf dimension) [[]].

Fixpoint join (sep : string) (l : list string) : string :=
  match l with
  | [] => ""
  | [s] => s
  | s :: l' => s ++ sep ++ join sep l'
  end.

(** [facet_title] *)
Definition facet_title (facets : list Facet) : string :=
  join "," (map facet_repr facets).

(** [str(facets)] of a list of facets. *)
Definition str_facets (facets : list Facet) : string :=
  "[" ++ join ", " (map facet_repr facets) ++ "]".

(** ** The grid assembler *)

(** [j >= next_len], where [next_len] may be [None]: Python 2 orders [None]
    below every integer, Python 3 refuses the comparison. *)
Definition ge_next_len (j : nat) (next_len : option nat) : result bool :=
  match next_len with
  | Some n => Ok (n <=? j)%nat
  | None =>
      match py with
      | Py2 => Ok true
      | Py3 => Raise (TypeError "'>=' not supported between 'int' and 'NoneType'")
      end
  end.

(** The body of the inner loop of [hide_internal_axes]: the plot as it is
    afterwards and the exception raised, if any. *)
Definition hide_cell (is_bottom : bool) (next_len : option nat) (j : nat)
           (plot : Figure) : Figure * option exn :=
  if negb (j =? 0)%nat then
    match (if is_bottom then Ok true else ge_next_len j next_len) with
    | Ok true => (hide_axes plot axes_y, None)
    | Ok false => (hide_axes plot axes_both, None)
    | Raise e => (plot, Some e)
    end
  else if negb is_bottom then (hide_axes plot axes_x, None)
  else (plot, None).

Fixpoint hide_row (is_bottom : bool) (next_len : option nat) (j : nat)
         (row : list Figure) : list Figure * option exn :=
  match row with
  | [] => ([], None)
  | plot :: row' =>
      match hide_cell is_bottom next_len j plot with
      | (plot', Some e) => (plot' :: row', Some e)
      | (plot', None) =>
          let (row'', r) := hide_row is_bottom next_len (S j) row' in
          (plot' :: row'', r)
      end
  end.

(** The outer loop from row [i] on; [grid_plots] is the whole grid and
    [rows] its rows from [i]. *)
Fixpoint hide_rows (grid_plots : list (list Figure)) (i : nat)
         (rows : list (list Figure)) : list (list Figure) * option exn :=
  match rows with
  | [] => ([], None)
  | row :: rows' =>
      let is_bottom := (i + 1 =? length grid_plots)%nat in
      let next_bottom := (i + 2 =? length grid_plots)%nat in
      let next_len :=
        if next_bottom then Some (length (nth (i + 1) grid_plots []))
        else None in
      match hide_row is_bottom next_len 0 row with
      | (row', Some e) => (row' :: rows', Some e)
      | (row', None) =>
          let (rows'', r) := hide_rows grid_plots (S i) rows' in
          (row' :: rows'', r)
      end
  end.

(** [CrossFilter.hide_internal_axes]: the grid with the axes hidden in place
    and the exception that stopped it, if any. *)
Definition hide_internal_axes (grid_plots : list (list Figure))
  : list (list Figure) * option exn :=
  hide_rows grid_plots 0 grid_plots.

(** ** Building the display *)

Definition default_tools : string :=
  "pan,wheel_zoom,box_zoom,save,resize,box_select,reset".

Definition truthy {A} (l : option (list A)) : bool :=
  match l with
  | Some (_ :: _) => true
  | _ => false
  end.

(** [facet_data] called with [facets] that may be [None]. *)
Definition facet_data_opt (facets : option (list Facet)) (df : DataFrame)
  : result DataFrame :=
  match facets with
  | Some fs => facet_data fs df
  | None => Raise (TypeError "'NoneType' object is not iterable")
  end.

(** [make_single_plot] *)
Definition make_single_plot (cf : CrossFilter) (df : option DataFrame)
           (title : option string) (plot_width plot_height : nat)
           (tools : string) (facet : option (list Facet)) : result Figure :=
  let* dfa :=
    match df with
    | None => Ok (cf_filtered_df cf, false)
    | Some df => let* df := facet_data_opt facet df in Ok (df, true)
    end in
  let faceting := snd dfa in
  let* df :=
    if truthy facet then facet_data_opt facet (fst dfa) else Ok (fst dfa) in
  let source := df in
  let plot :=
    new_Plugin (cf_plot_type cf) cf source faceting title
      {| kw_plot_height := plot_height;
         kw_plot_width := plot_width;
         kw_tools := tools;
         kw_x_range := cf_x_range cf;
         kw_y_range := cf_y_range cf |} in
  get_plot plot.

Fixpoint mapM {A B} (f : A -> result B) (l : list A) : result (list B) :=
  match l with
  | [] => Ok []
  | a :: l' => let* b := f a in let* bs := mapM f l' in Ok (b :: bs)
  end.

(** [range(0, stop, step)] *)
Definition py_range_step (stop step : nat) : result (list nat) :=
  if (step =? 0)%nat then Raise (ValueError "range() arg 3 must not be zero")
  else Ok (map (fun k => k * step)%nat (seq 0 ((stop + step - 1) / step))).

Definition raise_after {A} (r : A * option exn) : result A :=
  match r with
  | (a, None) => Ok a
  | (_, Some e) => Raise e
  end.

(** [make_1d_facet_plot] *)
Definition make_1d_facet_plot (cf : CrossFilter) (facet : option (list Facet))
  : result Page :=
  let* all_facets :=
    match cf_facet_x cf with
    | _ :: _ => make_facets cf "x"
    | [] => make_facets cf "y"
    end in
  let* plots :=
    mapM (fun facets =>
            let title := facet_title facets in
            let facets :=
              match facet with
              | Some (f :: fs) => (facets ++ f :: fs)%list
              | _ => facets
              end in
            let* df := facet_data facets (cf_filtered_df cf) in
            make_single_plot cf (Some df) (Some title) 200 200
                             "pan,wheel_zoom,reset" (Some facets))
         all_facets in
  let chunk_size := Nat.sqrt_up (length plots) in
  let* starts := py_range_step (length plots) chunk_size in
  let grid_plots := map (fun i => firstn chunk_size (skipn i plots)) starts in
  let* grid_plots := raise_after (hide_internal_axes grid_plots) in
  Ok (PGridPlot grid_plots (200 * chunk_size)).

(** The loop over the y facets of [make_2d_facet_plot]; the axes are hidden
    on the grid built so far each time a row has been appended. *)
Fixpoint make_2d_rows (cf : CrossFilter) (facet : option (list Facet))
         (all_facets_x : list (list Facet)) (all_facets_y : list (list Facet))
         (grid_plots : list (list Figure)) : result (list (list Figure)) :=
  match all_facets_y with
  | [] => Ok grid_plots
  | facets_y :: rest =>
      let* row :=
        mapM (fun facets_x =>
                let facets := (facets_x ++ facets_y)%list in
                let title := facet_title facets in
                let filter_facets :=
                  match facet with
                  | Some (f :: fs) => (facets ++ f :: fs)%list
                  | _ => facets
                  end in
                let* df := facet_data filter_facets (cf_filtered_df cf) in
                make_single_plot cf (Some df) (Some title) 200 200
                                 "pan,wheel_zoom,reset" (Some facets))
             all_facets_x in
      let* grid_plots :=
        raise_after (hide_internal_axes (grid_plots ++ [row])%list) in
      make_2d_rows cf facet all_facets_x rest grid_plots
  end.

(** [make_2d_facet_plot] *)
Definition make_2d_facet_plot (cf : CrossFilter) (facet : option (list Facet))
  : result Page :=
  let* all_facets_x := make_facets cf "x" in
  let* all_facets_y := make_facets cf "y" in
  let* grid_plots := make_2d_rows cf facet all_facets_x all_facets_y [] in
  Ok (PGridPlot grid_plots (200 * length all_facets_x)).

(** [create_plot_page] *)
Definition create_plot_page (cf : CrossFilter) (tab_facet : option (list Facet))
  : result Page :=
  match cf_facet_x cf, cf_facet_y cf with
  | [], [] =>
      let* plot :=
        make_single_plot cf None None 700 680 default_tools tab_facet in
      Ok (PFigure plot)
  | _ :: _, _ :: _ => make_2d_facet_plot cf tab_facet
  | _, _ => make_1d_facet_plot cf tab_facet
  end.

(** [make_plot] *)
Definition make_plot (cf : CrossFilter) : result Display :=
  match cf_facet_tab cf with
  | _ :: _ =>
      let* facets := make_facets cf "tab" in
      let* tabs :=
        mapM (fun facet =>
                let* content := create_plot_page cf (Some facet) in
                Ok {| child := content; panel_title := str_facets facet |})
             facets in
      Ok (DTabs tabs)
  | [] => let* page := create_plot_page cf None in Ok (DPage page)
  end.

(** ** The controller's handlers *)

(** A method that assigns attributes: the state afterwards and what it
    returned or raised. *)
Definition M (A : Type) : Type := CrossFilter -> CrossFilter * result A.

Definition sret {A} (a : A) : M A := fun cf => (cf, Ok a).

Definition sbind {A B} (m : M A) (k : A -> M B) : M B :=
  fun cf =>
    match m cf with
    | (cf', Ok a) => k a cf'
    | (cf', Raise e) => (cf', Raise e)
    end.

Definition lift {A} (r : CrossFilter -> result A) : M A :=
  fun cf => (cf, r cf).

Definition modify (f : CrossFilter -> CrossFilter) : M unit :=
  fun cf => (f cf, Ok tt).

Notation "'do*' x ':=' m 'in' k" := (sbind m (fun x => k))
  (at level 10, x name, m at level 100, k at level 200).

Definition set_ranges (x_range y_range : option Range) (cf : CrossFilter)
  : CrossFilter :=
  {| cf_columns := cf_columns cf; cf_data := cf_data cf;
     cf_filtered_data := cf_filtered_data cf;
     cf_filter_sources := cf_filter_sources cf;
     cf_filtering_columns := cf_filtering_columns cf;
     cf_filter_widgets := cf_filter_widgets cf;
     cf_facet_x := cf_facet_x cf; cf_facet_y := cf_facet_y cf;
     cf_facet_tab := cf_facet_tab cf; cf_plot := cf_plot cf;
     cf_x_range := x_range; cf_y_range := y_range;
     cf_plot_type := cf_plot_type cf; cf_x := cf_x cf; cf_y := cf_y cf;
     cf_agg := cf_agg cf; cf__df := cf__df cf |}.

Definition set_plot_attr (plot : option Display) (cf : CrossFilter)
  : CrossFilter :=
  {| cf_columns := cf_columns cf; cf_data := cf_data cf;
     cf_filtered_data := cf_filtered_data cf;
     cf_filter_sources := cf_filter_sources cf;
     cf_filtering_columns := cf_filtering_columns cf;
     cf_filter_widgets := cf_filter_widgets cf;
     cf_facet_x := cf_facet_x cf; cf_facet_y := cf_facet_y cf;
     cf_facet_tab := cf_facet_tab cf; cf_plot := plot;
     cf_x_range := cf_x_range cf; cf_y_range := cf_y_range cf;
     cf_plot_type := cf_plot_type cf; cf_x := cf_x cf; cf_y := cf_y cf;
     cf_agg := cf_agg cf; cf__df := cf__df cf |}.

Definition set_config (plot_type : plot_type_t) (x y agg : string)
           (cf : CrossFilter) : CrossFilter :=
  {| cf_columns := cf_columns cf; cf_data := cf_data cf;
     cf_filtered_data := cf_filtered_data cf;
     cf_filter_sources := cf_filter_sources cf;
     cf_filtering_columns := cf_filtering_columns cf;
     cf_filter_widgets := cf_filter_widgets cf;
     cf_facet_x := cf_facet_x cf; cf_facet_y := cf_facet_y cf;
     cf_facet_tab := cf_facet_tab cf; cf_plot := cf_plot cf;
     cf_x_range := cf_x_range cf; cf_y_range := cf_y_range cf;
     cf_plot_type := plot_type; cf_x := x; cf_y := y;
     cf_agg := agg; cf__df := cf__df cf |}.

Definition set_filtered_data (filtered_data : DataFrame) (cf : CrossFilter)
  : CrossFilter :=
  {| cf_columns := cf_columns cf; cf_data := cf_data cf;
     cf_filtered_data := filtered_data;
     cf_filter_sources := cf_filter_sources cf;
     cf_filtering_columns := cf_filtering_columns cf;
     cf_filter_widgets := cf_filter_widgets cf;
     cf_facet_x := cf_facet_x cf; cf_facet_y := cf_facet_y cf;
     cf_facet_tab := cf_facet_tab cf; cf_plot := cf_plot cf;
     cf_x_range := cf_x_range cf; cf_y_range := cf_y_range cf;
     cf_plot_type := cf_plot_type cf; cf_x := cf_x cf; cf_y := cf_y cf;
     cf_agg := cf_agg cf; cf__df := cf__df cf |}.

Definition set_filters (filter_sources : gmap string HistSource)
           (filter_widgets : gmap string Widget) (cf : CrossFilter)
  : CrossFilter :=
  {| cf_columns := cf_columns cf; cf_data := cf_data cf;
     cf_filtered_data := cf_filtered_data cf;
     cf_filter_sources := filter_sources;
     cf_filtering_columns := cf_filtering_columns cf;
     cf_filter_widgets := filter_widgets;
     cf_facet_x := cf_facet_x cf; cf_facet_y := cf_facet_y cf;
     cf_facet_tab := cf_facet_tab cf; cf_plot := cf_plot cf;
     cf_x_range := cf_x_range cf; cf_y_range := cf_y_range cf;
     cf_plot_type := cf_plot_type cf; cf_x := cf_x cf; cf_y := cf_y cf;
     cf_agg := cf_agg cf; cf__df := cf__df cf |}.

(** [update_xy_ranges] *)
Definition update_xy_ranges : M unit :=
  do* ranges := lift (fun cf => make_xy_ranges (cf_plot_type cf) cf) in
  modify (set_ranges (Some (fst ranges)) (Some (snd ranges))).

(** [set_plot] *)
Definition set_plot : M unit :=
  do* _ := update_xy_ranges in
  do* plot := lift make_plot in
  modify (set_plot_attr (Some plot)).

(** The four drop-down selectors, named [plot_type], [x], [y] and [agg]. *)
Inductive selector := plot_selector | x_selector | y_selector | agg_selector.

Definition parse_plot_type (s : string) : option plot_type_t :=
  if String.eqb s "line" then Some line
  else if String.eqb s "scatter" then Some scatter
  else if String.eqb s "bar" then Some bar
  else None.

(** [setattr(self, obj.name, new)]; the property [plot_type] is an [Enum]
    and refuses any other string. *)
Definition setattr (obj : selector) (new : string) : M unit :=
  fun cf =>
    match obj with
    | plot_selector =>
        match parse_plot_type new with
        | Some t => (set_config t (cf_x cf) (cf_y cf) (cf_agg cf) cf, Ok tt)
        | None => (cf, Raise (ValueError "expected an element of Enum"))
        end
    | x_selector =>
        (set_config (cf_plot_type cf) new (cf_y cf) (cf_agg cf) cf, Ok tt)
    | y_selector =>
        (set_config (cf_plot_type cf) (cf_x cf) new (cf_agg cf) cf, Ok tt)
    | agg_selector =>
        (set_config (cf_plot_type cf) (cf_x cf) (cf_y cf) new cf, Ok tt)
    end.

(** [plot_attribute_change] *)
Definition plot_attribute_change (obj : selector) (new : string) : M unit :=
  do* _ := setattr obj new in
  set_plot.

(** [facet_change] *)
Definition facet_change : M unit := set_plot.

Definition value_falsy (v : widget_value) : bool :=
  match v with
  | value_list [] => true
  | value_str "" => true
  | _ => false
  end.

Definition widget_get_value (w : Widget) : result widget_value :=
  match w with
  | MultiSelect _ _ v => Ok v
  | Histogram _ => Raise (AttributeError "value")
  end.

(** [np.in1d(series, selected)] *)
Definition in1d (series : list cell) (selected : list cell) : list bool :=
  map (fun c => existsb (cell_eqb c) selected) series.

Definition nat_min (l : list nat) : nat := fold_right Nat.min (hd O l) l.
Definition nat_max (l : list nat) : nat := fold_right Nat.max (hd O l) l.

Definition list_index {A} (l : list A) (i : nat) : result A :=
  match nth_error l i with
  | Some a => Ok a
  | None => Raise (IndexError "index out of range")
  end.

(** The body of the loop of [handle_filter_selection] for one descriptor. *)
Definition filter_step (cf : CrossFilter) (df : DataFrame) (d : descriptor)
  : result DataFrame :=
  let colname := col_name d in
  match cf_filter_widgets cf !! colname with
  | None => Ok df
  | Some w =>
      match col_type d with
      | DiscreteColumn =>
          let* selected := widget_get_value w in
          if value_falsy selected then Ok df
          else
            match selected with
            | value_str s =>
                Raise (KeyError (if String.eqb colname s then "True" else "False"))
            | value_list l =>
                let* series := getitem df colname in
                Ok (getitem_mask df (in1d series l))
            end
      | _ =>
          let* obj := dict_get (cf_filter_sources cf) colname in
          match selected obj with
          | [] => Ok df
          | _ =>
              let min_idx := nat_min (selected obj) in
              let max_idx := nat_max (selected obj) in
              let* min_val := list_index (centers obj) min_idx in
              let* max_val := list_index (centers obj) max_idx in
              let* s1 := getitem df colname in
              let* s2 := getitem df colname in
              Ok (getitem_mask df
                    (map (fun ab => andb (fst ab) (snd ab))
                         (combine (map (fun c => cell_geb c (Num min_val)) s1)
                                  (map (fun c => cell_leb c (Num max_val)) s2))))
          end
      end
  end.

(** The loop over the column descriptors. *)
Fixpoint filter_loop (cf : CrossFilter) (columns : list descriptor)
         (df : DataFrame) : result DataFrame :=
  match columns with
  | [] => Ok df
  | d :: columns' =>
      let* df := filter_step cf df d in filter_loop cf columns' df
  end.

(** The columns named [names] of [df], in that order: what the assignments
    [self.filtered_data.data[colname] = df[colname]] leave in the filtered
    source.  (When a column is missing the assignment raises; the columns
    assigned before it are not represented.) *)
Definition select_columns (df : DataFrame) (names : list string)
  : result DataFrame :=
  let* positions :=
    mapM (fun name =>
            match col_pos name (df_columns df) with
            | Some p => Ok p
            | None => Raise (KeyError name)
            end) names in
  Ok {| df_columns := names;
        df_values :=
          map (fun row => map (fun p => row_get p row) positions)
              (df_values df) |}.

(** [handle_filter_selection] *)
Definition handle_filter_selection : M unit :=
  do* df := lift (fun cf => filter_loop cf (cf_columns cf) (cf_df cf)) in
  do* filtered :=
    lift (fun cf => select_columns df (df_columns (cf_data cf))) in
  do* _ := modify (set_filtered_data filtered) in
  set_plot.

(** [del d[key]] *)
Definition dict_del {V} (d : gmap string V) (key : string)
  : result (gmap string V) :=
  match d !! key with
  | Some _ => Ok (delete key d)
  | None => Raise (KeyError key)
  end.

(** The loop of [clear_selections] over the removed columns. *)
Fixpoint clear_loop (column_descriptor_dict : gmap string descriptor)
         (diff : list string) : M unit :=
  match diff with
  | [] => sret tt
  | col :: diff' =>
      do* metadata := lift (fun _ => dict_get column_descriptor_dict col) in
      do* _ :=
        (if negb (is_discrete (col_type metadata)) then
           do* sources := lift (fun cf => dict_del (cf_filter_sources cf) col) in
           modify (fun cf => set_filters sources (cf_filter_widgets cf) cf)
         else sret tt) in
      do* widgets := lift (fun cf => dict_del (cf_filter_widgets cf) col) in
      do* _ := modify (fun cf => set_filters (cf_filter_sources cf) widgets cf) in
      clear_loop column_descriptor_dict diff'
  end.

(** [set(old) - set(new)], listed in the order of [old]. *)
Definition set_difference (old new : list string) : list string :=
  remove_dups (list_difference old new).

(** [clear_selections] *)
Definition clear_selections (old new : list string) : M unit :=
  let diff := set_difference old new in
  do* cdd := lift (fun cf => Ok (column_descriptor_dict cf)) in
  do* _ := clear_loop cdd diff in
  match diff with
  | [] => sret tt
  | _ => handle_filter_selection
  end.

(** [series.unique().tolist()]: the distinct values in order of first
    appearance. *)
Definition pd_unique (series : list cell) : list cell :=
  rev (fold_left
         (fun seen c => if existsb (cell_eqb c) seen then seen else c :: seen)
         series []).

(** The loop of [setup_filter_widgets] over the filtering columns. *)
Fixpoint setup_loop (column_descriptor_dict : gmap string descriptor)
         (cols : list string) : M unit :=
  match cols with
  | [] => sret tt
  | col :: cols' =>
      do* metadata := lift (fun _ => dict_get column_descriptor_dict col) in
      do* _ :=
        (fun cf =>
           match cf_filter_widgets cf !! col with
           | Some _ => (cf, Ok tt)
           | None =>
               match getitem (cf_df cf) col with
               | Raise e => (cf, Raise e)
               | Ok series =>
                   if is_discrete (col_type metadata) then
                     (set_filters (cf_filter_sources cf)
                        (<[col := MultiSelect col (pd_unique series)
                                              (value_list [])]>
                           (cf_filter_widgets cf)) cf, Ok tt)
                   else
                     (set_filters
                        (<[col := {| centers := make_histogram_centers E series;
                                     selected := [] |}]>
                           (cf_filter_sources cf))
                        (<[col := Histogram col]> (cf_filter_widgets cf)) cf,
                      Ok tt)
               end
           end) in
      setup_loop column_descriptor_dict cols'
  end.

(** [setup_filter_widgets] *)
Definition setup_filter_widgets (old new : list string) : M unit :=
  do* _ := clear_selections old new in
  do* cdd := lift (fun cf => Ok (column_descriptor_dict cf)) in
  do* cols := lift (fun cf => Ok (cf_filtering_columns cf)) in
  setup_loop cdd cols.

End Model.

(** * Further methods of the controller *)

Definition set_columns (columns : list descriptor) (cf : CrossFilter)
  : CrossFilter :=
  {| cf_columns := columns; cf_data := cf_data cf;
     cf_filtered_data := cf_filtered_data cf;
     cf_filter_sources := cf_filter_sources cf;
     cf_filtering_columns := cf_filtering_columns cf;
     cf_filter_widgets := cf_filter_widgets cf;
     cf_facet_x := cf_facet_x cf; cf_facet_y := cf_facet_y cf;
     cf_facet_tab := cf_facet_tab cf; cf_plot := cf_plot cf;
     cf_x_range := cf_x_range cf; cf_y_range := cf_y_range cf;
     cf_plot_type := cf_plot_type cf; cf_x := cf_x cf; cf_y := cf_y cf;
     cf_agg := cf_agg cf; cf__df := cf__df cf |}.

(** The dtype of a column as [set_metadata] tests it: [object]; a numeric
    one, whose [describe()] has the mean, the deviation and the bounds that
    the last branch reads; or any other, such as [datetime64[ns]] or
    [bool], whose [describe()] has no mean.  The branch for [np.datetime64]
    is never taken: the dtype of a column of a frame is never equal to
    it. *)
Inductive dtype := dtype_object | dtype_numeric | dtype_other.

(** The descriptor appended for a column of dtype [object] or of a numeric
    dtype; the statistics taken from [describe()] are not represented. *)
Definition descriptor_of (c : string) (t : dtype) : descriptor :=
  {| col_name := c;
     col_type :=
       match t with
       | dtype_object => DiscreteColumn
       | _ => ContinuousColumn
       end |}.

(** The body of the loop of [set_metadata] for one column: reading
    [desc['mean']] of a column that has none raises. *)
Definition describe (c : string) (t : dtype) : result descriptor :=
  match t with
  | dtype_other => Raise (KeyError "mean")
  | _ => Ok (descriptor_of c t)
  end.

(** [set_metadata]; [dtype_of] is the dtype pandas gave each column of the
    data, which the cells of the model do not carry.  [columns] is assigned
    after the loop. *)
Definition set_metadata (dtype_of : string -> dtype) : M unit :=
  fun cf =>
    match mapM (fun c => describe c (dtype_of c)) (df_columns (cf_df cf)) with
    | Ok descriptors => (set_columns descriptors cf, Ok tt)
    | Raise e => (cf, Raise e)
    end.

(** [continuous_columns] *)
Definition continuous_columns (cf : CrossFilter) : list descriptor :=
  List.filter (fun x => negb (is_discrete (col_type x))) (cf_columns cf).

(** [discrete_columns] *)
Definition discrete_columns (cf : CrossFilter) : list descriptor :=
  List.filter (fun x => is_discrete (col_type x)) (cf_columns cf).

(** [make_plot_choices]: unpacking the names of the first two continuous
    columns into [x, y] raises a [ValueError] when there are fewer than two
    (its message, which depends on the interpreter and on the number of
    names, is not tracked). *)
Definition make_plot_choices (cf : CrossFilter)
  : result (string * string * plot_type_t) :=
  match map col_name (firstn 2 (continuous_columns cf)) with
  | [x; y] => Ok (x, y, scatter)
  | _ => Raise (ValueError "need more than 1 value to unpack")
  end.

(** * Notions used in the statements, and sample data *)

Definition cell_eq (a b : cell) : Prop := cell_compare a b = Eq.
Definition cell_lt (a b : cell) : Prop := cell_compare a b = Lt.

(** Whether [f.filter] runs on a frame with header [cols]: the column must
    be there, unless the facet has no bound to test at all. *)
Definition facet_defined (cols : list string) (f : Facet) : bool :=
  match col_pos (facet_field f) cols with
  | Some _ => true
  | None =>
      match f with
      | FContinuous {| bins := (None, None) |} => true
      | _ => false
      end
  end.

(** Whether [f.filter] keeps the row. *)
Definition row_accepts (cols : list string) (f : Facet) (row : list cell)
  : bool :=
  match col_pos (facet_field f) cols with
  | Some p => facet_accepts f (row_get p row)
  | None => true
  end.

Definition keep_rows (df : DataFrame) (p : list cell -> bool) : DataFrame :=
  {| df_columns := df_columns df;
     df_values := List.filter p (df_values df) |}.


(** Whether the filter widget of the described column has nothing
    selected. *)
Definition selection_empty (cf : CrossFilter) (d : descriptor) : bool :=
  match cf_filter_widgets cf !! col_name d with
  | None => false
  | Some w =>
      match col_type d with
      | DiscreteColumn =>
          match w with
          | MultiSelect _ _ v => value_falsy v
          | Histogram _ => false
          end
      | _ =>
          match cf_filter_sources cf !! col_name d with
          | Some obj => match selected obj with [] => true | _ => false end
          | None => false
          end
      end
  end.




Definition blank_figure : Figure :=
  {| fig_title := ""; fig_plot_height := 200; fig_plot_width := 200;
     fig_tools := "pan,wheel_zoom,reset";
     fig_x_range := None; fig_y_range := None; fig_glyphs := [];
     xaxis_hidden := false; yaxis_hidden := false |}.

(** Which axes of each plot are hidden: the x-axis, the y-axis. *)
Definition hidden_axes (grid : list (list Figure)) : list (list (bool * bool)) :=
  map (map (fun plot => (xaxis_hidden plot, yaxis_hidden plot))) grid.

(** The grid of three rows and two columns whose last row has one cell. *)
Definition grid_3x2_short : list (list Figure) :=
  [[blank_figure; blank_figure]; [blank_figure; blank_figure]; [blank_figure]].

(** The axes hidden by design at row [i], column [j]: a cell with [j <> 0]
    hides its y-axis, and its x-axis too exactly when its row is the one
    above the last and the last row has a cell under column [j]; a cell with
    [j = 0] hides its x-axis unless it is in the last row. *)
Definition design_axes (grid : list (list Figure)) (i j : nat)
  : option axes_arg :=
  let n := length grid in
  if (j =? 0)%nat then
    if (i + 1 =? n)%nat then None else Some axes_x
  else if (i + 2 =? n)%nat && (j <? length (nth (i + 1) grid []))%nat
       then Some axes_both
       else Some axes_y.

Definition apply_axes (a : option axes_arg) (plot : Figure) : Figure :=
  match a with
  | Some axes => hide_axes plot axes
  | None => plot
  end.

Definition cell_design (is_bottom : bool) (next_len : option nat) (j : nat)
  : option axes_arg :=
  if (j =? 0)%nat then
    if is_bottom then None else Some axes_x
  else
    match is_bottom, next_len with
    | false, Some m => if (j <? m)%nat then Some axes_both else Some axes_y
    | _, _ => Some axes_y
    end.


(** The position of the [k]-th quantile in a series, times the number of
    quantiles. *)
Definition quantile_pos (s : list Q) (k : nat) : nat :=
  (k * (length s - 1))%nat.



(** The [k]-th of the five quartile edges of the values. *)
Definition edge (vals : list Q) (k : nat) : Q :=
  quantile (sort_floats vals) k 4.


Definition sample_external : External :=
  {| str_float := fun _ => "<float>";
     format_level := fun closed _ _ => if closed then "[lo, hi]" else "(lo, hi]";
     make_continuous_bar_source := fun df _ _ _ => Ok df;
     make_categorical_bar_source := fun df _ _ _ => Ok df;
     make_histogram_centers := fun _ => [] |}.

Definition sample_frame : DataFrame :=
  {| df_columns := ["category"; "value"];
     df_values :=
       [[Str "A"; Num 1]; [Str "B"; Num 2]; [Str "A"; Num 3];
        [Str "B"; Num 4]; [Str "A"; Num 5]] |}.

Definition category_descriptor : descriptor :=
  {| col_name := "category"; col_type := DiscreteColumn |}.

Definition value_descriptor : descriptor :=
  {| col_name := "value"; col_type := ContinuousColumn |}.

Definition sample_cf : CrossFilter :=
  {| cf_columns := [category_descriptor; value_descriptor];
     cf_data := sample_frame;
     cf_filtered_data := sample_frame;
     cf_filter_sources := ∅;
     cf_filtering_columns := [];
     cf_filter_widgets := ∅;
     cf_facet_x := ["category"];
     cf_facet_y := [];
     cf_facet_tab := [];
     cf_plot := Some (DPage (PFigure blank_figure));
     cf_x_range := None;
     cf_y_range := None;
     cf_plot_type := scatter;
     cf_x := "category";
     cf_y := "value";
     cf_agg := "sum";
     cf__df := None |}.

(** The same application with a filter on [category] that selects [A]. *)
Definition filtering_cf (selected : list cell) : CrossFilter :=
  set_filtered_data
    (getitem_mask sample_frame [true; false; true; false; true])
    (set_filters ∅
       {["category" := MultiSelect "category" [Str "A"; Str "B"]
                                   (value_list selected)]}
       sample_cf).


Definition sample_bar_plugin : Plugin :=
  new_Plugin bar sample_cf sample_frame false None
    {| kw_plot_height := 680; kw_plot_width := 700;
       kw_tools := default_tools;
       kw_x_range := None; kw_y_range := None |}.

(** Whether a range of the given axis column covers the cell: a factor
    range lists an equal factor, a data range spans the number. *)
Definition range_covers (r : Range) (c : cell) : Prop :=
  match r with
  | FactorRange factors => exists f, In f factors /\ cell_eq c f
  | DataRange1d (Some lo) (Some hi) =>
      exists v, c = Num v /\ (lo <= v)%Q /\ (v <= hi)%Q
  | _ => False
  end.

(** [plot'] is [plot] with, at most, more axes hidden. *)
Definition only_hides (plot plot' : Figure) : Prop :=
  fig_title plot' = fig_title plot
  /\ fig_plot_height plot' = fig_plot_height plot
  /\ fig_plot_width plot' = fig_plot_width plot
  /\ fig_tools plot' = fig_tools plot
  /\ fig_x_range plot' = fig_x_range plot
  /\ fig_y_range plot' = fig_y_range plot
  /\ fig_glyphs plot' = fig_glyphs plot
  /\ (xaxis_hidden plot = true -> xaxis_hidden plot' = true)
  /\ (yaxis_hidden plot = true -> yaxis_hidden plot' = true).

(** Whether the selection made in the filter widget of the described
    column keeps the row of a frame with header [cols]: a non-empty list of
    a [MultiSelect] keeps the rows whose cell is listed, a non-empty
    selection of histogram bars keeps the rows whose cell lies between the
    centres of the lowest and the highest selected bar, and anything else
    keeps every row. *)
Definition selection_accepts (cf : CrossFilter) (cols : list string)
           (d : descriptor) (row : list cell) : bool :=
  match cf_filter_widgets cf !! col_name d, col_pos (col_name d) cols with
  | Some w, Some p =>
      let c := row_get p row in
      if is_discrete (col_type d) then
        match w with
        | MultiSelect _ _ (value_list (v :: l)) =>
            existsb (cell_eqb c) (v :: l)
        | _ => true
        end
      else
        match cf_filter_sources cf !! col_name d with
        | Some obj =>
            match selected obj,
                  nth_error (centers obj) (nat_min (selected obj)),
                  nth_error (centers obj) (nat_max (selected obj)) with
            | _ :: _, Some lo, Some hi =>
                cell_geb c (Num lo) && cell_leb c (Num hi)
            | _, _, _ => true
            end
        | None => true
        end
  | _, _ => true
  end.

(** The widget [setup_filter_widgets] creates for a column: a [MultiSelect]
    over the distinct values for a discrete column, a histogram plot
    otherwise. *)
Definition fresh_widget (d : descriptor) (col : string) (series : list cell)
  : Widget :=
  if is_discrete (col_type d)
  then MultiSelect col (pd_unique series) (value_list [])
  else Histogram col.

(** A plugin pointed at another controller. *)
Definition with_cf (c : CrossFilter) (p : Plugin) : Plugin :=
  {| pl_class := pl_class p;
     pl_cf := c;
     pl_x := pl_x p;
     pl_y := pl_y p;
     pl_agg := pl_agg p;
     pl_source := pl_source p;
     pl_facet := pl_facet p;
     pl_col_meta := pl_col_meta p;
     pl_valid_plot := pl_valid_plot p;
     pl__title := pl__title p;
     pl_kwargs := pl_kwargs p |}.

Definition is_object (t : dtype) : bool :=
  match t with dtype_object => true | _ => false end.

Definition is_other (t : dtype) : bool :=
  match t with dtype_other => true | _ => false end.

(** ** Further sample data *)

(** Assigning the facet attributes. *)
Definition set_facets (facet_x facet_y facet_tab : list string)
           (cf : CrossFilter) : CrossFilter :=
  {| cf_columns := cf_columns cf; cf_data := cf_data cf;
     cf_filtered_data := cf_filtered_data cf;
     cf_filter_sources := cf_filter_sources cf;
     cf_filtering_columns := cf_filtering_columns cf;
     cf_filter_widgets := cf_filter_widgets cf;
     cf_facet_x := facet_x; cf_facet_y := facet_y;
     cf_facet_tab := facet_tab; cf_plot := cf_plot cf;
     cf_x_range := cf_x_range cf; cf_y_range := cf_y_range cf;
     cf_plot_type := cf_plot_type cf; cf_x := cf_x cf; cf_y := cf_y cf;
     cf_agg := cf_agg cf; cf__df := cf__df cf |}.

(** Assigning [filtering_columns]. *)
Definition set_filtering_columns (cols : list string) (cf : CrossFilter)
  : CrossFilter :=
  {| cf_columns := cf_columns cf; cf_data := cf_data cf;
     cf_filtered_data := cf_filtered_data cf;
     cf_filter_sources := cf_filter_sources cf;
     cf_filtering_columns := cols;
     cf_filter_widgets := cf_filter_widgets cf;
     cf_facet_x := cf_facet_x cf; cf_facet_y := cf_facet_y cf;
     cf_facet_tab := cf_facet_tab cf; cf_plot := cf_plot cf;
     cf_x_range := cf_x_range cf; cf_y_range := cf_y_range cf;
     cf_plot_type := cf_plot_type cf; cf_x := cf_x cf; cf_y := cf_y cf;
     cf_agg := cf_agg cf; cf__df := cf__df cf |}.

(** A controller that also keeps the frame [df] in [_df]. *)
Definition with_own_frame (df : DataFrame) (cf : CrossFilter) : CrossFilter :=
  {| cf_columns := cf_columns cf; cf_data := cf_data cf;
     cf_filtered_data := cf_filtered_data cf;
     cf_filter_sources := cf_filter_sources cf;
     cf_filtering_columns := cf_filtering_columns cf;
     cf_filter_widgets := cf_filter_widgets cf;
     cf_facet_x := cf_facet_x cf; cf_facet_y := cf_facet_y cf;
     cf_facet_tab := cf_facet_tab cf; cf_plot := cf_plot cf;
     cf_x_range := cf_x_range cf; cf_y_range := cf_y_range cf;
     cf_plot_type := cf_plot_type cf; cf_x := cf_x cf; cf_y := cf_y cf;
     cf_agg := cf_agg cf; cf__df := Some df |}.

(** Other data, in both sources and without [_df]. *)
Definition with_data (columns : list descriptor) (df : DataFrame)
           (cf : CrossFilter) : CrossFilter :=
  {| cf_columns := columns; cf_data := df;
     cf_filtered_data := df;
     cf_filter_sources := cf_filter_sources cf;
     cf_filtering_columns := cf_filtering_columns cf;
     cf_filter_widgets := cf_filter_widgets cf;
     cf_facet_x := cf_facet_x cf; cf_facet_y := cf_facet_y cf;
     cf_facet_tab := cf_facet_tab cf; cf_plot := cf_plot cf;
     cf_x_range := cf_x_range cf; cf_y_range := cf_y_range cf;
     cf_plot_type := cf_plot_type cf; cf_x := cf_x cf; cf_y := cf_y cf;
     cf_agg := cf_agg cf; cf__df := None |}.





Definition sample_category_facets : list Facet :=
  [FDiscrete (new_DiscreteFacet sample_external "category" (Str "A") None);
   FDiscrete (new_DiscreteFacet sample_external "category" (Str "B") None)].

(** Faceting by a column that is not described. *)
Definition unknown_facet_cf : CrossFilter :=
  set_facets ["category"; "colour"] [] [] sample_cf.

(** A Continuous column whose values are all the same. *)
Definition constant_cf : CrossFilter :=
  with_data [value_descriptor]
    {| df_columns := ["value"];
       df_values := [[Num 2]; [Num 2]; [Num 2]] |}
    (set_facets ["value"] [] [] sample_cf).

(** The sample application over a frame without rows. *)
Definition empty_cf : CrossFilter :=
  with_data [category_descriptor; value_descriptor]
    {| df_columns := ["category"; "value"]; df_values := [] |}
    sample_cf.

Definition group_descriptor : descriptor :=
  {| col_name := "group"; col_type := DiscreteColumn |}.

(** Two Discrete columns, one on each facet dimension. *)
Definition grid_cf : CrossFilter :=
  with_data [category_descriptor; group_descriptor; value_descriptor]
    {| df_columns := ["category"; "group"; "value"];
       df_values :=
         [[Str "A"; Str "u"; Num 1]; [Str "B"; Str "u"; Num 2];
          [Str "A"; Str "v"; Num 3]; [Str "B"; Str "v"; Num 4]] |}
    (set_facets ["category"] ["group"] [] sample_cf).

Definition sample_scatter_plugin : Plugin :=
  new_Plugin scatter sample_cf sample_frame false None
    {| kw_plot_height := 680; kw_plot_width := 700;
       kw_tools := default_tools;
       kw_x_range := None; kw_y_range := None |}.

(** A selection that is a string. *)
Definition string_selection_cf : CrossFilter :=
  set_filters ∅
    {["category" := MultiSelect "category" [Str "A"; Str "B"]
                                (value_str "A")]}
    sample_cf.

(** The rows of the sample frame of category [A]. *)
Definition sample_frame_A : DataFrame :=
  {| df_columns := ["category"; "value"];
     df_values := [[Str "A"; Num 1]; [Str "A"; Num 3]; [Str "A"; Num 5]] |}.

(** The sample application asked to filter on [category]. *)
Definition adding_filter_cf : CrossFilter :=
  set_filtering_columns ["category"] sample_cf.

(** The sample frame with its index as one more column. *)
Definition indexed_frame : DataFrame :=
  {| df_columns := ["category"; "value"; "index"];
     df_values :=
       [[Str "A"; Num 1; Num 0]; [Str "B"; Num 2; Num 1];
        [Str "A"; Num 3; Num 2]; [Str "B"; Num 4; Num 3];
        [Str "A"; Num 5; Num 4]] |}.

(** The sample application, with a selection of [A], keeping the sample
    frame in [_df] beside sources that hold the frame and its index. *)
Definition created_cf : CrossFilter :=
  with_own_frame sample_frame
    (with_data [category_descriptor; value_descriptor] indexed_frame
               (filtering_cf [Str "A"])).


(** A Discrete column that holds strings and a number. *)
Definition mixed_cf : CrossFilter :=
  with_data [category_descriptor; value_descriptor]
    {| df_columns := ["category"; "value"];
       df_values :=
         [[Str "A"; Num 1]; [Num 1; Num 2]; [Str "B"; Num 3]] |}
    sample_cf.


(** * Properties *)

(** ** Basic facts about masks and filters *)

Lemma mask_select_map {A} (p : A -> bool) (g : A -> cell) (q : cell -> bool)
      (l : list A) :
  (forall a, q (g a) = p a) ->
  mask_select (map q (map g l)) l = List.filter p l.
Proof.
  intros Hq. induction l as [|a l IH]; simpl; [reflexivity|].
  rewrite Hq, IH. reflexivity.
Qed.

Lemma getitem_mask_filter df name p (q : cell -> bool) col :
  col_pos name (df_columns df) = Some p ->
  getitem df name = Ok col ->
  getitem_mask df (map q col) =
    {| df_columns := df_columns df;
       df_values := List.filter (fun r => q (row_get p r)) (df_values df) |}.
Proof.
  unfold getitem. intros Hp. rewrite Hp. intros [= <-].
  unfold getitem_mask. f_equal.
  apply mask_select_map. reflexivity.
Qed.

Lemma filter_andb {A} (p q : A -> bool) (l : list A) :
  List.filter q (List.filter p l) = List.filter (fun a => p a && q a) l.
Proof.
  induction l as [|a l IH]; simpl; [reflexivity|].
  destruct (p a); simpl; [destruct (q a)|]; rewrite IH; reflexivity.
Qed.

Lemma filter_true {A} (l : list A) : List.filter (fun _ => true) l = l.
Proof. induction l as [|a l IH]; simpl; [|rewrite IH]; reflexivity. Qed.

Lemma filter_ext' {A} (p q : A -> bool) (l : list A) :
  (forall a, p a = q a) -> List.filter p l = List.filter q l.
Proof.
  intros H. induction l as [|a l IH]; simpl; [reflexivity|].
  rewrite H, IH. reflexivity.
Qed.

(** A facet filter is a row filter on the facet's column, and raises exactly
    when the column is absent. *)
Lemma facet_filter_spec (f : Facet) (df : DataFrame) :
  facet_filter f df =
    match col_pos (facet_field f) (df_columns df) with
    | Some p =>
        Ok {| df_columns := df_columns df;
              df_values :=
                List.filter (fun r => facet_accepts f (row_get p r))
                            (df_values df) |}
    | None =>
        match f with
        | FContinuous {| bins := (None, None) |} => Ok df
        | _ => Raise (KeyError (facet_field f))
        end
    end.
Proof.
  destruct f as [d | [b [lo hi]]]; simpl.
  - unfold DiscreteFacet_filter, getitem.
    destruct (col_pos (field d) (df_columns df)) as [p|] eqn:Hp; simpl;
      [|reflexivity].
    f_equal. unfold getitem_mask. f_equal.
    apply (mask_select_map (fun r => cell_eqb (row_get p r) (_value d))).
    reflexivity.
  - unfold ContinuousFacet_filter, getitem; simpl.
    destruct (col_pos (field b) (df_columns df)) as [p|] eqn:Hp; simpl.
    + destruct lo as [lo|], hi as [hi|]; simpl; rewrite ?Hp; simpl.
      * f_equal. unfold getitem_mask; simpl. f_equal.
        rewrite (mask_select_map (fun r => cell_gtb (row_get p r) (Num lo))
                   (row_get p) _ (df_values df)) by reflexivity.
        rewrite (mask_select_map (fun r => cell_leb (row_get p r) (Num hi)))
          by reflexivity.
        apply filter_andb.
      * f_equal. unfold getitem_mask; simpl. f_equal.
        rewrite (mask_select_map (fun r => cell_gtb (row_get p r) (Num lo)))
          by reflexivity.
        apply filter_ext'. intros a. rewrite andb_true_r. reflexivity.
      * f_equal. unfold getitem_mask; simpl. f_equal.
        rewrite (mask_select_map (fun r => cell_leb (row_get p r) (Num hi)))
          by reflexivity.
        reflexivity.
      * destruct df; simpl. f_equal. f_equal. symmetry. apply filter_true.
    + destruct lo as [lo|], hi as [hi|]; simpl; rewrite ?Hp; reflexivity.
Qed.

(** ** The order on cells *)

Lemma string_compare_refl (s : string) : String_as_OT.compare s s = Eq.
Proof.
  destruct (String_as_OT.compare_spec s s) as [_|H|H]; [reflexivity| |];
    exfalso; revert H; apply (StrictOrder_Irreflexive s).
Qed.


Lemma string_compare_antisym (s t : string) :
  String_as_OT.compare t s = CompOpp (String_as_OT.compare s t).
Proof.
  destruct (String_as_OT.compare_spec s t) as [H|H|H]; simpl.
  - rewrite H. apply string_compare_refl.
  - destruct (String_as_OT.compare_spec t s) as [H'|H'|H']; [| |reflexivity].
    + exfalso. rewrite H' in H. revert H. apply (StrictOrder_Irreflexive s).
    + exfalso. apply (StrictOrder_Irreflexive s).
      eapply (StrictOrder_Transitive s t s); eassumption.
  - exact H.
Qed.

Lemma cell_compare_antisym (a b : cell) :
  cell_compare b a = CompOpp (cell_compare a b).
Proof.
  destruct a as [s|p], b as [t|q]; simpl; try reflexivity.
  - apply string_compare_antisym.
  - symmetry. apply Qcompare_antisym.
Qed.

Lemma cell_eq_refl (a : cell) : cell_eq a a.
Proof.
  destruct a as [s|p]; unfold cell_eq; simpl.
  - apply string_compare_refl.
  - apply Qeq_alt. reflexivity.
Qed.





Lemma cell_lt_trans (a b c : cell) : cell_lt a b -> cell_lt b c -> cell_lt a c.
Proof.
  unfold cell_lt.
  destruct a as [s|p], b as [t|q], c as [u|r]; simpl;
    try discriminate; try reflexivity.
  - apply (StrictOrder_Transitive (R := String_as_OT.lt)).
  - rewrite <- !Qlt_alt. apply Qlt_trans.
Qed.



(** ** [np_unique] lists every value once, in ascending order *)

Lemma insert_unique_sorted (c : cell) (l : list cell) :
  StronglySorted cell_lt l ->
  StronglySorted cell_lt (insert_unique c l)
  /\ (forall d, Forall (cell_lt d) l -> cell_lt d c ->
                Forall (cell_lt d) (insert_unique c l)).
Proof.
  induction l as [|d l IH]; simpl; intros Hs.
  - split; [repeat constructor|]. intros; repeat constructor; assumption.
  - apply StronglySorted_inv in Hs. destruct Hs as [Hs Hd].
    destruct (cell_compare c d) eqn:Hc.
    + split; [constructor; assumption|]. intros; assumption.
    + split.
      * constructor; [constructor; assumption|].
        constructor; [exact Hc|].
        eapply List.Forall_impl; [|exact Hd].
        intros e He. eapply cell_lt_trans; eassumption.
      * intros e He Hec. constructor; assumption.
    + destruct (IH Hs) as [IH1 IH2]. split.
      * constructor; [exact IH1|]. apply IH2; [exact Hd|].
        unfold cell_lt. rewrite cell_compare_antisym, Hc. reflexivity.
      * intros e He Hec. inversion He; subst.
        constructor; [assumption|]. apply IH2; assumption.
Qed.

Lemma np_unique_sorted (values : list cell) :
  StronglySorted cell_lt (np_unique values).
Proof.
  induction values as [|c l IH]; simpl; [constructor|].
  apply insert_unique_sorted. exact IH.
Qed.

Lemma insert_unique_In (c : cell) (l : list cell) (d : cell) :
  In d (insert_unique c l) -> d = c \/ In d l.
Proof.
  induction l as [|e l IH]; simpl.
  - intros [H|[]]; left; congruence.
  - destruct (cell_compare c e); simpl.
    + intros H; right; exact H.
    + intros [H|H]; [left; congruence|right; exact H].
    + intros [H|H]; [right; left; exact H|].
      destruct (IH H) as [H'|H']; [left|right; right]; assumption.
Qed.

Lemma insert_unique_keeps (c : cell) (l : list cell) (d : cell) :
  In d l -> In d (insert_unique c l).
Proof.
  induction l as [|e l IH]; simpl; [intros []|].
  destruct (cell_compare c e); simpl; intros [H|H]; auto.
Qed.

Lemma insert_unique_has (c : cell) (l : list cell) :
  exists d, In d (insert_unique c l) /\ cell_eq c d.
Proof.
  induction l as [|e l IH]; simpl.
  - exists c. split; [left; reflexivity|apply cell_eq_refl].
  - destruct (cell_compare c e) eqn:Hc.
    + exists e. split; [left; reflexivity|exact Hc].
    + exists c. split; [left; reflexivity|apply cell_eq_refl].
    + destruct IH as [d [Hd He]]. exists d. split; [right; exact Hd|exact He].
Qed.

(** Every value of the series is equal to a listed one. *)
Lemma np_unique_complete (values : list cell) (c : cell) :
  In c values -> exists d, In d (np_unique values) /\ cell_eq c d.
Proof.
  induction values as [|e l IH]; simpl; [intros []|].
  intros [->|H].
  - apply insert_unique_has.
  - destruct (IH H) as [d [Hd He]]. exists d. split; [|exact He].
    apply insert_unique_keeps. exact Hd.
Qed.

(** Every listed value occurs in the series. *)
Lemma np_unique_sound (values : list cell) (d : cell) :
  In d (np_unique values) -> In d values.
Proof.
  induction values as [|e l IH]; simpl; [intros []|].
  intros H. apply insert_unique_In in H. destruct H as [->|H]; auto.
Qed.



(** ** Facet filters as row filters *)

Lemma facet_filter_rows (f : Facet) (df : DataFrame) :
  match facet_filter f df with
  | Ok df' =>
      facet_defined (df_columns df) f = true
      /\ df' = keep_rows df (row_accepts (df_columns df) f)
  | Raise _ => facet_defined (df_columns df) f = false
  end.
Proof.
  rewrite facet_filter_spec. unfold facet_defined, row_accepts, keep_rows.
  destruct (col_pos (facet_field f) (df_columns df)) as [p|] eqn:Hp.
  - split; reflexivity.
  - destruct f as [d|[b [[lo|] [hi|]]]]; try reflexivity.
    split; [reflexivity|]. destruct df; simpl. f_equal.
    symmetry. apply filter_true.
Qed.

Lemma facet_data_rows (facets : list Facet) (df : DataFrame) :
  match facet_data facets df with
  | Ok df' =>
      forallb (facet_defined (df_columns df)) facets = true
      /\ df' = keep_rows df
                 (fun row => forallb (fun f => row_accepts (df_columns df) f row)
                                     facets)
  | Raise _ => forallb (facet_defined (df_columns df)) facets = false
  end.
Proof.
  revert df. induction facets as [|f fs IH]; intros df; simpl.
  - split; [reflexivity|]. destruct df; unfold keep_rows; simpl. f_equal.
    symmetry. apply filter_true.
  - pose proof (facet_filter_rows f df) as Hf.
    destruct (facet_filter f df) as [df1|e]; simpl.
    + destruct Hf as [Hd ->]. rewrite Hd. simpl.
      specialize (IH (keep_rows df (row_accepts (df_columns df) f))).
      simpl in IH.
      destruct (facet_data fs (keep_rows df (row_accepts (df_columns df) f)))
        as [df2|e2].
      * destruct IH as [Hds ->]. split; [exact Hds|].
        unfold keep_rows; simpl. f_equal. apply filter_andb.
      * exact IH.
    + rewrite Hf. reflexivity.
Qed.

Lemma keep_rows_twice (df : DataFrame) (p : list cell -> bool) :
  keep_rows (keep_rows df p) p = keep_rows df p.
Proof.
  unfold keep_rows; simpl. f_equal. rewrite filter_andb.
  apply filter_ext'. intros a. destruct (p a); reflexivity.
Qed.

Lemma facet_filter_twice (f : Facet) (df : DataFrame) :
  (let* df' := facet_filter f df in facet_filter f df') = facet_filter f df.
Proof.
  pose proof (facet_filter_rows f df) as H.
  destruct (facet_filter f df) as [df1|e] eqn:H1; simpl; [|reflexivity].
  destruct H as [Hd ->].
  pose proof (facet_filter_rows f (keep_rows df (row_accepts (df_columns df) f)))
    as H2.
  simpl in H2.
  destruct (facet_filter f (keep_rows df (row_accepts (df_columns df) f)))
    as [df2|e2].
  - destruct H2 as [_ ->]. simpl. rewrite keep_rows_twice. reflexivity.
  - congruence.
Qed.

Lemma facet_data_twice (facets : list Facet) (df : DataFrame) :
  (let* df' := facet_data facets df in facet_data facets df')
  = facet_data facets df.
Proof.
  pose proof (facet_data_rows facets df) as H.
  destruct (facet_data facets df) as [df1|e] eqn:H1; simpl; [|reflexivity].
  destruct H as [Hd ->].
  match goal with |- facet_data _ ?d = _ =>
    pose proof (facet_data_rows facets d) as H2; simpl in H2;
    destruct (facet_data facets d) as [df2|e2] end.
  - destruct H2 as [_ ->]. simpl. rewrite keep_rows_twice. reflexivity.
  - congruence.
Qed.

(** Filtering again by some of the facets already applied changes
    nothing. *)
Lemma facet_data_again (facets extra : list Facet) (df : DataFrame) :
  (let* df' := facet_data (facets ++ extra)%list df in facet_data facets df')
  = facet_data (facets ++ extra)%list df.
Proof.
  pose proof (facet_data_rows (facets ++ extra)%list df) as H.
  destruct (facet_data (facets ++ extra)%list df) as [df1|e] eqn:H1; simpl;
    [|reflexivity].
  destruct H as [Hd ->].
  rewrite forallb_app in Hd. apply andb_true_iff in Hd. destruct Hd as [Hd _].
  match goal with |- facet_data _ ?d = _ =>
    pose proof (facet_data_rows facets d) as H2; simpl in H2;
    destruct (facet_data facets d) as [df2|e2] end.
  - destruct H2 as [_ ->]. unfold keep_rows; simpl.
    rewrite filter_andb. erewrite filter_ext'; [reflexivity|]. intros row.
    cbv beta.
    rewrite forallb_app.
    destruct (forallb (fun f => row_accepts (df_columns df) f row) facets),
      (forallb (fun f => row_accepts (df_columns df) f row) extra);
      reflexivity.
  - congruence.
Qed.

(** C9: every facet's filter is idempotent, so is the application of a list
    of facets, also after further facets; and [make_single_plot] called on
    a frame that was already filtered by the facets it is given plots that
    very frame: filtering it again, twice, changes nothing. *)
Theorem facet_filter_idempotent :
  (forall (f : Facet) (df : DataFrame),
      (let* df' := facet_filter f df in facet_filter f df')
      = facet_filter f df)
  /\ (forall (facets : list Facet) (df : DataFrame),
         (let* df' := facet_data facets df in facet_data facets df')
         = facet_data facets df)
  /\ (forall (facets extra : list Facet) (df : DataFrame),
         (let* df' := facet_data (facets ++ extra)%list df in
          facet_data facets df')
         = facet_data (facets ++ extra)%list df)
  /\ (forall (E : External) (cf : CrossFilter) (facets : list Facet)
             (df : DataFrame) (title : option string) (w h : nat)
             (tools : string),
         (let* df0 := facet_data facets df in
          make_single_plot E cf (Some df0) title w h tools (Some facets))
         = (let* df0 := facet_data facets df in
            get_plot E
              (new_Plugin (cf_plot_type cf) cf df0 true title
                 {| kw_plot_height := h; kw_plot_width := w; kw_tools := tools;
                    kw_x_range := cf_x_range cf;
                    kw_y_range := cf_y_range cf |}))).
Proof.
  split; [exact facet_filter_twice|]. split; [exact facet_data_twice|].
  split; [exact facet_data_again|].
  intros E cf facets df title w h tools.
  pose proof (facet_data_twice facets df) as H.
  destruct (facet_data facets df) as [df0|e] eqn:H0; [|reflexivity].
  cbn [rbind] in H |- *.
  unfold make_single_plot. cbn [facet_data_opt].
  rewrite H. cbn [rbind fst snd].
  destruct facets as [|f fs]; cbn [truthy]; [reflexivity|].
  cbn [facet_data_opt]. rewrite H. reflexivity.
Qed.

(** ** Discrete facets partition the data *)







Lemma sorted_unique_inv (py : python) (values uniq : list cell) :
  sorted_unique py values = Ok uniq -> uniq = np_unique values.
Proof.
  unfold sorted_unique. destruct py; [congruence|].
  destruct (mixed_types values); [discriminate|congruence].
Qed.


(** ** The cross step *)

Lemma cross_length {A} (start : list (list A)) (facets : list A) :
  length (cross start facets) = (length start * length facets)%nat.
Proof.
  unfold cross. induction start as [|a start IH]; simpl; [reflexivity|].
  rewrite length_app, length_map, IH. reflexivity.
Qed.

Lemma cross_In {A} (start : list (list A)) (facets : list A) (c : list A) :
  In c (cross start facets) <->
  exists prefix facet,
    In prefix start /\ In facet facets /\ c = (prefix ++ [facet])%list.
Proof.
  unfold cross. rewrite in_flat_map. split.
  - intros [prefix [Hp Hc]]. apply in_map_iff in Hc.
    destruct Hc as [facet [<- Hf]]. exists prefix, facet. auto.
  - intros [prefix [facet [Hp [Hf ->]]]]. exists prefix. split; [exact Hp|].
    apply in_map_iff. exists facet. auto.
Qed.

Lemma cross_NoDup {A} (start : list (list A)) (facets : list A) :
  List.NoDup start -> List.NoDup facets -> List.NoDup (cross start facets).
Proof.
  intros Hs Hf. unfold cross.
  induction Hs as [|a start Ha Hs IH]; simpl; [constructor|].
  apply List.NoDup_app.
  - apply Finite.Injective_map_NoDup; [|exact Hf].
    intros x y Hxy. apply app_inj_tail in Hxy. destruct Hxy as [_ Hxy].
    exact Hxy.
  - exact IH.
  - intros c Hc Hc'. apply in_map_iff in Hc. destruct Hc as [x [<- Hx]].
    apply in_flat_map in Hc'. destruct Hc' as [b [Hb Hc']].
    apply in_map_iff in Hc'. destruct Hc' as [y [Hy _]].
    apply app_inj_tail in Hy. destruct Hy as [-> _]. contradiction.
Qed.

Lemma make_facets_loop_fold (E : External) (py : python) (cf : CrossFilter)
      (fields : list string) (ffs : list (list Facet))
      (all_facets : list (list Facet)) :
  mapM (field_facets E py cf) fields = Ok ffs ->
  make_facets_loop E py cf fields all_facets
  = Ok (fold_left cross ffs all_facets).
Proof.
  revert ffs all_facets. induction fields as [|f fields IH];
    intros ffs all_facets; simpl.
  - intros [= <-]. reflexivity.
  - destruct (field_facets E py cf f) as [ff|e]; simpl; [|discriminate].
    destruct (mapM (field_facets E py cf) fields) as [ffs'|e]; simpl;
      [|discriminate].
    intros [= <-]. simpl. apply IH. reflexivity.
Qed.

(** C6: [make_facets] folds [cross] over the facets of the faceted columns,
    starting from the list that holds the empty combination; and for lists
    [A] of combinations and [B] of facets without duplicates, [cross A B]
    has [|A| * |B|] elements, which are exactly the concatenations of an
    [A]-prefix and a [B]-facet, and has no duplicates. *)
Theorem cross_is_cartesian_fold (E : External) (py : python)
        (cf : CrossFilter)
        (dimension : string) (ffs : list (list Facet))
        (A : list (list Facet)) (B : list Facet) :
  mapM (field_facets E py cf) (dimension_facets cf dimension) = Ok ffs ->
  List.NoDup A -> List.NoDup B ->
  make_facets E py cf dimension = Ok (fold_left cross ffs [[]])
  /\ (forall prefixes facets,
        cross prefixes facets
        = flat_map (fun prefix =>
                      map (fun facet : Facet => (prefix ++ [facet])%list) facets)
                   prefixes)
  /\ length (cross A B) = (length A * length B)%nat
  /\ (forall c, In c (cross A B) <->
                exists a b, In a A /\ In b B /\ c = (a ++ [b])%list)
  /\ List.NoDup (cross A B).
Proof.
  intros Hm HA HB. split; [|split; [|split; [|split]]].
  - apply make_facets_loop_fold. exact Hm.
  - reflexivity.
  - apply cross_length.
  - apply cross_In.
  - apply cross_NoDup; assumption.
Qed.

(** ** Plot titles *)

(** C5, as stated, fails: with [x = "a"] and [y = "b"] the default title is
    ["a by b"], not ["b by a"]. *)
Lemma default_title_not_y_by_x :
  CrossFilterPlugin_title "a" "b" <> "b" ++ " by " ++ "a".
Proof. vm_compute. discriminate. Qed.

(** C5, amended: the default title is [x], then [" by "], then [y]; the bar
    plugin's title is the aggregation, then ["("], [y], [") by "], [x]; and a
    plugin built without a title shows that title. *)
Theorem plugin_titles (cf : CrossFilter) (cls : plot_type_t)
        (source : DataFrame) (facet : bool) (kwargs : FigureKwargs)
        (x y agg : string) :
  CrossFilterPlugin_title x y = x ++ " by " ++ y
  /\ CrossBarPlugin_title agg x y = agg ++ "(" ++ y ++ ") by " ++ x
  /\ fig_title (make_figure (new_Plugin cls cf source facet None kwargs))
     = match cls with
       | bar => cf_agg cf ++ "(" ++ cf_y cf ++ ") by " ++ cf_x cf
       | _ => cf_x cf ++ " by " ++ cf_y cf
       end.
Proof.
  split; [reflexivity|]. split; [reflexivity|].
  destruct cls; reflexivity.
Qed.

(** ** Validation of a bar plot *)

Lemma getitem_length (df : DataFrame) (name : string) (col : list cell) :
  getitem df name = Ok col -> length col = length (df_values df).
Proof.
  unfold getitem. destruct (col_pos name (df_columns df)); [|discriminate].
  intros [= <-]. apply length_map.
Qed.

Lemma length_0_df_empty (df : DataFrame) :
  length (df_values df) = 0%nat -> df_empty df = true.
Proof.
  unfold df_empty. destruct (df_values df); [|discriminate].
  intros _. destruct (df_columns df); reflexivity.
Qed.

(** C4: on a freshly built bar plugin whose [x] and [y] are columns of its
    source, [validate_plot] returns, and the plot is invalid exactly when
    the [y] column is Discrete, or [x] equals [y], or the subset is empty;
    each case sets its own title, a later test overriding an earlier one. *)
Theorem bar_validate_plot (p : Plugin) (d : descriptor) (px py : nat) :
  pl_class p = bar ->
  pl_valid_plot p = true ->
  pl_col_meta p !! pl_y p = Some d ->
  col_pos (pl_x p) (df_columns (pl_source p)) = Some px ->
  col_pos (pl_y p) (df_columns (pl_source p)) = Some py ->
  exists p',
    validate_plot p = Ok p'
    /\ (pl_valid_plot p' = false <->
        col_type d = DiscreteColumn
        \/ pl_x p = pl_y p
        \/ df_empty (pl_source p) = true)
    /\ pl__title p'
       = if df_empty (pl_source p) then "All data is filtered out"
         else if String.eqb (pl_x p) (pl_y p)
              then "Bar does not support x and y of same column"
              else if is_discrete (col_type d)
                   then "Bar does not support discrete y column"
                   else pl__title p.
Proof.
  intros Hcls Hvalid Hd Hx Hy.
  unfold validate_plot. rewrite Hcls. unfold CrossBarPlugin_validate_plot.
  assert (Hbase : exists p1,
             CrossFilterPlugin_validate_plot p = Ok p1
             /\ pl_x p1 = pl_x p /\ pl_y p1 = pl_y p
             /\ pl_source p1 = pl_source p /\ pl_col_meta p1 = pl_col_meta p
             /\ (p1 = p \/ df_empty (pl_source p) = true)).
  { unfold CrossFilterPlugin_validate_plot.
    destruct (pl_facet p); simpl; [exists p; auto 10|].
    destruct (getitem (pl_source p) (pl_x p)) as [xs|e] eqn:Hxs;
      [|unfold getitem in Hxs; rewrite Hx in Hxs; discriminate].
    simpl. apply getitem_length in Hxs.
    destruct (length xs =? 0)%nat eqn:Hlx.
    - apply Nat.eqb_eq in Hlx. eexists. split; [reflexivity|]. simpl.
      repeat split. right. apply length_0_df_empty. congruence.
    - destruct (getitem (pl_source p) (pl_y p)) as [ys|e] eqn:Hys;
        [|unfold getitem in Hys; rewrite Hy in Hys; discriminate].
      simpl. apply getitem_length in Hys.
      destruct (length ys =? 0)%nat eqn:Hly.
      + apply Nat.eqb_eq in Hly. eexists. split; [reflexivity|]. simpl.
        repeat split. right. apply length_0_df_empty. congruence.
      + exists p. auto 10. }
  destruct Hbase as [p1 [-> [H1x [H1y [H1s [H1m Hp1]]]]]]. simpl.
  unfold y_type, dict_get. rewrite H1m, H1y, Hd. simpl.
  assert (Hdisc : is_discrete (col_type d) = true <-> col_type d = DiscreteColumn)
    by (destruct (col_type d); simpl; split; congruence).
  destruct (is_discrete (col_type d)) eqn:Ht; simpl;
    rewrite ?H1x, ?H1y;
    destruct (pl_x p =? pl_y p)%string eqn:Hxy; simpl;
    rewrite ?H1s;
    destruct (df_empty (pl_source p)) eqn:Hempty; simpl;
    eexists; (split; [reflexivity|]); simpl;
    try (split; [|reflexivity]; split; [intros _|reflexivity]);
    try (apply String.eqb_eq in Hxy);
    try solve [left; apply Hdisc; reflexivity
              |right; left; exact Hxy
              |right; right; reflexivity].
  destruct Hp1 as [->|]; [|discriminate].
  split; [|reflexivity]. rewrite Hvalid.
  apply String.eqb_neq in Hxy.
  split; [discriminate|].
  intros [H|[H|H]]; [|contradiction|discriminate].
  apply Hdisc in H. discriminate.
Qed.

(** ** A failed rebuild keeps the published display *)

Lemma update_xy_ranges_plot (E : External) (py : python) (cf : CrossFilter) :
  cf_plot (fst (update_xy_ranges E py cf)) = cf_plot cf.
Proof.
  unfold update_xy_ranges, sbind, lift, modify.
  destruct (make_xy_ranges E py (cf_plot_type cf) cf); reflexivity.
Qed.

Lemma set_plot_cases (E : External) (py : python) (cf : CrossFilter) :
  match set_plot E py cf with
  | (cf', Ok _) =>
      exists plot, make_plot E py (fst (update_xy_ranges E py cf)) = Ok plot
                   /\ cf_plot cf' = Some plot
  | (cf', Raise _) => cf_plot cf' = cf_plot cf
  end.
Proof.
  pose proof (update_xy_ranges_plot E py cf) as Hr.
  unfold set_plot, sbind.
  destruct (update_xy_ranges E py cf) as [cf1 [[]|e]]; simpl in *; [|exact Hr].
  unfold lift, modify.
  destruct (make_plot E py cf1) as [plot|e]; simpl; [|exact Hr].
  exists plot. split; reflexivity.
Qed.

Lemma setattr_plot (obj : selector) (new : string) (cf : CrossFilter) :
  cf_plot (fst (setattr obj new cf)) = cf_plot cf.
Proof.
  destruct obj; simpl; [|reflexivity..].
  destruct (parse_plot_type new); reflexivity.
Qed.

(** Naming an unknown column as [x] makes the rebuild raise [KeyError]. *)
Lemma unknown_x_raises (E : External) (py : python) (cf : CrossFilter)
      (new : string) :
  column_descriptor_dict cf !! new = None ->
  snd (plot_attribute_change E py x_selector new cf) = Raise (KeyError new).
Proof.
  intros Hnew.
  unfold plot_attribute_change, sbind, setattr, set_plot, sbind,
    update_xy_ranges, sbind, lift.
  cbn [fst snd].
  assert (Hr : make_xy_ranges E py (cf_plot_type cf)
                 (set_config (cf_plot_type cf) new (cf_y cf) (cf_agg cf) cf)
               = Raise (KeyError new)).
  { unfold make_xy_ranges, CrossBarPlugin_make_xy_ranges,
      CrossFilterPlugin_make_xy_ranges, axis_range, dict_get.
    change (column_descriptor_dict
              (set_config (cf_plot_type cf) new (cf_y cf) (cf_agg cf) cf))
      with (column_descriptor_dict cf).
    cbn [cf_x set_config]. rewrite Hnew.
    destruct (cf_plot_type cf); reflexivity. }
  cbn [cf_plot_type set_config]. rewrite Hr. reflexivity.
Qed.

(** C7: when the rebuild started by a change of the plot configuration
    raises, the [plot] attribute is what it was before; nothing new is
    published. *)
Theorem failed_rebuild_keeps_plot (E : External) (py : python)
        (cf cf' : CrossFilter) (obj : selector) (new : string) (e : exn) :
  plot_attribute_change E py obj new cf = (cf', Raise e) ->
  cf_plot cf' = cf_plot cf.
Proof.
  unfold plot_attribute_change, sbind.
  pose proof (setattr_plot obj new cf) as Hs.
  destruct (setattr obj new cf) as [cf1 [[]|e1]]; simpl in Hs.
  - pose proof (set_plot_cases E py cf1) as Hp.
    destruct (set_plot E py cf1) as [cf2 [[]|e2]]; [discriminate|].
    intros [= <- _]. congruence.
  - intros [= <- _]. exact Hs.
Qed.

(** ** An empty selection filters nothing *)

Lemma filter_step_empty (cf : CrossFilter) (df : DataFrame) (d : descriptor) :
  selection_empty cf d = true -> filter_step cf df d = Ok df.
Proof.
  unfold selection_empty, filter_step.
  destruct (cf_filter_widgets cf !! col_name d) as [w|]; [|discriminate].
  destruct (col_type d).
  - destruct w as [n o v|t]; [|discriminate]. simpl. intros ->. reflexivity.
  - unfold dict_get.
    destruct (cf_filter_sources cf !! col_name d) as [obj|]; [|discriminate].
    simpl. destruct (selected obj); [reflexivity|discriminate].
  - unfold dict_get.
    destruct (cf_filter_sources cf !! col_name d) as [obj|]; [|discriminate].
    simpl. destruct (selected obj); [reflexivity|discriminate].
Qed.

Lemma filter_loop_skip_empty (cf : CrossFilter) (columns : list descriptor)
      (df : DataFrame) :
  filter_loop cf columns df
  = filter_loop cf
      (List.filter (fun d => negb (selection_empty cf d)) columns) df.
Proof.
  revert df. induction columns as [|d columns IH]; intros df; simpl;
    [reflexivity|].
  destruct (selection_empty cf d) eqn:Hd; simpl.
  - rewrite (filter_step_empty cf df d Hd). simpl. apply IH.
  - destruct (filter_step cf df d); simpl; [apply IH|reflexivity].
Qed.

(** C10: a column whose widget value (Discrete) or source selection (Time,
    Continuous) is empty is passed over when the filtered data is
    recomputed: its step returns the frame unchanged, all rows retained, and
    the recomputation is the one over the other columns. *)
Theorem empty_selection_no_constraint (cf : CrossFilter) (d : descriptor)
        (columns : list descriptor) (df : DataFrame) :
  selection_empty cf d = true ->
  filter_step cf df d = Ok df
  /\ filter_loop cf (d :: columns) df = filter_loop cf columns df
  /\ filter_loop cf (cf_columns cf) (cf_df cf)
     = filter_loop cf
         (List.filter (fun d => negb (selection_empty cf d)) (cf_columns cf))
         (cf_df cf).
Proof.
  intros Hd. split; [apply filter_step_empty; exact Hd|]. split.
  - simpl. rewrite (filter_step_empty cf df d Hd). reflexivity.
  - apply filter_loop_skip_empty.
Qed.

(** ** Removing a filtering column *)




Lemma set_plot_keeps (E : External) (py : python) (cf : CrossFilter) :
  let cf' := fst (set_plot E py cf) in
  cf_filtered_data cf' = cf_filtered_data cf
  /\ cf_filter_widgets cf' = cf_filter_widgets cf
  /\ cf_filter_sources cf' = cf_filter_sources cf.
Proof.
  unfold set_plot, update_xy_ranges, sbind, lift, modify.
  destruct (make_xy_ranges E py (cf_plot_type cf) cf) as [r|e]; simpl; [|auto].
  destruct (make_plot E py _) as [plot|e]; simpl; auto.
Qed.




Lemma handle_filter_selection_state (E : External) (py : python)
      (cf : CrossFilter) (df filtered : DataFrame) :
  filter_loop cf (cf_columns cf) (cf_df cf) = Ok df ->
  select_columns df (df_columns (cf_data cf)) = Ok filtered ->
  let cf' := fst (handle_filter_selection E py cf) in
  cf_filter_widgets cf' = cf_filter_widgets cf
  /\ cf_filter_sources cf' = cf_filter_sources cf
  /\ cf_filtered_data cf' = filtered.
Proof.
  intros Hloop Hsel.
  unfold handle_filter_selection, sbind, lift, modify.
  rewrite Hloop, Hsel.
  destruct (set_plot_keeps E py (set_filtered_data filtered cf))
    as [H1 [H2 H3]].
  cbn zeta. rewrite H1, H2, H3. repeat split.
Qed.


(** ** Hiding the internal axes of a grid *)

(** C1, as stated, fails.  On the grid of three rows and two columns whose
    last row has one cell, the claim has cells (0,1) and (1,1) hide both
    axes.  On Python 2 both hide the y-axis only; on Python 3 the comparison
    with [None] at cell (0,1) raises, and nothing but the x-axis of cell
    (0,0) has been hidden. *)
Lemma grid_3x2_short_hidden_axes :
  let claimed :=
    [[(true, false); (true, true)];
     [(true, false); (true, true)];
     [(false, false)]] in
  hidden_axes (fst (hide_internal_axes Py2 grid_3x2_short))
  = [[(true, false); (false, true)];
     [(true, false); (false, true)];
     [(false, false)]]
  /\ snd (hide_internal_axes Py2 grid_3x2_short) = None
  /\ hidden_axes (fst (hide_internal_axes Py2 grid_3x2_short)) <> claimed
  /\ hidden_axes (fst (hide_internal_axes Py3 grid_3x2_short))
     = [[(true, false); (false, false)];
        [(false, false); (false, false)];
        [(false, false)]]
  /\ snd (hide_internal_axes Py3 grid_3x2_short)
     = Some (TypeError "'>=' not supported between 'int' and 'NoneType'")
  /\ hidden_axes (fst (hide_internal_axes Py3 grid_3x2_short)) <> claimed.
Proof.
  cbv zeta. repeat split; try reflexivity; vm_compute; discriminate.
Qed.

Lemma hide_cell_design (py : python) (is_bottom : bool)
      (next_len : option nat) (j : nat) (plot : Figure) :
  py = Py2 \/ is_bottom = true \/ is_Some next_len \/ j = 0%nat ->
  hide_cell py is_bottom next_len j plot
  = (apply_axes (cell_design is_bottom next_len j) plot, None).
Proof.
  intros H. unfold hide_cell, cell_design.
  destruct (j =? 0)%nat eqn:Hj; simpl.
  - destruct is_bottom; reflexivity.
  - destruct is_bottom; simpl; [reflexivity|].
    destruct next_len as [m|]; simpl.
    + destruct (Nat.leb_spec m j) as [Hle|Hlt].
      * apply Nat.ltb_ge in Hle. rewrite Hle. reflexivity.
      * apply Nat.ltb_lt in Hlt. rewrite Hlt. reflexivity.
    + destruct H as [->|[H|[[m H]|H]]]; [reflexivity|discriminate..|].
      apply Nat.eqb_neq in Hj. contradiction.
Qed.

Lemma hide_row_design (py : python) (is_bottom : bool)
      (next_len : option nat) (row : list Figure) (j : nat) :
  py = Py2 \/ is_bottom = true \/ is_Some next_len
  \/ (j = 0%nat /\ (length row <= 1)%nat) ->
  hide_row py is_bottom next_len j row
  = (imap (fun k plot =>
             apply_axes (cell_design is_bottom next_len (j + k)) plot) row,
     None).
Proof.
  revert j. induction row as [|plot row IH]; intros j H; simpl;
    [reflexivity|].
  rewrite hide_cell_design by (destruct H as [H|[H|[H|[H _]]]]; auto).
  assert (Hrest : hide_row py is_bottom next_len (S j) row
                  = (imap (fun k plot =>
                             apply_axes
                               (cell_design is_bottom next_len (S j + k)) plot)
                          row, None)).
  { destruct H as [H|[H|[H|[_ H]]]]; [apply IH; auto..|].
    destruct row; [reflexivity|simpl in H; lia]. }
  rewrite Hrest. rewrite Nat.add_0_r. f_equal. f_equal.
  apply imap_ext. intros k x _. simpl. rewrite Nat.add_succ_r. reflexivity.
Qed.

Lemma hide_rows_design (py : python) (grid rows : list (list Figure))
      (i : nat) :
  py = Py2
  \/ (forall k row, rows !! k = Some row ->
         (i + k + 1 = length grid \/ i + k + 2 = length grid
          \/ length row <= 1)%nat) ->
  hide_rows py grid i rows
  = (imap (fun k row =>
             imap (fun j plot =>
                     apply_axes
                       (cell_design
                          (i + k + 1 =? length grid)%nat
                          (if (i + k + 2 =? length grid)%nat
                           then Some (length (nth (i + k + 1) grid []))
                           else None) j) plot) row) rows,
     None).
Proof.
  revert i. induction rows as [|row rows IH]; intros i H; simpl;
    [reflexivity|].
  rewrite hide_row_design.
  - rewrite IH.
    + rewrite !Nat.add_0_r. f_equal. f_equal.
      apply imap_ext. intros k r _. simpl.
      replace (i + S k)%nat with (S i + k)%nat by lia. reflexivity.
    + destruct H as [H|H]; [left; exact H|right].
      intros k r Hk. specialize (H (S k) r Hk). lia.
  - destruct H as [H|H]; [left; exact H|right].
    specialize (H 0%nat row eq_refl). rewrite Nat.add_0_r in H.
    destruct H as [H|[H|H]].
    + left. apply Nat.eqb_eq. exact H.
    + right. left. apply Nat.eqb_eq in H. rewrite H. eexists. reflexivity.
    + right. right. split; [reflexivity|exact H].
Qed.

Lemma cell_design_axes (grid : list (list Figure)) (i j : nat) :
  cell_design (i + 1 =? length grid)%nat
    (if (i + 2 =? length grid)%nat
     then Some (length (nth (i + 1) grid [])) else None) j
  = design_axes grid i j.
Proof.
  unfold cell_design, design_axes.
  destruct (j =? 0)%nat; [reflexivity|].
  destruct (i + 1 =? length grid)%nat eqn:H1;
    destruct (i + 2 =? length grid)%nat eqn:H2; simpl; try reflexivity.
  apply Nat.eqb_eq in H1, H2. lia.
Qed.

(** C1, amended: on Python 2, and on Python 3 when the rows above the last
    two have at most one cell each (elsewhere the comparison of a column
    index with [None] raises there), [hide_internal_axes] completes, and in
    the last two rows a cell with [j <> 0] hides its y-axis and additionally
    its x-axis exactly when its row is the one above the bottom row and the
    bottom row has a cell under column [j]; in any row a cell with [j = 0]
    hides only its x-axis, or nothing when the row is the bottom row. *)
Theorem hide_internal_axes_by_design (py : python)
        (grid : list (list Figure)) :
  py = Py2
  \/ (forall i row, grid !! i = Some row ->
                    (i + 2 < length grid)%nat -> (length row <= 1)%nat) ->
  exists grid',
    hide_internal_axes py grid = (grid', None)
    /\ forall i j row plot,
         grid !! i = Some row -> row !! j = Some plot ->
         j = 0%nat \/ (length grid <= i + 2)%nat ->
         exists row',
           grid' !! i = Some row'
           /\ row' !! j = Some (apply_axes (design_axes grid i j) plot).
Proof.
  intros H. unfold hide_internal_axes.
  rewrite hide_rows_design.
  - eexists. split; [reflexivity|].
    intros i j row plot Hi Hj _. eexists. split.
    + rewrite list_lookup_imap, Hi. reflexivity.
    + rewrite list_lookup_imap, Hj. simpl.
      rewrite cell_design_axes. reflexivity.
  - destruct H as [H|H]; [left; exact H|right].
    intros k row Hk. simpl.
    pose proof (lookup_lt_Some _ _ _ Hk) as Hlt.
    destruct (Nat.lt_ge_cases (k + 2) (length grid)) as [Hup|Hlow].
    + right. right. apply (H k row Hk Hup).
    + lia.
Qed.

(** ** Sorting and quantiles *)

Lemma insert_float_perm (a : Q) (l : list Q) :
  Permutation (a :: l) (insert_float a l).
Proof.
  induction l as [|b l IH]; simpl; [reflexivity|].
  destruct (Qle_bool a b); [reflexivity|].
  eapply Permutation_trans; [apply perm_swap|]. apply perm_skip. exact IH.
Qed.

Lemma sort_floats_perm (l : list Q) : Permutation l (sort_floats l).
Proof.
  induction l as [|a l IH]; simpl; [constructor|].
  eapply Permutation_trans; [apply perm_skip; exact IH|].
  apply insert_float_perm.
Qed.

Lemma insert_float_sorted (a : Q) (l : list Q) :
  StronglySorted Qle l -> StronglySorted Qle (insert_float a l).
Proof.
  induction l as [|b l IH]; simpl; intros Hs; [repeat constructor|].
  apply StronglySorted_inv in Hs. destruct Hs as [Hs Hb].
  destruct (Qle_bool a b) eqn:Hab.
  - apply Qle_bool_iff in Hab. constructor; [constructor; assumption|].
    constructor; [exact Hab|].
    eapply List.Forall_impl; [|exact Hb]. intros c Hc.
    eapply Qle_trans; eassumption.
  - assert (b <= a)%Q as Hba.
    { destruct (Qlt_le_dec b a) as [H|H]; [apply Qlt_le_weak; exact H|].
      apply Qle_bool_iff in H. congruence. }
    constructor; [apply IH; exact Hs|].
    apply (Permutation_Forall (insert_float_perm a l)).
    constructor; assumption.
Qed.

Lemma sort_floats_sorted (l : list Q) : StronglySorted Qle (sort_floats l).
Proof.
  induction l as [|a l IH]; simpl; [constructor|].
  apply insert_float_sorted. exact IH.
Qed.

Lemma sort_floats_length (l : list Q) : length (sort_floats l) = length l.
Proof. symmetry. apply Permutation_length. apply sort_floats_perm. Qed.





Section Quantiles.

Variables (s : list Q) (q : nat).
Hypothesis Hs : StronglySorted Qle s.
Hypothesis Hn : (0 < length s)%nat.
Hypothesis Hq : (0 < q)%nat.

Local Abbreviation pos := (quantile_pos s).

Lemma quantile_index (k : nat) :
  (k <= q)%nat ->
  (pos k / q <= length s - 1)%nat
  /\ ((pos k mod q)%nat <> 0%nat -> (S (pos k / q) <= length s - 1)%nat).
Proof using All.
  intros Hk. unfold pos.
  pose proof (Nat.div_mod_eq (k * (length s - 1)) q) as Hdm.
  pose proof (Nat.mod_upper_bound (k * (length s - 1)) q) as Hm.
  split; [|intros Hr]; nia.
Qed.






End Quantiles.

(** ** Quantile facets *)

Lemma as_floats_Num (col : list cell) (vals : list Q) :
  as_floats col = Ok vals -> col = map Num vals.
Proof.
  revert vals. induction col as [|c col IH]; intros vals; simpl.
  - intros [= <-]. reflexivity.
  - destruct c as [s|a]; [discriminate|].
    destruct (as_floats col) as [l|e]; simpl; [|discriminate].
    intros [= <-]. simpl. f_equal. apply IH. reflexivity.
Qed.






Lemma quantile_edges_4 (vals : list Q) :
  quantile_edges vals 4
  = [edge vals 0; edge vals 1; edge vals 2; edge vals 3; edge vals 4].
Proof. reflexivity. Qed.







(** ** A column of strings and numbers *)

(** C3, as stated, fails: the Discrete column of [mixed_cf] holds the
    strings [A] and [B] and the number 1; on Python 3 sorting its distinct
    values compares a string with a number, so [make_facets] raises and
    builds no facet at all, while on Python 2 it builds three. *)
Lemma mixed_column_no_facets :
  field_facets sample_external Py3 mixed_cf "category"
  = Raise (TypeError "'<' not supported between 'str' and 'int'")
  /\ make_facets sample_external Py3 mixed_cf "x"
     = Raise (TypeError "'<' not supported between 'str' and 'int'")
  /\ exists facets,
       field_facets sample_external Py2 mixed_cf "category" = Ok facets
       /\ length facets = 3%nat.
Proof.
  split; [vm_compute; reflexivity|]. split; [vm_compute; reflexivity|].
  eexists. split; [vm_compute; reflexivity|reflexivity].
Qed.

(** ** A column with a frequent value *)


(** ** The theorems at the sample data *)

Lemma hide_internal_axes_by_design_witness :
  exists grid',
    hide_internal_axes Py3 [[blank_figure; blank_figure]; [blank_figure]]
    = (grid', None)
    /\ exists row',
         grid' !! 0%nat = Some row'
         /\ row' !! 1%nat = Some (hide_axes blank_figure axes_y).
Proof.
  destruct (hide_internal_axes_by_design Py3
              [[blank_figure; blank_figure]; [blank_figure]])
    as [grid' [Hrun Hcells]].
  - right. intros i row _ Hi. simpl in Hi. lia.
  - exists grid'. split; [exact Hrun|].
    apply (Hcells 0%nat 1%nat [blank_figure; blank_figure] blank_figure);
      [reflexivity|reflexivity|right; simpl; lia].
Defined.



Lemma bar_validate_plot_witness :
  exists p',
    validate_plot sample_bar_plugin = Ok p'
    /\ (pl_valid_plot p' = false <->
        col_type value_descriptor = DiscreteColumn
        \/ pl_x sample_bar_plugin = pl_y sample_bar_plugin
        \/ df_empty (pl_source sample_bar_plugin) = true)
    /\ pl__title p' = "sum(value) by category".
Proof.
  destruct (bar_validate_plot sample_bar_plugin value_descriptor 0 1)
    as [p' [H1 [H2 H3]]]; [vm_compute; reflexivity..|].
  exists p'. split; [exact H1|]. split; [exact H2|exact H3].
Defined.

Lemma cross_is_cartesian_fold_witness :
  make_facets sample_external Py3 sample_cf "x"
  = Ok [[FDiscrete (new_DiscreteFacet sample_external "category" (Str "A") None)];
        [FDiscrete (new_DiscreteFacet sample_external "category" (Str "B") None)]]
  /\ length
       (cross [[FDiscrete (new_DiscreteFacet sample_external "category" (Str "A") None)]]
              [FDiscrete (new_DiscreteFacet sample_external "category" (Str "A") None);
               FDiscrete (new_DiscreteFacet sample_external "category" (Str "B") None)])
     = 2%nat.
Proof.
  destruct (cross_is_cartesian_fold sample_external Py3 sample_cf "x"
              [[FDiscrete (new_DiscreteFacet sample_external "category" (Str "A") None);
                FDiscrete (new_DiscreteFacet sample_external "category" (Str "B") None)]]
              [[FDiscrete (new_DiscreteFacet sample_external "category" (Str "A") None)]]
              [FDiscrete (new_DiscreteFacet sample_external "category" (Str "A") None);
               FDiscrete (new_DiscreteFacet sample_external "category" (Str "B") None)])
    as [H1 [_ [H2 _]]].
  - vm_compute. reflexivity.
  - constructor; [simpl; tauto|constructor].
  - constructor; [|constructor; [simpl; tauto|constructor]].
    simpl. intros [H|[]]. discriminate H.
  - split; [exact H1|exact H2].
Defined.

Lemma failed_rebuild_keeps_plot_witness :
  snd (plot_attribute_change sample_external Py3 x_selector "price" sample_cf)
  = Raise (KeyError "price")
  /\ cf_plot (fst (plot_attribute_change sample_external Py3 x_selector
                     "price" sample_cf))
     = Some (DPage (PFigure blank_figure)).
Proof.
  split; [vm_compute; reflexivity|].
  apply (failed_rebuild_keeps_plot sample_external Py3 sample_cf _
           x_selector "price" (KeyError "price")).
  vm_compute. reflexivity.
Defined.


Lemma empty_selection_no_constraint_witness :
  filter_step (filtering_cf []) sample_frame category_descriptor
  = Ok sample_frame
  /\ filter_step (filtering_cf [Str "A"]) sample_frame category_descriptor
     = Ok (getitem_mask sample_frame [true; false; true; false; true]).
Proof.
  split; [|vm_compute; reflexivity].
  apply (empty_selection_no_constraint (filtering_cf []) category_descriptor
           [] sample_frame).
  vm_compute. reflexivity.
Defined.

(** * Further properties *)

(** ** Facet combinations as filters *)

Lemma col_pos_None (name : string) (cols : list string) :
  col_pos name cols = None <-> ~ In name cols.
Proof.
  induction cols as [|c cols IH]; simpl; [tauto|].
  destruct (String.eqb_spec c name) as [->|Hne].
  - split; [discriminate|]. intros H. exfalso. apply H. left. reflexivity.
  - destruct (col_pos name cols) as [p|].
    + split; [discriminate|]. intros H. exfalso.
      assert (~ In name cols) as H' by tauto. apply IH in H'. discriminate.
    + split; [|reflexivity]. intros _ [H|H]; [congruence|].
      revert H. apply IH. reflexivity.
Qed.




(** ** The combinations [make_facets] builds *)

Lemma field_facets_field (E : External) (py : python) (cf : CrossFilter)
      (name : string) (ff : list Facet) :
  field_facets E py cf name = Ok ff ->
  forall f, In f ff -> facet_field f = name.
Proof.
  unfold field_facets.
  destruct (dict_get (column_descriptor_dict cf) name) as [d|e];
    [|discriminate].
  cbn [rbind].
  destruct (getitem (cf_df cf) name) as [col|e];
    [|destruct (is_discrete (col_type d)); discriminate].
  destruct (is_discrete (col_type d)); cbn [rbind].
  - destruct (sorted_unique py col) as [uniq|e]; [|discriminate].
    cbn [rbind].
    intros [= <-] f Hf. apply in_map_iff in Hf. destruct Hf as [v [<- _]].
    reflexivity.
  - destruct (pd_qcut E col 4) as [cb|e]; [|discriminate]. cbn [rbind].
    destruct (map _ (pairs (snd cb))) as [|[lo hi] rest]; [discriminate|].
    cbn [rbind]. intros [= <-] f Hf. apply in_map_iff in Hf.
    destruct Hf as [bv [<- _]]. reflexivity.
Qed.

Lemma make_facets_loop_inv (E : External) (py : python) (cf : CrossFilter)
      (fields : list string) (acc all : list (list Facet)) :
  make_facets_loop E py cf fields acc = Ok all ->
  exists ffs,
    mapM (field_facets E py cf) fields = Ok ffs
    /\ all = fold_left cross ffs acc.
Proof.
  revert acc. induction fields as [|c fields IH]; intros acc; simpl.
  - intros [= <-]. exists []. split; reflexivity.
  - destruct (field_facets E py cf c) as [ff|e]; [|discriminate]. cbn [rbind].
    intros H. destruct (IH _ H) as [ffs [Hm ->]].
    exists (ff :: ffs). rewrite Hm. split; reflexivity.
Qed.

Lemma mapM_Forall2 {A B} (f : A -> result B) (l : list A) (l' : list B) :
  mapM f l = Ok l' -> Forall2 (fun a b => f a = Ok b) l l'.
Proof.
  revert l'. induction l as [|a l IH]; intros l'; simpl.
  - intros [= <-]. constructor.
  - destruct (f a) as [b|e] eqn:Ha; [|discriminate]. cbn [rbind].
    destruct (mapM f l) as [bs|e]; [|discriminate]. cbn [rbind].
    intros [= <-]. constructor; [exact Ha|apply IH; reflexivity].
Qed.

Lemma fold_cross_length {A} (ffs : list (list A)) (acc : list (list A)) :
  length (fold_left cross ffs acc)
  = (length acc * fold_right Nat.mul 1 (map (@length A) ffs))%nat.
Proof.
  revert acc. induction ffs as [|ff ffs IH]; intros acc; simpl; [lia|].
  rewrite IH, cross_length. lia.
Qed.

Lemma fold_cross_In {A} (ffs : list (list A)) (acc : list (list A))
      (c : list A) :
  In c (fold_left cross ffs acc) ->
  exists prefix picks,
    In prefix acc /\ Forall2 (fun x ff => In x ff) picks ffs
    /\ c = (prefix ++ picks)%list.
Proof.
  revert acc. induction ffs as [|ff ffs IH]; intros acc; simpl.
  - intros H. exists c, []. rewrite app_nil_r. repeat split; auto.
  - intros H. destruct (IH _ H) as [prefix [picks [Hp [Hpicks ->]]]].
    apply cross_In in Hp. destruct Hp as [pre [x [Hpre [Hx ->]]]].
    exists pre, (x :: picks). split; [exact Hpre|]. split.
    + constructor; assumption.
    + rewrite <- app_assoc. reflexivity.
Qed.

(** X3: when [make_facets] returns, every facet column of the dimension had
    its facets built, the number of combinations is the product of the
    numbers of facets per column, and every combination holds one facet per
    column, in the order of the columns. *)
Theorem make_facets_shape (E : External) (py : python) (cf : CrossFilter)
        (dimension : string) (all_facets : list (list Facet)) :
  make_facets E py cf dimension = Ok all_facets ->
  exists ffs,
    mapM (field_facets E py cf) (dimension_facets cf dimension) = Ok ffs
    /\ length all_facets = fold_right Nat.mul 1%nat (map (@length Facet) ffs)
    /\ forall c, In c all_facets ->
                 map facet_field c = dimension_facets cf dimension
                 /\ Forall2 (fun f ff => In f ff) c ffs.
Proof.
  unfold make_facets. intros H.
  destruct (make_facets_loop_inv E py cf _ _ _ H) as [ffs [Hm ->]].
  exists ffs. split; [exact Hm|]. split.
  - rewrite fold_cross_length. simpl. lia.
  - intros c Hc. apply fold_cross_In in Hc.
    destruct Hc as [prefix [picks [[<-|[]] [Hpicks ->]]]]. simpl.
    split; [|exact Hpicks].
    clear H. apply mapM_Forall2 in Hm. revert Hm Hpicks.
    generalize (dimension_facets cf dimension) as fields.
    intros fields Hm. revert picks.
    induction Hm as [|name ff fields ffs Hff _ IH]; intros picks Hpicks.
    + inversion Hpicks. reflexivity.
    + inversion Hpicks as [|x ? picks' ? Hx Hrest]; subst. simpl.
      rewrite (field_facets_field E py cf name ff Hff x Hx).
      f_equal. apply IH. exact Hrest.
Qed.

Lemma mapM_app_raise {A B} (f : A -> result B) (pre : list A) (a : A)
      (post : list A) (bs : list B) (e : exn) :
  mapM f pre = Ok bs -> f a = Raise e ->
  mapM f (pre ++ a :: post)%list = Raise e.
Proof.
  revert bs. induction pre as [|x pre IH]; intros bs; simpl.
  - intros _ ->. reflexivity.
  - destruct (f x) as [b|e']; [|discriminate]. cbn [rbind].
    destruct (mapM f pre) as [bs'|e'] eqn:Hpre; [|discriminate].
    intros _ Ha. rewrite (IH bs' eq_refl Ha). reflexivity.
Qed.

Lemma make_facets_loop_raise (E : External) (py : python) (cf : CrossFilter)
      (pre : list string) (c : string) (post : list string)
      (ffs : list (list Facet)) (e : exn) (acc : list (list Facet)) :
  mapM (field_facets E py cf) pre = Ok ffs ->
  field_facets E py cf c = Raise e ->
  make_facets_loop E py cf (pre ++ c :: post)%list acc = Raise e.
Proof.
  revert ffs acc. induction pre as [|x pre IH]; intros ffs acc; simpl.
  - intros _ ->. reflexivity.
  - destruct (field_facets E py cf x) as [ff|e']; [|discriminate]. cbn [rbind].
    destruct (mapM (field_facets E py cf) pre) as [ffs'|e'] eqn:Hpre;
      [|discriminate].
    intros _ Hc. apply (IH ffs' _ eq_refl Hc).
Qed.

(** X4: a facet column that has no descriptor makes [make_facets] raise
    [KeyError] for it, once the columns before it have had their facets
    built. *)
Theorem make_facets_unknown_column (E : External) (py : python)
        (cf : CrossFilter)
        (dimension : string) (pre post : list string) (c : string)
        (ffs : list (list Facet)) :
  dimension_facets cf dimension = (pre ++ c :: post)%list ->
  mapM (field_facets E py cf) pre = Ok ffs ->
  column_descriptor_dict cf !! c = None ->
  make_facets E py cf dimension = Raise (KeyError c).
Proof.
  intros Hdim Hpre Hc. unfold make_facets. rewrite Hdim.
  apply (make_facets_loop_raise E py cf pre c post ffs _ _ Hpre).
  unfold field_facets, dict_get. rewrite Hc. reflexivity.
Qed.

Lemma quantile_constant (s : list Q) (c : Q) (k q : nat) :
  StronglySorted Qle s -> (0 < length s)%nat -> (0 < q)%nat -> (k <= q)%nat ->
  Forall (fun v => v == c) s ->
  quantile s k q == c.
Proof.
  intros Hs Hn Hq Hk Hall.
  destruct (quantile_index s q Hs Hn Hq k Hk) as [Hi Hsi].
  assert (Hnth : forall i, (i <= length s - 1)%nat -> nth i s 0%Q == c).
  { intros i Hi'. rewrite List.Forall_forall in Hall. apply Hall.
    apply nth_In. lia. }
  unfold quantile. fold (quantile_pos s k).
  destruct (quantile_pos s k mod q =? 0)%nat eqn:Hr.
  - apply Hnth. exact Hi.
  - apply Nat.eqb_neq in Hr. specialize (Hsi Hr).
    rewrite (Hnth _ Hi), (Hnth _ Hsi). ring.
Qed.

(** X5: a Continuous facet column whose values are all equal has no
    distinct quartile edges: [make_facets] raises [ValueError] on it, and
    so does every faceting that starts with that column. *)
Theorem make_facets_constant_column (E : External) (py : python)
        (cf : CrossFilter)
        (name : string) (d : descriptor) (p : nat) (vals : list Q) (c : Q) :
  column_descriptor_dict cf !! name = Some d ->
  is_discrete (col_type d) = false ->
  col_pos name (df_columns (cf_df cf)) = Some p ->
  as_floats (map (row_get p) (df_values (cf_df cf))) = Ok vals ->
  vals <> [] ->
  Forall (fun v => v == c) vals ->
  exists msg,
    field_facets E py cf name = Raise (ValueError msg)
    /\ forall dimension post,
         dimension_facets cf dimension = name :: post ->
         make_facets E py cf dimension = Raise (ValueError msg).
Proof.
  intros Hd Ht Hp Hvals Hne Hall. exists "Bin edges must be unique".
  assert (Hff : field_facets E py cf name
                = Raise (ValueError "Bin edges must be unique")).
  { unfold field_facets, dict_get. rewrite Hd. cbn [rbind]. rewrite Ht.
    unfold getitem. rewrite Hp. cbn [rbind].
    unfold pd_qcut. rewrite Hvals. cbn [rbind].
    destruct vals as [|v vals'] eqn:Hv; [contradiction|]. rewrite <- Hv in *.
    assert ((length vals =? 0)%nat = false) as -> by (subst; reflexivity).
    cbv beta iota zeta.
    assert (has_duplicates (quantile_edges vals 4) = true) as ->;
      [|reflexivity].
    rewrite quantile_edges_4. cbn [has_duplicates float_in].
    assert (Hn : (0 < length (sort_floats vals))%nat)
      by (rewrite sort_floats_length; subst; simpl; lia).
    assert (Hs : Forall (fun v => v == c) (sort_floats vals))
      by (apply (Permutation_Forall (sort_floats_perm vals)); exact Hall).
    assert (edge vals 0 == edge vals 1) as Heq.
    { unfold edge.
      rewrite (quantile_constant _ c 0 4 (sort_floats_sorted vals) Hn)
        by (try lia; exact Hs).
      rewrite (quantile_constant _ c 1 4 (sort_floats_sorted vals) Hn)
        by (try lia; exact Hs).
      reflexivity. }
    apply Qeq_bool_iff in Heq. rewrite Heq. reflexivity. }
  split; [exact Hff|].
  intros dimension post Hdim. unfold make_facets. rewrite Hdim. simpl.
  rewrite Hff. reflexivity.
Qed.

(** ** The base plugin *)

Lemma col_pos_Some (name : string) (cols : list string) :
  In name cols -> exists p, col_pos name cols = Some p.
Proof.
  intros H. destruct (col_pos name cols) as [p|] eqn:Hp; [eauto|].
  apply col_pos_None in Hp. contradiction.
Qed.

(** X6: the base [validate_plot] never looks at the data of a faceted cell;
    otherwise it raises [KeyError] when [x] is not a column of the source,
    and, when [x] and [y] are, marks the plot invalid, with the title
    ["All data is filtered out."], exactly when the source has no rows. *)
Theorem base_validate_plot (p : Plugin) :
  (pl_facet p = true -> CrossFilterPlugin_validate_plot p = Ok p)
  /\ (pl_facet p = false -> ~ In (pl_x p) (df_columns (pl_source p)) ->
      CrossFilterPlugin_validate_plot p = Raise (KeyError (pl_x p)))
  /\ (pl_facet p = false ->
      In (pl_x p) (df_columns (pl_source p)) ->
      In (pl_y p) (df_columns (pl_source p)) ->
      CrossFilterPlugin_validate_plot p
      = Ok (match df_values (pl_source p) with
            | [] => invalidate p "All data is filtered out."
            | _ => p
            end)).
Proof.
  unfold CrossFilterPlugin_validate_plot. split; [|split].
  - intros ->. reflexivity.
  - intros -> Hx. apply col_pos_None in Hx. unfold getitem. rewrite Hx.
    reflexivity.
  - intros -> Hx Hy. cbn [negb].
    destruct (col_pos_Some _ _ Hx) as [px Hpx].
    destruct (col_pos_Some _ _ Hy) as [py Hpy].
    unfold getitem. rewrite Hpx, Hpy. cbn [rbind]. rewrite !length_map.
    destruct (df_values (pl_source p)); reflexivity.
Qed.

(** X7: a scatter or line plot over a source with rows, or in a faceted
    cell, is the blank figure of the plugin's title and keyword arguments
    with exactly one glyph over the source; an unfaceted one over a source
    without rows is left blank, titled ["All data is filtered out."]: the
    failure is soft, nothing is raised. *)
Theorem get_plot_scatter_line (E : External) (p : Plugin) :
  pl_class p <> bar ->
  In (pl_x p) (df_columns (pl_source p)) ->
  In (pl_y p) (df_columns (pl_source p)) ->
  pl_valid_plot p = true ->
  get_plot E p
  = Ok (if negb (pl_facet p)
           && match df_values (pl_source p) with [] => true | _ => false end
        then make_figure (invalidate p "All data is filtered out.")
        else add_glyph (make_figure p)
               (match pl_class p with
                | line => Line (pl_x p) (pl_y p) (pl_source p)
                | _ => Scatter (pl_x p) (pl_y p) (pl_source p)
                end)).
Proof.
  intros Hcls Hx Hy Hvalid.
  destruct (base_validate_plot p) as [Hf [_ Hnf]].
  unfold get_plot, validate_plot.
  destruct (pl_class p) eqn:Hc; [| |congruence];
    (destruct (pl_facet p) eqn:Hfacet;
     [rewrite (Hf eq_refl); cbn [rbind negb andb]; rewrite Hvalid;
      unfold plugin_make_plot; rewrite Hc; reflexivity
     |rewrite (Hnf eq_refl Hx Hy); cbn [rbind negb andb];
      destruct (df_values (pl_source p)); cbn [pl_valid_plot invalidate];
      [reflexivity|rewrite Hvalid; unfold plugin_make_plot; rewrite Hc;
                   reflexivity]]).
Qed.

(** ** Shared ranges *)

Lemma list_min_le (l : list Q) (m : Q) :
  list_min l = Some m -> forall v, In v l -> (m <= v)%Q.
Proof.
  revert m. induction l as [|a l IH]; intros m; simpl; [discriminate|].
  destruct (list_min l) as [m'|] eqn:Hl.
  - intros [= <-] v [<-|Hv].
    + destruct (Qle_bool a m') eqn:Ha; [apply Qle_refl|].
      destruct (Qlt_le_dec m' a) as [H|H]; [apply Qlt_le_weak; exact H|].
      apply Qle_bool_iff in H. congruence.
    + specialize (IH m' eq_refl v Hv).
      destruct (Qle_bool a m') eqn:Ha; [|exact IH].
      apply Qle_bool_iff in Ha. eapply Qle_trans; eassumption.
  - intros [= <-] v [<-|Hv]; [apply Qle_refl|].
    destruct l; [destruct Hv|]. simpl in Hl.
    destruct (list_min l); discriminate.
Qed.

Lemma list_max_ge (l : list Q) (m : Q) :
  list_max l = Some m -> forall v, In v l -> (v <= m)%Q.
Proof.
  revert m. induction l as [|a l IH]; intros m; simpl; [discriminate|].
  destruct (list_max l) as [m'|] eqn:Hl.
  - intros [= <-] v [<-|Hv].
    + destruct (Qle_bool m' a) eqn:Ha; [apply Qle_refl|].
      destruct (Qlt_le_dec a m') as [H|H]; [apply Qlt_le_weak; exact H|].
      apply Qle_bool_iff in H. congruence.
    + specialize (IH m' eq_refl v Hv).
      destruct (Qle_bool m' a) eqn:Ha; [|exact IH].
      apply Qle_bool_iff in Ha. eapply Qle_trans; eassumption.
  - intros [= <-] v [<-|Hv]; [apply Qle_refl|].
    destruct l; [destruct Hv|]. simpl in Hl.
    destruct (list_max l); discriminate.
Qed.

Lemma list_min_nonempty (l : list Q) : l <> [] -> is_Some (list_min l).
Proof.
  destruct l as [|a l]; [congruence|]. intros _. simpl.
  destruct (list_min l); eexists; reflexivity.
Qed.

Lemma list_max_nonempty (l : list Q) : l <> [] -> is_Some (list_max l).
Proof.
  destruct l as [|a l]; [congruence|]. intros _. simpl.
  destruct (list_max l); eexists; reflexivity.
Qed.

Lemma axis_range_covers (py : python) (cf : CrossFilter) (name : string)
      (r : Range) (p : nat) :
  axis_range py cf name = Ok r ->
  col_pos name (df_columns (cf_df cf)) = Some p ->
  forall row, In row (df_values (cf_df cf)) ->
              range_covers r (row_get p row).
Proof.
  unfold axis_range. intros Hr Hp row Hrow.
  destruct (dict_get (column_descriptor_dict cf) name) as [d|e];
    [|discriminate].
  cbn [rbind] in Hr. unfold getitem in Hr. rewrite Hp in Hr.
  cbn [rbind] in Hr.
  destruct (is_discrete (col_type d)).
  - destruct (sorted_unique py _) as [factors|e] eqn:Hu; [|discriminate].
    apply sorted_unique_inv in Hu. cbn [rbind] in Hr.
    injection Hr as <-. subst factors. simpl.
    apply np_unique_complete. apply in_map. exact Hrow.
  - unfold series_min, series_max in Hr.
    destruct (as_floats (map (row_get p) (df_values (cf_df cf))))
      as [vals|e] eqn:Hvals; [|discriminate].
    cbn [rbind] in Hr. injection Hr as <-.
    apply as_floats_Num in Hvals.
    apply (in_map (row_get p)) in Hrow. rewrite Hvals in Hrow.
    apply in_map_iff in Hrow. destruct Hrow as [v [Hv Hin]].
    assert (vals <> []) as Hne by (intros ->; destruct Hin).
    destruct (list_min_nonempty vals Hne) as [lo Hlo].
    destruct (list_max_nonempty vals Hne) as [hi Hhi].
    rewrite Hlo, Hhi. simpl. exists v. split; [congruence|].
    split; [apply (list_min_le vals lo Hlo v Hin)
           |apply (list_max_ge vals hi Hhi v Hin)].
Qed.

(** X8: the ranges a scatter or line plot shares between its cells cover
    the full data: a Discrete axis lists, in ascending order, a factor equal
    to every value of its column, and any other axis spans from a lower to
    an upper end that enclose every value. *)
Theorem shared_ranges_cover (E : External) (py : python) (cf : CrossFilter)
        (cls : plot_type_t) (x_range y_range : Range) (ix iy : nat) :
  cls <> bar ->
  make_xy_ranges E py cls cf = Ok (x_range, y_range) ->
  col_pos (cf_x cf) (df_columns (cf_df cf)) = Some ix ->
  col_pos (cf_y cf) (df_columns (cf_df cf)) = Some iy ->
  (forall row, In row (df_values (cf_df cf)) ->
               range_covers x_range (row_get ix row)
               /\ range_covers y_range (row_get iy row))
  /\ (forall factors,
        x_range = FactorRange factors \/ y_range = FactorRange factors ->
        StronglySorted cell_lt factors).
Proof.
  intros Hcls Hr Hpx Hpy.
  assert (Hbase : CrossFilterPlugin_make_xy_ranges py cf
                  = Ok (x_range, y_range))
    by (destruct cls; [exact Hr|exact Hr|exfalso; apply Hcls; reflexivity]).
  unfold CrossFilterPlugin_make_xy_ranges in Hbase.
  destruct (axis_range py cf (cf_x cf)) as [xr|e] eqn:Hx; [|discriminate].
  destruct (axis_range py cf (cf_y cf)) as [yr|e] eqn:Hy; [|discriminate].
  cbn [rbind] in Hbase. injection Hbase as <- <-.
  split.
  - intros row Hrow. split;
      [apply (axis_range_covers py cf _ _ _ Hx Hpx row Hrow)
      |apply (axis_range_covers py cf _ _ _ Hy Hpy row Hrow)].
  - assert (Hsorted : forall name r factors,
               axis_range py cf name = Ok r -> r = FactorRange factors ->
               StronglySorted cell_lt factors).
    { intros name r factors Ha ->. unfold axis_range in Ha.
      destruct (dict_get (column_descriptor_dict cf) name) as [d|e];
        [|discriminate].
      cbn [rbind] in Ha.
      destruct (getitem (cf_df cf) name) as [vals|e]; [|discriminate].
      cbn [rbind] in Ha.
      destruct (is_discrete (col_type d)).
      - destruct (sorted_unique py vals) as [uniq|e] eqn:Hu; [|discriminate].
        apply sorted_unique_inv in Hu. cbn [rbind] in Ha.
        injection Ha as <-. subst uniq. apply np_unique_sorted.
      - destruct (series_min vals); [|discriminate]. cbn [rbind] in Ha.
        destruct (series_max vals); discriminate. }
    intros factors [H|H];
      [apply (Hsorted _ _ _ Hx H)|apply (Hsorted _ _ _ Hy H)].
Qed.

(** ** More on hiding the internal axes *)

Lemma only_hides_refl (plot : Figure) : only_hides plot plot.
Proof. unfold only_hides. tauto. Qed.

Lemma only_hides_hide_axes (plot : Figure) (axes : axes_arg) :
  only_hides plot (hide_axes plot axes).
Proof. unfold only_hides. destruct axes; simpl; tauto. Qed.

Lemma hide_cell_only_hides (py : python) (is_bottom : bool)
      (next_len : option nat) (j : nat) (plot : Figure) :
  only_hides plot (fst (hide_cell py is_bottom next_len j plot)).
Proof.
  unfold hide_cell. destruct (negb (j =? 0)%nat).
  - destruct (if is_bottom then Ok true else ge_next_len py j next_len)
      as [[|]|e]; simpl;
      auto using only_hides_refl, only_hides_hide_axes.
  - destruct (negb is_bottom); simpl;
      auto using only_hides_refl, only_hides_hide_axes.
Qed.

Lemma hide_row_only_hides (py : python) (is_bottom : bool)
      (next_len : option nat) (row : list Figure) (j : nat) :
  Forall2 only_hides row (fst (hide_row py is_bottom next_len j row)).
Proof.
  revert j. induction row as [|plot row IH]; intros j; simpl; [constructor|].
  pose proof (hide_cell_only_hides py is_bottom next_len j plot) as Hc.
  destruct (hide_cell py is_bottom next_len j plot) as [plot' [e|]];
    simpl in *.
  - constructor; [exact Hc|]. apply Forall2_same_length_lookup_2; [reflexivity|].
    intros i x y Hx Hy. assert (x = y) as -> by congruence.
    apply only_hides_refl.
  - specialize (IH (S j)).
    destruct (hide_row py is_bottom next_len (S j) row) as [row' r].
    constructor; assumption.
Qed.

Lemma hide_rows_only_hides (py : python) (grid rows : list (list Figure))
      (i : nat) :
  Forall2 (Forall2 only_hides) rows (fst (hide_rows py grid i rows)).
Proof.
  revert i. induction rows as [|row rows IH]; intros i; simpl; [constructor|].
  pose proof (hide_row_only_hides py (i + 1 =? length grid)%nat
                (if (i + 2 =? length grid)%nat
                 then Some (length (nth (i + 1) grid [])) else None) row 0)
    as Hr.
  destruct (hide_row py _ _ 0 row) as [row' [e|]]; simpl in *.
  - constructor; [exact Hr|].
    apply Forall2_same_length_lookup_2; [reflexivity|].
    intros k x y Hx Hy. assert (x = y) as -> by congruence.
    apply Forall2_same_length_lookup_2; [reflexivity|].
    intros k' a b Ha Hb. assert (a = b) as -> by congruence.
    apply only_hides_refl.
  - specialize (IH (S i)).
    destruct (hide_rows py grid (S i) rows) as [rows' r].
    constructor; assumption.
Qed.

(** X9: [hide_internal_axes] changes nothing but the visibility of axes,
    and never shows an axis that was hidden: on either interpreter, and
    also when it raises, the grid it leaves has the rows and cells of the
    grid it was given, each plot with the same title, size, tools, ranges
    and glyphs. *)
Theorem hide_internal_axes_only_hides (py : python)
        (grid : list (list Figure)) :
  Forall2 (Forall2 only_hides) grid (fst (hide_internal_axes py grid)).
Proof. apply hide_rows_only_hides. Qed.

Lemma hide_row_py3 (next_len : option nat) (is_bottom : bool)
      (row : list Figure) :
  snd (hide_row Py3 is_bottom next_len 0 row)
  = if negb is_bottom
       && match next_len with None => true | Some _ => false end
       && (2 <=? length row)%nat
    then Some (TypeError "'>=' not supported between 'int' and 'NoneType'")
    else None.
Proof.
  destruct is_bottom; [|destruct next_len as [m|]]; cbn [negb andb].
  - rewrite hide_row_design by auto. reflexivity.
  - rewrite hide_row_design by (right; right; left; eauto). reflexivity.
  - destruct row as [|p [|q row]]; reflexivity.
Qed.

Lemma hide_rows_py3 (grid rows : list (list Figure)) (i : nat) :
  match snd (hide_rows Py3 grid i rows) with
  | None =>
      forall k row, rows !! k = Some row ->
        (i + k + 1 = length grid \/ i + k + 2 = length grid
         \/ length row <= 1)%nat
  | Some e =>
      e = TypeError "'>=' not supported between 'int' and 'NoneType'"
      /\ exists k row, rows !! k = Some row
           /\ (i + k + 1 <> length grid /\ i + k + 2 <> length grid
               /\ 2 <= length row)%nat
  end.
Proof.
  revert i. induction rows as [|row rows IH]; intros i; simpl.
  - intros k row Hk. rewrite lookup_nil in Hk. discriminate.
  - pose proof (hide_row_py3
                  (if (i + 2 =? length grid)%nat
                   then Some (length (nth (i + 1) grid [])) else None)
                  (i + 1 =? length grid)%nat row) as Hrow.
    destruct (hide_row Py3 _ _ 0 row) as [row' [e|]]; cbn [fst snd] in *.
    + destruct (i + 1 =? length grid)%nat eqn:H1;
        [cbv [negb andb] in Hrow; discriminate|].
      destruct (i + 2 =? length grid)%nat eqn:H2;
        [cbv [negb andb] in Hrow; discriminate|].
      cbv [negb andb] in Hrow.
      destruct (2 <=? length row)%nat eqn:H3; [|discriminate].
      injection Hrow as ->. split; [reflexivity|].
      exists 0%nat, row. split; [reflexivity|].
      apply Nat.eqb_neq in H1, H2. apply Nat.leb_le in H3. lia.
    + specialize (IH (S i)).
      destruct (hide_rows Py3 grid (S i) rows) as [rows' [e|]]; cbn [fst snd] in *.
      * destruct IH as [-> [k [r [Hk Hcond]]]]. split; [reflexivity|].
        exists (S k), r. split; [exact Hk|]. lia.
      * intros [|k] r Hk; simpl in Hk.
        -- injection Hk as <-.
           destruct (i + 1 =? length grid)%nat eqn:H1;
             [apply Nat.eqb_eq in H1; lia|].
           destruct (i + 2 =? length grid)%nat eqn:H2;
             [apply Nat.eqb_eq in H2; lia|].
           cbv [negb andb] in Hrow.
           destruct (2 <=? length row)%nat eqn:H3; [discriminate|].
           apply Nat.leb_gt in H3. lia.
        -- specialize (IH k r Hk). lia.
Qed.

(** X10: on Python 2 [hide_internal_axes] never raises.  On Python 3 it
    raises, a [TypeError], exactly when a row above the last two has two
    cells or more: there the column index is compared with [None]. *)
Theorem hide_internal_axes_raises (grid : list (list Figure)) :
  snd (hide_internal_axes Py2 grid) = None
  /\ (snd (hide_internal_axes Py3 grid) = None <->
      forall i row, grid !! i = Some row ->
                    (i + 2 < length grid)%nat -> (length row <= 1)%nat)
  /\ (snd (hide_internal_axes Py3 grid) = None
      \/ exists msg, snd (hide_internal_axes Py3 grid) = Some (TypeError msg)).
Proof.
  unfold hide_internal_axes.
  pose proof (hide_rows_py3 grid grid 0) as H3.
  split; [|split].
  - rewrite hide_rows_design by (left; reflexivity). reflexivity.
  - destruct (snd (hide_rows Py3 grid 0 grid)) as [e|].
    + destruct H3 as [_ [k [row [Hk Hcond]]]]. split; [discriminate|].
      intros H. exfalso.
      pose proof (lookup_lt_Some _ _ _ Hk) as Hlt.
      assert (length row <= 1)%nat by (apply (H k row Hk); lia). lia.
    + split; [|reflexivity]. intros _ i row Hi Hup.
      specialize (H3 i row Hi). lia.
  - destruct (snd (hide_rows Py3 grid 0 grid)) as [e|]; [|left; reflexivity].
    destruct H3 as [-> _]. right. eexists. reflexivity.
Qed.

(** ** The grid of a one-dimensional faceting *)

Lemma chunks_concat {A} (c m : nat) (l : list A) :
  (length l <= m * c)%nat ->
  concat (map (fun k => firstn c (skipn (k * c) l)) (seq 0 m)) = l.
Proof.
  revert l. induction m as [|m IH]; intros l Hl.
  - destruct l; [reflexivity|simpl in Hl; lia].
  - rewrite <- cons_seq, <- seq_shift, map_cons, map_map. simpl concat.
    transitivity (firstn c l ++ skipn c l)%list; [|apply firstn_skipn].
    f_equal. rewrite <- (IH (skipn c l)).
    + f_equal. apply map_ext. intros k.
      rewrite skipn_skipn. f_equal. f_equal. lia.
    + rewrite length_skipn. simpl in Hl. lia.
Qed.

Lemma Forall2_concat' {A B} (R : A -> B -> Prop) (l : list (list A))
      (k : list (list B)) :
  Forall2 (Forall2 R) l k -> Forall2 R (concat l) (concat k).
Proof.
  induction 1 as [|a b l k Hab _ IH]; simpl; [constructor|].
  apply Forall2_app; assumption.
Qed.

Lemma mapM_length {A B} (f : A -> result B) (l : list A) (l' : list B) :
  mapM f l = Ok l' -> length l' = length l.
Proof.
  intros H. apply mapM_Forall2 in H. symmetry.
  apply (Forall2_length _ _ _ H).
Qed.

Lemma range_chunks (n c : nat) (starts : list nat) :
  py_range_step n c = Ok starts ->
  (c <> 0)%nat /\ starts = map (fun k => k * c)%nat (seq 0 ((n + c - 1) / c)).
Proof.
  unfold py_range_step. destruct (Nat.eqb_spec c 0); [discriminate|].
  intros [= <-]. auto.
Qed.

(** X11: the grid of a one-dimensional faceting holds the plot of every
    facet combination once, in the order of the combinations: the single
    plot, 200 by 200 and titled by the combination, of the rows that the
    combination and the facets of the tab select, with nothing changed but
    hidden axes.  Its rows are not empty and have at most [ceil(sqrt n)]
    cells, there are at most that many rows, and the grid is as wide as
    that many plots of width 200. *)
Theorem make_1d_facet_plot_grid (E : External) (py : python)
        (cf : CrossFilter) (facet : option (list Facet)) (page : Page) :
  make_1d_facet_plot E py cf facet = Ok page ->
  exists all_facets plots grid,
    make_facets E py cf (match cf_facet_x cf with [] => "y" | _ => "x" end)
    = Ok all_facets
    /\ Forall2
         (fun facets plot =>
            (let* df :=
               facet_data
                 match facet with
                 | Some (f :: fs) => (facets ++ f :: fs)%list
                 | _ => facets
                 end (cf_filtered_df cf) in
             make_single_plot E cf (Some df) (Some (facet_title facets))
               200 200 "pan,wheel_zoom,reset"
               (Some match facet with
                     | Some (f :: fs) => (facets ++ f :: fs)%list
                     | _ => facets
                     end))
            = Ok plot)
         all_facets plots
    /\ page = PGridPlot grid (200 * Nat.sqrt_up (length plots))
    /\ Forall2 only_hides plots (concat grid)
    /\ Forall (fun row => (0 < length row <= Nat.sqrt_up (length plots))%nat)
              grid
    /\ (length grid <= Nat.sqrt_up (length plots))%nat.
Proof.
  unfold make_1d_facet_plot. intros H.
  match type of H with
  | (let* _ := ?m in _) = _ => destruct m as [all_facets|e] eqn:Hall;
                               [|discriminate]
  end.
  cbn [rbind] in H.
  match type of H with
  | (let* _ := ?m in _) = _ => destruct m as [plots|e] eqn:Hplots;
                               [|discriminate]
  end.
  cbn [rbind] in H.
  destruct (py_range_step (length plots) (Nat.sqrt_up (length plots)))
    as [starts|e] eqn:Hstarts; [|discriminate].
  cbn [rbind] in H.
  apply range_chunks in Hstarts. destruct Hstarts as [Hc ->].
  rewrite map_map in H.
  set (c := Nat.sqrt_up (length plots)) in *.
  set (m := ((length plots + c - 1) / c)%nat) in *.
  set (chunks := map (fun k => firstn c (skipn (k * c) plots)) (seq 0 m))
    in *.
  pose proof (hide_internal_axes_only_hides py chunks) as Hhide.
  destruct (hide_internal_axes py chunks) as [grid [e|]]; [discriminate|].
  cbn [raise_after rbind fst] in H, Hhide. injection H as <-.
  assert (Hn : (0 < length plots)%nat).
  { destruct plots; [exfalso; apply Hc; reflexivity|simpl; lia]. }
  pose proof (Nat.sqrt_up_spec (length plots) Hn) as [_ Hsq]. fold c in Hsq.
  assert (Hm1 : (length plots <= m * c)%nat).
  { unfold m. pose proof (Nat.mul_succ_div_gt (length plots + c - 1) c Hc).
    lia. }
  assert (Hm2 : (m <= c)%nat).
  { unfold m. assert ((length plots + c - 1) / c < S c)%nat; [|lia].
    apply Nat.Div0.div_lt_upper_bound. lia. }
  assert (Hm3 : forall k, (k < m)%nat -> (k * c < length plots)%nat).
  { intros k Hk. unfold m in Hk.
    pose proof (Nat.Div0.mul_div_le (length plots + c - 1) c). nia. }
  exists all_facets, plots, grid.
  split; [|split; [|split; [|split; [|split]]]].
  - destruct (cf_facet_x cf); exact Hall.
  - exact (mapM_Forall2 _ _ _ Hplots).
  - reflexivity.
  - rewrite <- (chunks_concat c m plots Hm1) at 1.
    apply Forall2_concat'. exact Hhide.
  - assert (Hchunks : Forall (fun row => (0 < length row <= c)%nat) chunks).
    { unfold chunks. apply List.Forall_forall. intros row Hrow.
      apply in_map_iff in Hrow. destruct Hrow as [k [<- Hk]].
      apply in_seq in Hk. rewrite length_firstn, length_skipn.
      specialize (Hm3 k ltac:(lia)). lia. }
    clear -Hhide Hchunks. induction Hhide as [|a b l k Hab _ IH];
      [constructor|].
    inversion Hchunks; subst. constructor; [|apply IH; assumption].
    rewrite <- (Forall2_length _ _ _ Hab). assumption.
  - rewrite <- (Forall2_length _ _ _ Hhide). unfold chunks.
    rewrite length_map, length_seq. exact Hm2.
Qed.

(** X12: when the facet columns give no combination at all, as a Discrete
    column of a data set without rows does, the one-dimensional faceting
    raises [ValueError]: its rows would be cut every zero plots. *)
Theorem make_1d_facet_plot_no_facets (E : External) (py : python)
        (cf : CrossFilter) (facet : option (list Facet)) :
  make_facets E py cf (match cf_facet_x cf with [] => "y" | _ => "x" end)
  = Ok [] ->
  exists msg, make_1d_facet_plot E py cf facet = Raise (ValueError msg).
Proof.
  intros H. unfold make_1d_facet_plot.
  replace (match cf_facet_x cf with
           | [] => make_facets E py cf "y"
           | _ :: _ => make_facets E py cf "x"
           end) with (@Ok (list (list Facet)) [])
    by (destruct (cf_facet_x cf); symmetry; exact H).
  eexists. reflexivity.
Qed.

(** ** The grid of a two-dimensional faceting *)

Lemma hide_internal_axes_py2 (grid : list (list Figure)) :
  hide_internal_axes Py2 grid
  = (imap (fun i row =>
             imap (fun j plot => apply_axes (design_axes grid i j) plot) row)
          grid,
     None).
Proof.
  unfold hide_internal_axes. rewrite hide_rows_design by (left; reflexivity).
  f_equal. apply imap_ext. intros i row _. simpl.
  apply imap_ext. intros j plot _. simpl.
  rewrite cell_design_axes. reflexivity.
Qed.

Lemma get_plot_fresh (E : External) (p : Plugin) (fig : Figure) :
  get_plot E p = Ok fig ->
  xaxis_hidden fig = false /\ yaxis_hidden fig = false.
Proof.
  unfold get_plot. destruct (validate_plot p) as [p'|e]; [|discriminate].
  cbn [rbind]. destruct (pl_valid_plot p'); [|intros [= <-]; auto].
  unfold plugin_make_plot. destruct (pl_class p').
  - intros [= <-]. auto.
  - intros [= <-]. auto.
  - destruct (transform_data E p') as [p''|e]; [|discriminate]. cbn [rbind].
    destruct (getitem (pl_source p'') (pl_y p'')) as [col|e]; [|discriminate].
    cbn [rbind]. destruct (as_floats col) as [vals|e]; [|discriminate].
    cbn [rbind]. intros [= <-]. auto.
Qed.

Lemma make_single_plot_fresh (E : External) (cf : CrossFilter)
      (df : option DataFrame) (title : option string) (w h : nat)
      (tools : string) (facet : option (list Facet)) (fig : Figure) :
  make_single_plot E cf df title w h tools facet = Ok fig ->
  xaxis_hidden fig = false /\ yaxis_hidden fig = false.
Proof.
  unfold make_single_plot.
  match goal with
  | |- (let* _ := ?m in _) = _ -> _ => destruct m as [dfa|e]; [|discriminate]
  end.
  cbn [rbind].
  match goal with
  | |- (let* _ := ?m in _) = _ -> _ => destruct m as [df'|e]; [|discriminate]
  end.
  cbn [rbind]. apply get_plot_fresh.
Qed.

Lemma mapM_Forall {A B} (f : A -> result B) (P : B -> Prop) (l : list A)
      (l' : list B) :
  (forall a b, f a = Ok b -> P b) -> mapM f l = Ok l' -> Forall P l'.
Proof.
  intros Hf H. apply mapM_Forall2 in H.
  induction H as [|a b l l' Hab _ IH]; constructor; eauto.
Qed.

Lemma make_2d_row (E : External) (cf : CrossFilter)
      (facet : option (list Facet)) (xs : list (list Facet))
      (facets_y : list Facet) (row : list Figure) :
  mapM (fun facets_x =>
          let facets := (facets_x ++ facets_y)%list in
          let title := facet_title facets in
          let filter_facets :=
            match facet with
            | Some (f :: fs) => (facets ++ f :: fs)%list
            | _ => facets
            end in
          let* df := facet_data filter_facets (cf_filtered_df cf) in
          make_single_plot E cf (Some df) (Some title) 200 200
                           "pan,wheel_zoom,reset" (Some facets)) xs
  = Ok row ->
  length row = length xs
  /\ Forall (fun fig => xaxis_hidden fig = false /\ yaxis_hidden fig = false)
            row.
Proof.
  intros H. split; [apply (mapM_length _ _ _ H)|].
  eapply mapM_Forall; [|exact H]. intros facets_x fig. cbv beta zeta.
  match goal with
  | |- (let* _ := ?m in _) = _ -> _ => destruct m as [df|e]; [|discriminate]
  end.
  cbn [rbind]. apply make_single_plot_fresh.
Qed.

Lemma hide_appended_row (m k : nat) (grid : list (list Figure))
      (row : list Figure) :
  length grid = k ->
  (forall i r, grid !! i = Some r ->
     length r = m
     /\ forall j plot, r !! j = Some plot ->
          xaxis_hidden plot = (i + 1 <? k)%nat
          /\ yaxis_hidden plot = negb (j =? 0)%nat) ->
  length row = m ->
  Forall (fun fig => xaxis_hidden fig = false /\ yaxis_hidden fig = false)
         row ->
  exists grid',
    hide_internal_axes Py2 (grid ++ [row])%list = (grid', None)
    /\ length grid' = S k
    /\ forall i r, grid' !! i = Some r ->
         length r = m
         /\ forall j plot, r !! j = Some plot ->
              xaxis_hidden plot = (i + 1 <? S k)%nat
              /\ yaxis_hidden plot = negb (j =? 0)%nat.
Proof.
  intros Hk Hinv Hrow Hfresh.
  rewrite hide_internal_axes_py2. eexists. split; [reflexivity|].
  split; [rewrite length_imap, length_app; simpl; lia|].
  intros i r Hi. rewrite list_lookup_imap in Hi.
  destruct ((grid ++ [row])%list !! i) as [r0|] eqn:Hr0; [|discriminate].
  simpl in Hi. injection Hi as <-.
  assert (Hlen : length (grid ++ [row])%list = S k)
    by (rewrite length_app; simpl; lia).
  assert (Hlast : nth k (grid ++ [row])%list [] = row)
    by (rewrite app_nth2 by lia; rewrite Hk, Nat.sub_diag; reflexivity).
  destruct (Nat.lt_ge_cases i k) as [Hlt|Hge].
  - rewrite lookup_app_l in Hr0 by lia.
    destruct (Hinv i r0 Hr0) as [Hm Hcells].
    split; [rewrite length_imap; exact Hm|].
    intros j plot Hj. rewrite list_lookup_imap in Hj.
    destruct (r0 !! j) as [plot0|] eqn:Hp0; [|discriminate].
    simpl in Hj. injection Hj as <-.
    destruct (Hcells j plot0 Hp0) as [Hx Hy].
    pose proof (lookup_lt_Some _ _ _ Hp0) as Hjm.
    assert ((i + 1 <? S k)%nat = true) as -> by (apply Nat.ltb_lt; lia).
    unfold design_axes. rewrite Hlen.
    destruct (j =? 0)%nat eqn:Hj0.
    + assert ((i + 1 =? S k)%nat = false) as -> by (apply Nat.eqb_neq; lia).
      simpl. split; [reflexivity|exact Hy].
    + destruct (i + 2 =? S k)%nat eqn:Hi2.
      * apply Nat.eqb_eq in Hi2.
        replace (i + 1)%nat with k by lia. rewrite Hlast.
        assert ((j <? length row)%nat = true) as ->
            by (apply Nat.ltb_lt; lia).
        simpl. split; reflexivity.
      * apply Nat.eqb_neq in Hi2. simpl. split; [|reflexivity].
        rewrite Hx. apply Nat.ltb_lt. lia.
  - rewrite lookup_app_r in Hr0 by lia.
    destruct (i - length grid)%nat as [|d] eqn:Hd; [|destruct d; discriminate].
    injection Hr0 as <-. assert (i = k) as -> by lia.
    split; [rewrite length_imap; exact Hrow|].
    intros j plot Hj. rewrite list_lookup_imap in Hj.
    destruct (row !! j) as [plot0|] eqn:Hp0; [|discriminate].
    simpl in Hj. injection Hj as <-.
    rewrite List.Forall_forall in Hfresh.
    destruct (Hfresh plot0) as [Hx Hy];
      [apply list_elem_of_In; eapply list_elem_of_lookup_2; exact Hp0|].
    assert ((k + 1 <? S k)%nat = false) as -> by (apply Nat.ltb_ge; lia).
    unfold design_axes. rewrite Hlen.
    assert ((k + 1 =? S k)%nat = true) as -> by (apply Nat.eqb_eq; lia).
    assert ((k + 2 =? S k)%nat = false) as -> by (apply Nat.eqb_neq; lia).
    destruct (j =? 0)%nat; simpl; auto.
Qed.

Lemma make_2d_rows_py2 (E : External) (cf : CrossFilter)
      (facet : option (list Facet)) (xs ys : list (list Facet))
      (grid0 grid : list (list Figure)) :
  (forall i r, grid0 !! i = Some r ->
     length r = length xs
     /\ forall j plot, r !! j = Some plot ->
          xaxis_hidden plot = (i + 1 <? length grid0)%nat
          /\ yaxis_hidden plot = negb (j =? 0)%nat) ->
  make_2d_rows E Py2 cf facet xs ys grid0 = Ok grid ->
  length grid = (length grid0 + length ys)%nat
  /\ forall i r, grid !! i = Some r ->
       length r = length xs
       /\ forall j plot, r !! j = Some plot ->
            xaxis_hidden plot = (i + 1 <? length grid)%nat
            /\ yaxis_hidden plot = negb (j =? 0)%nat.
Proof.
  revert grid0. induction ys as [|facets_y ys IH]; intros grid0 Hinv; simpl.
  - intros [= <-]. split; [lia|exact Hinv].
  - match goal with
    | |- (let* _ := ?m in _) = _ -> _ =>
        destruct m as [row|e] eqn:Hrow; [|discriminate]
    end.
    cbn [rbind]. apply make_2d_row in Hrow. destruct Hrow as [Hlen Hfresh].
    destruct (hide_appended_row (length xs) (length grid0) grid0 row
                eq_refl Hinv Hlen Hfresh) as [grid1 [Hhide [Hlen1 Hinv1]]].
    rewrite Hhide. cbn [raise_after rbind]. intros H.
    rewrite <- Hlen1 in Hinv1.
    destruct (IH grid1 Hinv1 H) as [Hl Hcells].
    split; [lia|exact Hcells].
Qed.

(** X13: on Python 2 the grid of a two-dimensional faceting has one row per
    combination of y facets and, in each row, one cell per combination of x
    facets; it shows the x-axis in the bottom row only and the y-axis in the
    first column only. *)
Theorem make_2d_facet_plot_py2 (E : External) (cf : CrossFilter)
        (facet : option (list Facet)) (page : Page) :
  make_2d_facet_plot E Py2 cf facet = Ok page ->
  exists xs ys grid,
    make_facets E Py2 cf "x" = Ok xs
    /\ make_facets E Py2 cf "y" = Ok ys
    /\ page = PGridPlot grid (200 * length xs)
    /\ length grid = length ys
    /\ forall i row, grid !! i = Some row ->
         length row = length xs
         /\ forall j plot, row !! j = Some plot ->
              xaxis_hidden plot = (i + 1 <? length ys)%nat
              /\ yaxis_hidden plot = negb (j =? 0)%nat.
Proof.
  unfold make_2d_facet_plot.
  destruct (make_facets E Py2 cf "x") as [xs|e]; [|discriminate]. cbn [rbind].
  destruct (make_facets E Py2 cf "y") as [ys|e]; [|discriminate]. cbn [rbind].
  destruct (make_2d_rows E Py2 cf facet xs ys []) as [grid|e] eqn:Hrows;
    [|discriminate].
  cbn [rbind]. intros [= <-].
  apply make_2d_rows_py2 in Hrows.
  - destruct Hrows as [Hlen Hcells]. simpl in Hlen.
    exists xs, ys, grid. rewrite <- Hlen. auto 10.
  - intros i r Hi. rewrite lookup_nil in Hi. discriminate.
Qed.

(** ** The two interpreters *)

Lemma hide_cell_py3_ok (is_bottom : bool) (next_len : option nat) (j : nat)
      (plot plot' : Figure) :
  hide_cell Py3 is_bottom next_len j plot = (plot', None) ->
  hide_cell Py2 is_bottom next_len j plot = (plot', None).
Proof.
  unfold hide_cell, ge_next_len.
  destruct (negb (j =? 0)%nat), is_bottom, next_len; simpl;
    congruence.
Qed.

Lemma hide_row_py3_ok (is_bottom : bool) (next_len : option nat) (j : nat)
      (row row' : list Figure) :
  hide_row Py3 is_bottom next_len j row = (row', None) ->
  hide_row Py2 is_bottom next_len j row = (row', None).
Proof.
  revert j row'. induction row as [|plot row IH]; intros j row'; simpl;
    [trivial|].
  destruct (hide_cell Py3 is_bottom next_len j plot) as [plot1 [e|]] eqn:Hc;
    [discriminate|].
  rewrite (hide_cell_py3_ok _ _ _ _ _ Hc).
  destruct (hide_row Py3 is_bottom next_len (S j) row) as [row1 [e|]] eqn:Hr;
    [discriminate|].
  rewrite (IH _ _ Hr). trivial.
Qed.

Lemma hide_rows_py3_ok (grid rows rows' : list (list Figure)) (i : nat) :
  hide_rows Py3 grid i rows = (rows', None) ->
  hide_rows Py2 grid i rows = (rows', None).
Proof.
  revert i rows'. induction rows as [|row rows IH]; intros i rows'; simpl;
    [trivial|].
  destruct (hide_row Py3 _ _ 0 row) as [row1 [e|]] eqn:Hr; [discriminate|].
  rewrite (hide_row_py3_ok _ _ _ _ _ Hr).
  destruct (hide_rows Py3 grid (S i) rows) as [rows1 [e|]] eqn:Hrs;
    [discriminate|].
  rewrite (IH _ _ Hrs). trivial.
Qed.

(** X14: inside [hide_internal_axes] the comparison with [None] is the
    only step on which the two interpreters differ, and it can only stop
    Python 3: whenever Python 3 gets through a grid, Python 2 leaves the
    same grid, without raising. *)
Theorem hide_internal_axes_py3_then_py2 (grid : list (list Figure)) :
  snd (hide_internal_axes Py3 grid) = None ->
  hide_internal_axes Py2 grid = hide_internal_axes Py3 grid.
Proof.
  unfold hide_internal_axes.
  destruct (hide_rows Py3 grid 0 grid) as [rows [e|]] eqn:H; [discriminate|].
  intros _. apply (hide_rows_py3_ok _ _ _ _ H).
Qed.

Lemma make_2d_rows_py3 (E : External) (cf : CrossFilter)
      (facet : option (list Facet)) (xs ys : list (list Facet))
      (grid0 grid : list (list Figure)) :
  Forall (fun r => length r = length xs) grid0 ->
  (length grid0 <= 2 \/ length xs <= 1)%nat ->
  make_2d_rows E Py3 cf facet xs ys grid0 = Ok grid ->
  (length grid0 + length ys <= 2 \/ length xs <= 1)%nat.
Proof.
  revert grid0. induction ys as [|facets_y ys IH]; intros grid0 Hlen H0; simpl.
  - intros _. lia.
  - match goal with
    | |- (let* _ := ?m in _) = _ -> _ =>
        destruct m as [row|e] eqn:Hrow; [|discriminate]
    end.
    cbn [rbind]. apply make_2d_row in Hrow. destruct Hrow as [Hrow _].
    pose proof (hide_rows_py3 (grid0 ++ [row])%list (grid0 ++ [row])%list 0)
      as H3.
    pose proof (hide_rows_only_hides Py3 (grid0 ++ [row])%list
                  (grid0 ++ [row])%list 0) as Honly.
    unfold hide_internal_axes.
    destruct (hide_rows Py3 _ 0 _) as [grid1 [e|]]; [discriminate|].
    cbn [raise_after rbind fst snd] in *. intros H.
    assert (Hall : Forall (fun r => length r = length xs)
                          (grid0 ++ [row])%list).
    { apply Forall_app. split; [exact Hlen|]. constructor; [exact Hrow|].
      constructor. }
    assert (Hl1 : length grid1 = S (length grid0)).
    { rewrite <- (Forall2_length _ _ _ Honly), length_app. simpl. lia. }
    destruct (Nat.le_gt_cases (length grid0) 1) as [Hsmall|Hbig].
    + apply IH in H.
      * lia.
      * rewrite Forall_lookup. intros k r1 Hk.
        destruct (Forall2_lookup_r _ _ _ _ _ Honly Hk) as [r [Hr Hrr]].
        rewrite <- (Forall2_length _ _ _ Hrr).
        rewrite Forall_lookup in Hall. exact (Hall _ _ Hr).
      * lia.
    + right. destruct grid0 as [|r0 rest]; [simpl in Hbig; lia|].
      specialize (H3 0%nat r0 eq_refl).
      rewrite length_app in H3. simpl in H3, Hbig.
      inversion Hlen; subst. lia.
Qed.

(** X15: on Python 3 a two-dimensional faceting is built only when it is
    small: if [make_2d_facet_plot] returns a page, there are at most two
    combinations of y facets or at most one combination of x facets.  With
    three rows or more of two plots or more, hiding the axes compares a
    column index with [None] and the build raises. *)
Theorem make_2d_facet_plot_py3 (E : External) (cf : CrossFilter)
        (facet : option (list Facet)) (page : Page) :
  make_2d_facet_plot E Py3 cf facet = Ok page ->
  exists xs ys,
    make_facets E Py3 cf "x" = Ok xs
    /\ make_facets E Py3 cf "y" = Ok ys
    /\ (length ys <= 2 \/ length xs <= 1)%nat.
Proof.
  unfold make_2d_facet_plot.
  destruct (make_facets E Py3 cf "x") as [xs|e]; [|discriminate]. cbn [rbind].
  destruct (make_facets E Py3 cf "y") as [ys|e]; [|discriminate]. cbn [rbind].
  destruct (make_2d_rows E Py3 cf facet xs ys []) as [grid|e] eqn:Hrows;
    [|discriminate].
  intros _. exists xs, ys. split; [reflexivity|]. split; [reflexivity|].
  apply make_2d_rows_py3 in Hrows; simpl in *; auto with lia.
Qed.

(** ** Filter selections *)

Lemma combine_map_andb (f g : cell -> bool) (col : list cell) :
  map (fun ab : bool * bool => andb (fst ab) (snd ab))
      (combine (map f col) (map g col))
  = map (fun c => f c && g c) col.
Proof. induction col as [|c col IH]; simpl; [|rewrite IH]; reflexivity. Qed.

(** One step of the loop keeps the rows its selection accepts, and whether
    it raises depends on the header of the frame only. *)
Lemma filter_step_rows (cf : CrossFilter) (df df' : DataFrame)
      (d : descriptor) :
  filter_step cf df d = Ok df' ->
  forall df2, df_columns df2 = df_columns df ->
    filter_step cf df2 d
    = Ok (keep_rows df2 (selection_accepts cf (df_columns df) d)).
Proof.
  intros H df2 Hcols. revert H.
  assert (Hall : keep_rows df2 (fun _ => true) = df2).
  { unfold keep_rows. rewrite filter_true. destruct df2; reflexivity. }
  unfold filter_step, selection_accepts.
  destruct (cf_filter_widgets cf !! col_name d) as [w|];
    [|intros _; rewrite Hall; reflexivity].
  assert (Hcol : forall (q : cell -> bool) col,
             getitem df (col_name d) = Ok col ->
             exists p col2,
               col_pos (col_name d) (df_columns df) = Some p
               /\ getitem df2 (col_name d) = Ok col2
               /\ getitem_mask df2 (map q col2)
                  = keep_rows df2 (fun r => q (row_get p r))).
  { intros q col Hg. unfold getitem in Hg.
    destruct (col_pos (col_name d) (df_columns df)) as [p|] eqn:Hp;
      [|discriminate].
    exists p, (map (row_get p) (df_values df2)). split; [reflexivity|].
    assert (Hg2 : getitem df2 (col_name d)
                  = Ok (map (row_get p) (df_values df2)))
      by (unfold getitem; rewrite Hcols, Hp; reflexivity).
    split; [exact Hg2|].
    apply (getitem_mask_filter df2 (col_name d) p q); [|exact Hg2].
    rewrite Hcols. exact Hp. }
  destruct (col_type d); cbn [is_discrete].
  - destruct w as [n o v|t]; cbn [widget_get_value rbind]; [|discriminate].
    destruct v as [[|v l]|s]; cbn [value_falsy].
    + intros _.
      destruct (col_pos (col_name d) (df_columns df)); rewrite Hall;
        reflexivity.
    + destruct (getitem df (col_name d)) as [col|e] eqn:Hg; [|discriminate].
      intros _.
      destruct (Hcol (fun c => existsb (cell_eqb c) (v :: l)) col eq_refl)
        as [p [col2 [Hp [Hg2 Hm]]]].
      rewrite Hp, Hg2. cbn [rbind]. unfold in1d. rewrite Hm. reflexivity.
    + destruct s; simpl; [|discriminate]. intros _.
      destruct (col_pos (col_name d) (df_columns df)); rewrite Hall;
        reflexivity.
  - unfold dict_get.
    destruct (cf_filter_sources cf !! col_name d) as [obj|]; [|discriminate].
    cbn [rbind].
    destruct (selected obj) as [|i sel] eqn:Hsel.
    { intros _.
      destruct (col_pos (col_name d) (df_columns df)); rewrite Hall;
        reflexivity. }
    rewrite <- Hsel. unfold list_index.
    destruct (nth_error (centers obj) (nat_min (selected obj))) as [lo|];
      [|discriminate].
    destruct (nth_error (centers obj) (nat_max (selected obj))) as [hi|];
      [|discriminate].
    cbn [rbind].
    destruct (getitem df (col_name d)) as [col|e] eqn:Hg; [|discriminate].
    intros _.
    destruct (Hcol (fun c => cell_geb c (Num lo) && cell_leb c (Num hi))
                   col eq_refl) as [p [col2 [Hp [Hg2 Hm]]]].
    rewrite Hp, Hg2. cbn [rbind]. rewrite combine_map_andb, Hm.
    reflexivity.
  - unfold dict_get.
    destruct (cf_filter_sources cf !! col_name d) as [obj|]; [|discriminate].
    cbn [rbind].
    destruct (selected obj) as [|i sel] eqn:Hsel.
    { intros _.
      destruct (col_pos (col_name d) (df_columns df)); rewrite Hall;
        reflexivity. }
    rewrite <- Hsel. unfold list_index.
    destruct (nth_error (centers obj) (nat_min (selected obj))) as [lo|];
      [|discriminate].
    destruct (nth_error (centers obj) (nat_max (selected obj))) as [hi|];
      [|discriminate].
    cbn [rbind].
    destruct (getitem df (col_name d)) as [col|e] eqn:Hg; [|discriminate].
    intros _.
    destruct (Hcol (fun c => cell_geb c (Num lo) && cell_leb c (Num hi))
                   col eq_refl) as [p [col2 [Hp [Hg2 Hm]]]].
    rewrite Hp, Hg2. cbn [rbind]. rewrite combine_map_andb, Hm.
    reflexivity.
Qed.

Lemma filter_loop_steps (cf : CrossFilter) (columns : list descriptor)
      (df df' : DataFrame) :
  filter_loop cf columns df = Ok df' ->
  forall d, In d columns ->
  forall df2, df_columns df2 = df_columns df ->
    filter_step cf df2 d
    = Ok (keep_rows df2 (selection_accepts cf (df_columns df) d)).
Proof.
  revert df. induction columns as [|d0 columns IH]; intros df H d Hd;
    [destruct Hd|].
  simpl in H.
  destruct (filter_step cf df d0) as [df1|e] eqn:Hstep; [|discriminate].
  cbn [rbind] in H.
  pose proof (filter_step_rows _ _ _ _ Hstep) as Hrows.
  destruct Hd as [<-|Hd]; [exact Hrows|].
  assert (Hc1 : df_columns df1 = df_columns df).
  { rewrite (Hrows df eq_refl) in Hstep. injection Hstep as <-. reflexivity. }
  intros df2 Hc2. rewrite <- Hc1. apply (IH df1 H d Hd). congruence.
Qed.

Lemma filter_loop_of_steps (cf : CrossFilter) (cols : list string)
      (columns : list descriptor) (df : DataFrame) :
  df_columns df = cols ->
  (forall d, In d columns ->
   forall df2, df_columns df2 = cols ->
     filter_step cf df2 d = Ok (keep_rows df2 (selection_accepts cf cols d))) ->
  filter_loop cf columns df
  = Ok (keep_rows df
          (fun row => forallb (fun d => selection_accepts cf cols d row)
                              columns)).
Proof.
  revert df. induction columns as [|d columns IH]; intros df Hc Hsteps; simpl.
  - unfold keep_rows. rewrite filter_true. destruct df; reflexivity.
  - rewrite (Hsteps d (or_introl eq_refl) df Hc). cbn [rbind].
    rewrite IH.
    + unfold keep_rows. simpl. rewrite filter_andb. reflexivity.
    + exact Hc.
    + intros d' Hd'. apply Hsteps. right. exact Hd'.
Qed.

Lemma filter_loop_conjunction_aux (cf : CrossFilter)
      (columns : list descriptor) (df df' : DataFrame) :
  filter_loop cf columns df = Ok df' ->
  df' = keep_rows df
          (fun row =>
             forallb (fun d => selection_accepts cf (df_columns df) d row)
                     columns).
Proof.
  intros H.
  pose proof (filter_loop_steps _ _ _ _ H) as Hsteps.
  assert (H1 : filter_loop cf columns df
               = Ok (keep_rows df
                       (fun row =>
                          forallb
                            (fun d => selection_accepts cf (df_columns df) d row)
                            columns))).
  { apply filter_loop_of_steps; [reflexivity|]. intros d Hd df2 Hc.
    apply Hsteps; assumption. }
  congruence.
Qed.


Lemma filter_loop_raises (cf : CrossFilter) (columns : list descriptor)
      (d : descriptor) :
  In d columns ->
  (forall df, exists e, filter_step cf df d = Raise e) ->
  forall df, exists e, filter_loop cf columns df = Raise e.
Proof.
  intros Hd Hstep. induction columns as [|d0 columns IH]; [destruct Hd|].
  intros df. simpl.
  destruct (filter_step cf df d0) as [df1|e] eqn:H0; cbn [rbind]; [|eauto].
  destruct Hd as [->|Hd]; [|apply IH; exact Hd].
  destruct (Hstep df) as [e He]. congruence.
Qed.

(** X17: a selection that is a string instead of a list is never applied.
    The step for its column compares the column's name with the string and
    indexes the frame with the resulting boolean, a [KeyError]; so
    [handle_filter_selection] raises and leaves the filtered data, the
    ranges and the plot as they were. *)
Theorem string_selection_raises (E : External) (py : python)
        (cf : CrossFilter) (d : descriptor) (n : string) (o : list cell)
        (s : string) :
  In d (cf_columns cf) ->
  col_type d = DiscreteColumn ->
  cf_filter_widgets cf !! col_name d = Some (MultiSelect n o (value_str s)) ->
  s <> "" ->
  (forall df,
     filter_step cf df d
     = Raise (KeyError (if String.eqb (col_name d) s then "True" else "False")))
  /\ exists e, handle_filter_selection E py cf = (cf, Raise e).
Proof.
  intros Hd Ht Hw Hs.
  assert (Hstep : forall df,
             filter_step cf df d
             = Raise (KeyError (if String.eqb (col_name d) s
                                then "True" else "False"))).
  { intros df. unfold filter_step. rewrite Hw, Ht. simpl.
    destruct s; [contradiction|reflexivity]. }
  split; [exact Hstep|].
  destruct (filter_loop_raises cf (cf_columns cf) d Hd
              (fun df => ex_intro _ _ (Hstep df)) (cf_df cf)) as [e He].
  exists e. unfold handle_filter_selection, sbind, lift. rewrite He.
  reflexivity.
Qed.

Lemma col_pos_app (name : string) (pre post : list string) :
  ~ In name pre -> col_pos name (pre ++ name :: post)%list = Some (length pre).
Proof.
  induction pre as [|c pre IH]; simpl; intros H.
  - rewrite String.eqb_refl. reflexivity.
  - destruct (String.eqb_spec c name) as [->|Hne]; [tauto|].
    rewrite IH by tauto. reflexivity.
Qed.

Lemma mapM_col_pos (pre names : list string) :
  List.NoDup (pre ++ names)%list ->
  mapM (fun name =>
          match col_pos name (pre ++ names)%list with
          | Some p => Ok p
          | None => Raise (KeyError name)
          end) names
  = Ok (seq (length pre) (length names)).
Proof.
  assert (H : forall names2 pre2,
             List.NoDup (pre2 ++ names2)%list ->
             forall cols, cols = (pre2 ++ names2)%list ->
             mapM (fun name =>
                     match col_pos name cols with
                     | Some p => Ok p
                     | None => Raise (KeyError name)
                     end) names2
             = Ok (seq (length pre2) (length names2))).
  { induction names2 as [|name names2 IH]; intros pre2 Hnd cols ->; simpl;
      [reflexivity|].
    rewrite col_pos_app
      by (intros Hin; apply List.NoDup_remove_2 in Hnd; apply Hnd;
          apply in_or_app; left; exact Hin).
    cbn [rbind].
    rewrite (IH (pre2 ++ [name])%list).
    - rewrite length_app. simpl. rewrite Nat.add_1_r. reflexivity.
    - rewrite <- app_assoc. exact Hnd.
    - rewrite <- app_assoc. reflexivity. }
  intros Hnd. apply H; [exact Hnd|reflexivity].
Qed.

Lemma map_row_get_seq (row : list cell) :
  map (fun p => row_get p row) (seq 0 (length row)) = row.
Proof.
  unfold row_get. induction row as [|c row IH]; simpl; [reflexivity|].
  f_equal. rewrite <- seq_shift, map_map. exact IH.
Qed.

(** Taking all the columns of a well-formed frame, in the order of its
    header, gives the frame back. *)
Lemma select_columns_all (df : DataFrame) :
  List.NoDup (df_columns df) ->
  Forall (fun row => length row = length (df_columns df)) (df_values df) ->
  select_columns df (df_columns df) = Ok df.
Proof.
  intros Hnd Hrows. unfold select_columns.
  pose proof (mapM_col_pos [] (df_columns df) Hnd) as Hpos.
  cbn [app length] in Hpos. rewrite Hpos. cbn [rbind].
  destruct df as [cols rows]. simpl in *. f_equal. f_equal.
  induction Hrows as [|row rows Hrow _ IH]; simpl; [reflexivity|].
  rewrite IH, <- Hrow, map_row_get_seq. reflexivity.
Qed.

(** X18: what a selection leaves in the filtered source.  On a controller
    whose data has distinct column names, rows as long as the header, and
    the columns of its frame, once the loop over the columns runs through
    the filtered source holds exactly the rows of the frame that every
    selection accepts, under the same header; and it holds them whether or
    not the rebuild of the plot that follows succeeds. *)
Theorem filtered_data_after_selection (E : External) (py : python)
        (cf : CrossFilter) (df : DataFrame) :
  df_columns (cf_data cf) = df_columns (cf_df cf) ->
  List.NoDup (df_columns (cf_df cf)) ->
  Forall (fun row => length row = length (df_columns (cf_df cf)))
         (df_values (cf_df cf)) ->
  filter_loop cf (cf_columns cf) (cf_df cf) = Ok df ->
  cf_filtered_data (fst (handle_filter_selection E py cf))
  = keep_rows (cf_df cf)
      (fun row =>
         forallb (fun d => selection_accepts cf (df_columns (cf_df cf)) d row)
                 (cf_columns cf)).
Proof.
  intros Hcols Hnd Hrows Hloop.
  pose proof (filter_loop_conjunction_aux cf (cf_columns cf) (cf_df cf) df
                Hloop) as Hdf.
  rewrite <- Hdf.
  eapply handle_filter_selection_state; [exact Hloop|]. rewrite Hdf.
  rewrite Hcols.
  apply (select_columns_all
           (keep_rows (cf_df cf)
              (fun row =>
                 forallb
                   (fun d => selection_accepts cf (df_columns (cf_df cf)) d row)
                   (cf_columns cf)))).
  - exact Hnd.
  - unfold keep_rows. simpl. rewrite List.Forall_forall in *.
    intros row Hrow. apply filter_In in Hrow. apply Hrows. tauto.
Qed.

(** ** Adding filter widgets *)

Lemma set_difference_nil (old new : list string) :
  (forall c, In c old -> In c new) -> set_difference old new = [].
Proof.
  intros H. unfold set_difference.
  assert (Hd : list_difference old new = []).
  { destruct (list_difference old new) as [|c l] eqn:Hl; [reflexivity|].
    assert (Hc : c ∈ list_difference old new) by (rewrite Hl; left).
    apply list_elem_of_difference in Hc. destruct Hc as [Hin Hnot].
    exfalso. apply Hnot. apply list_elem_of_In. apply H.
    apply list_elem_of_In. exact Hin. }
  rewrite Hd. reflexivity.
Qed.

Lemma set_filters_trans (cf cf1 cf2 : CrossFilter) :
  cf1 = set_filters (cf_filter_sources cf1) (cf_filter_widgets cf1) cf ->
  cf2 = set_filters (cf_filter_sources cf2) (cf_filter_widgets cf2) cf1 ->
  cf2 = set_filters (cf_filter_sources cf2) (cf_filter_widgets cf2) cf.
Proof.
  intros H1 H2. rewrite H2. unfold set_filters at 1 2. simpl.
  rewrite H1. reflexivity.
Qed.

Lemma setup_loop_inv (E : External) (cdd : gmap string descriptor)
      (cols : list string) (cf cf' : CrossFilter) :
  setup_loop E cdd cols cf = (cf', Ok tt) ->
  cf' = set_filters (cf_filter_sources cf') (cf_filter_widgets cf') cf
  /\ (forall c, In c cols -> is_Some (cf_filter_widgets cf' !! c))
  /\ (forall c w, cf_filter_widgets cf !! c = Some w ->
                  cf_filter_widgets cf' !! c = Some w)
  /\ (forall c, is_Some (cf_filter_widgets cf !! c) ->
                cf_filter_sources cf' !! c = cf_filter_sources cf !! c)
  /\ (forall c w, cf_filter_widgets cf' !! c = Some w ->
        cf_filter_widgets cf !! c = Some w
        \/ (In c cols
            /\ exists d series,
                 cdd !! c = Some d
                 /\ getitem (cf_df cf) c = Ok series
                 /\ w = fresh_widget d c series)).
Proof.
  revert cf. induction cols as [|col cols IH]; intros cf; simpl.
  - unfold sret. intros [= <-]. split; [destruct cf; reflexivity|].
    split; [intros c []|]. split; [auto|]. split; [auto|]. auto.
  - unfold sbind at 1. unfold lift, dict_get.
    destruct (cdd !! col) as [d|] eqn:Hd; [|discriminate].
    unfold sbind at 1.
    destruct (cf_filter_widgets cf !! col) as [w0|] eqn:Hw.
    + intros H. destruct (IH cf H) as [H1 [H2 [H3 [H4 H5]]]].
      split; [exact H1|]. split; [|split; [exact H3|split; [exact H4|]]].
      * intros c [<-|Hc]; [rewrite (H3 _ _ Hw); eauto|apply H2; exact Hc].
      * intros c w Hcw. destruct (H5 c w Hcw) as [Hl|[Hin Hr]]; [auto|].
        right. split; [right; exact Hin|exact Hr].
    + destruct (getitem (cf_df cf) col) as [series|e] eqn:Hg; [|discriminate].
      match goal with
      | |- context [if is_discrete (col_type d) then (?a, _) else (?b, _)] =>
          set (cf1 := if is_discrete (col_type d) then a else b)
      end.
      assert (Hstep :
                (if is_discrete (col_type d)
                 then (set_filters (cf_filter_sources cf)
                         (<[col := MultiSelect col (pd_unique series)
                                               (value_list [])]>
                            (cf_filter_widgets cf)) cf, Ok tt)
                 else (set_filters
                         (<[col := {| centers := make_histogram_centers E series;
                                      selected := [] |}]>
                            (cf_filter_sources cf))
                         (<[col := Histogram col]> (cf_filter_widgets cf)) cf,
                       Ok tt))
                = (cf1, Ok tt))
        by (subst cf1; destruct (is_discrete (col_type d)); reflexivity).
      rewrite Hstep. clear Hstep.
      assert (Hw1 : cf_filter_widgets cf1
                    = <[col := fresh_widget d col series]>
                        (cf_filter_widgets cf))
        by (subst cf1; unfold fresh_widget;
            destruct (is_discrete (col_type d)); reflexivity).
      assert (Hs1 : forall c, c <> col ->
                      cf_filter_sources cf1 !! c = cf_filter_sources cf !! c).
      { intros c Hc. subst cf1. destruct (is_discrete (col_type d)); simpl;
          [reflexivity|]. apply lookup_insert_ne. congruence. }
      assert (Hcf1 : cf1 = set_filters (cf_filter_sources cf1)
                                       (cf_filter_widgets cf1) cf)
        by (subst cf1; destruct (is_discrete (col_type d)); reflexivity).
      assert (Hdf : cf_df cf1 = cf_df cf) by (rewrite Hcf1; reflexivity).
      clearbody cf1.
      intros H. destruct (IH cf1 H) as [H1 [H2 [H3 [H4 H5]]]].
      split; [|split; [|split; [|split]]].
      * exact (set_filters_trans _ _ _ Hcf1 H1).
      * intros c [<-|Hc]; [|apply H2; exact Hc].
        exists (fresh_widget d col series). apply H3. rewrite Hw1.
        apply lookup_insert_eq.
      * intros c w Hcw. apply H3. rewrite Hw1.
        rewrite lookup_insert_ne by congruence. exact Hcw.
      * intros c [w Hcw]. assert (c <> col) by congruence.
        rewrite H4; [apply Hs1; assumption|].
        rewrite Hw1, lookup_insert_ne by congruence. eauto.
      * intros c w Hcw. destruct (H5 c w Hcw) as [Hl|[Hin Hr]].
        -- rewrite Hw1 in Hl. destruct (decide (col = c)) as [<-|Hne].
           ++ rewrite lookup_insert_eq in Hl. injection Hl as <-.
              right. split; [left; reflexivity|]. exists d, series. auto.
           ++ rewrite lookup_insert_ne in Hl by exact Hne. left. exact Hl.
        -- right. split; [right; exact Hin|]. rewrite Hdf in Hr. exact Hr.
Qed.

(** X19: adding filter columns only adds widgets.  When no column was
    removed from the filtering columns and [setup_filter_widgets] returns,
    every filtering column has a widget, the widgets that were there are
    kept together with their sources, every other widget is the fresh one
    of a filtering column (a [MultiSelect] over the distinct values of a
    discrete column, a histogram otherwise), and nothing else of the
    controller changes: the plot is not rebuilt. *)
Theorem setup_filter_widgets_adds (E : External) (py : python)
        (old new : list string) (cf cf' : CrossFilter) :
  (forall c, In c old -> In c new) ->
  setup_filter_widgets E py old new cf = (cf', Ok tt) ->
  cf' = set_filters (cf_filter_sources cf') (cf_filter_widgets cf') cf
  /\ (forall c, In c (cf_filtering_columns cf) ->
                is_Some (cf_filter_widgets cf' !! c))
  /\ (forall c w, cf_filter_widgets cf !! c = Some w ->
                  cf_filter_widgets cf' !! c = Some w
                  /\ cf_filter_sources cf' !! c = cf_filter_sources cf !! c)
  /\ (forall c w, cf_filter_widgets cf' !! c = Some w ->
        cf_filter_widgets cf !! c = Some w
        \/ (In c (cf_filtering_columns cf)
            /\ exists d series,
                 column_descriptor_dict cf !! c = Some d
                 /\ getitem (cf_df cf) c = Ok series
                 /\ w = fresh_widget d c series)).
Proof.
  intros Hsub. unfold setup_filter_widgets, clear_selections.
  rewrite (set_difference_nil old new Hsub).
  unfold sbind, lift, sret. simpl. intros H.
  destruct (setup_loop_inv _ _ _ _ _ H) as [H1 [H2 [H3 [H4 H5]]]].
  split; [exact H1|]. split; [exact H2|]. split; [|exact H5].
  intros c w Hcw. split; [apply H3; exact Hcw|apply H4; eauto].
Qed.

(** ** A controller that carries its frame *)

Lemma mapM_ext {A B} (f g : A -> result B) (l : list A) :
  (forall a, f a = g a) -> mapM f l = mapM g l.
Proof.
  intros H. induction l as [|a l IH]; simpl; [reflexivity|].
  rewrite H, IH. reflexivity.
Qed.

Lemma make_facets_loop_fd (E : External) (py : python) (cf : CrossFilter)
      (fd : DataFrame)
      (facets : list string) (acc : list (list Facet)) :
  make_facets_loop E py (set_filtered_data fd cf) facets acc
  = make_facets_loop E py cf facets acc.
Proof.
  revert acc. induction facets as [|f facets IH]; intros acc; simpl;
    [reflexivity|].
  change (field_facets E py (set_filtered_data fd cf) f)
    with (field_facets E py cf f).
  destruct (field_facets E py cf f) as [ff|e]; cbn [rbind];
    [apply IH|reflexivity].
Qed.

Lemma make_facets_fd (E : External) (py : python) (cf : CrossFilter)
      (fd : DataFrame)
      (dimension : string) :
  make_facets E py (set_filtered_data fd cf) dimension
  = make_facets E py cf dimension.
Proof. unfold make_facets. rewrite make_facets_loop_fd. reflexivity. Qed.

Lemma cf_filtered_df_fd (cf : CrossFilter) (df0 fd : DataFrame) :
  cf__df cf = Some df0 ->
  cf_filtered_df (set_filtered_data fd cf) = cf_filtered_df cf.
Proof. intros H. unfold cf_filtered_df. simpl. rewrite H. reflexivity. Qed.

Lemma base_validate_plot_with_cf (c : CrossFilter) (p : Plugin) :
  CrossFilterPlugin_validate_plot (with_cf c p)
  = let* q := CrossFilterPlugin_validate_plot p in Ok (with_cf c q).
Proof.
  unfold CrossFilterPlugin_validate_plot.
  change (pl_facet (with_cf c p)) with (pl_facet p).
  change (pl_source (with_cf c p)) with (pl_source p).
  change (pl_x (with_cf c p)) with (pl_x p).
  change (pl_y (with_cf c p)) with (pl_y p).
  destruct (negb (pl_facet p)); [|reflexivity].
  destruct (getitem (pl_source p) (pl_x p)) as [xs|e]; [|reflexivity].
  cbn [rbind]. destruct (length xs =? 0)%nat; [reflexivity|].
  destruct (getitem (pl_source p) (pl_y p)) as [ys|e]; [|reflexivity].
  cbn [rbind]. destruct (length ys =? 0)%nat; reflexivity.
Qed.

Lemma validate_plot_with_cf (c : CrossFilter) (p : Plugin) :
  validate_plot (with_cf c p)
  = let* q := validate_plot p in Ok (with_cf c q).
Proof.
  unfold validate_plot.
  change (pl_class (with_cf c p)) with (pl_class p).
  destruct (pl_class p); try apply base_validate_plot_with_cf.
  unfold CrossBarPlugin_validate_plot.
  rewrite base_validate_plot_with_cf.
  destruct (CrossFilterPlugin_validate_plot p) as [q|e]; [|reflexivity].
  cbn [rbind].
  change (y_type (with_cf c q)) with (y_type q).
  destruct (y_type q) as [t|e]; [|reflexivity].
  cbn [rbind]. cbv zeta.
  destruct q as [cls c0 x y agg src fc meta valid title kw].
  unfold with_cf, invalidate.
  destruct (is_discrete t); simpl; destruct (String.eqb x y); simpl;
    destruct (df_empty src); reflexivity.
Qed.

Lemma plugin_make_plot_with_cf (E : External) (c : CrossFilter) (p : Plugin)
      (plot : Figure) :
  plugin_make_plot E (with_cf c p) plot = plugin_make_plot E p plot.
Proof.
  unfold plugin_make_plot.
  change (pl_class (with_cf c p)) with (pl_class p).
  destruct (pl_class p); try reflexivity.
  unfold transform_data.
  change (y_type (with_cf c p)) with (y_type p).
  destruct (y_type p) as [t|e]; [|reflexivity]. cbn [rbind].
  change (pl_source (with_cf c p)) with (pl_source p).
  change (pl_x (with_cf c p)) with (pl_x p).
  change (pl_y (with_cf c p)) with (pl_y p).
  change (pl_agg (with_cf c p)) with (pl_agg p).
  destruct (if is_discrete t
            then make_continuous_bar_source E (pl_source p) (pl_x p) (pl_y p)
                                            (pl_agg p)
            else make_categorical_bar_source E (pl_source p) (pl_x p) (pl_y p)
                                             (pl_agg p)) as [source|e];
    reflexivity.
Qed.

(** [get_plot] never reads the controller its plugin points to. *)
Lemma get_plot_with_cf (E : External) (c : CrossFilter) (p : Plugin) :
  get_plot E (with_cf c p) = get_plot E p.
Proof.
  unfold get_plot. rewrite validate_plot_with_cf.
  destruct (validate_plot p) as [q|e]; [|reflexivity]. cbn [rbind].
  change (pl_valid_plot (with_cf c q)) with (pl_valid_plot q).
  change (make_figure (with_cf c q)) with (make_figure q).
  destruct (pl_valid_plot q); [apply plugin_make_plot_with_cf|reflexivity].
Qed.

Lemma make_single_plot_fd (E : External) (cf : CrossFilter)
      (df0 fd : DataFrame) (df : option DataFrame) (title : option string)
      (w h : nat) (tools : string) (facet : option (list Facet)) :
  cf__df cf = Some df0 ->
  make_single_plot E (set_filtered_data fd cf) df title w h tools facet
  = make_single_plot E cf df title w h tools facet.
Proof.
  intros H. unfold make_single_plot.
  rewrite (cf_filtered_df_fd cf df0 fd H).
  match goal with
  | |- (let* _ := ?m in _) = _ => destruct m as [dfa|e]; [|reflexivity]
  end.
  cbn [rbind]. cbv zeta.
  match goal with
  | |- (let* _ := ?m in _) = _ => destruct m as [df1|e]; [|reflexivity]
  end.
  cbn [rbind].
  match goal with
  | |- get_plot E (new_Plugin ?cls _ ?src ?fc ?t ?kw) = _ =>
      change (get_plot E (with_cf (set_filtered_data fd cf)
                                  (new_Plugin cls cf src fc t kw))
              = get_plot E (new_Plugin cls cf src fc t kw))
  end.
  apply get_plot_with_cf.
Qed.

Lemma facet_cell_fd (E : External) (cf : CrossFilter) (df0 fd : DataFrame)
      (filter_facets : list Facet) (title : option string) (w h : nat)
      (tools : string) (facets : option (list Facet)) :
  cf__df cf = Some df0 ->
  (let* df := facet_data filter_facets
                         (cf_filtered_df (set_filtered_data fd cf)) in
   make_single_plot E (set_filtered_data fd cf) (Some df) title w h tools
                    facets)
  = (let* df := facet_data filter_facets (cf_filtered_df cf) in
     make_single_plot E cf (Some df) title w h tools facets).
Proof.
  intros H. rewrite (cf_filtered_df_fd cf df0 fd H).
  destruct (facet_data filter_facets (cf_filtered_df cf)) as [df|e];
    [|reflexivity].
  cbn [rbind]. apply (make_single_plot_fd E cf df0 fd). exact H.
Qed.

Lemma make_1d_facet_plot_fd (E : External) (py : python) (cf : CrossFilter)
      (df0 fd : DataFrame) (facet : option (list Facet)) :
  cf__df cf = Some df0 ->
  make_1d_facet_plot E py (set_filtered_data fd cf) facet
  = make_1d_facet_plot E py cf facet.
Proof.
  intros H. unfold make_1d_facet_plot.
  change (cf_facet_x (set_filtered_data fd cf)) with (cf_facet_x cf).
  rewrite !make_facets_fd.
  match goal with
  | |- (let* _ := ?m in _) = _ => destruct m as [all_facets|e]; [|reflexivity]
  end.
  cbn [rbind].
  erewrite mapM_ext; cycle 1.
  - intros facets. cbv beta zeta.
    apply (facet_cell_fd E cf df0 fd). exact H.
  - reflexivity.
Qed.

Lemma make_2d_rows_fd (E : External) (py : python) (cf : CrossFilter)
      (df0 fd : DataFrame) (facet : option (list Facet))
      (xs ys : list (list Facet)) (grid : list (list Figure)) :
  cf__df cf = Some df0 ->
  make_2d_rows E py (set_filtered_data fd cf) facet xs ys grid
  = make_2d_rows E py cf facet xs ys grid.
Proof.
  intros H. revert grid. induction ys as [|facets_y ys IH]; intros grid; simpl;
    [reflexivity|].
  erewrite mapM_ext; cycle 1.
  - intros facets_x. apply (facet_cell_fd E cf df0 fd). exact H.
  - match goal with
    | |- (let* _ := ?m in _) = _ => destruct m as [row|e]; [|reflexivity]
    end.
    cbn [rbind].
    destruct (raise_after _) as [grid1|e]; cbn [rbind]; [apply IH|reflexivity].
Qed.

Lemma create_plot_page_fd (E : External) (py : python) (cf : CrossFilter)
      (df0 fd : DataFrame) (tab_facet : option (list Facet)) :
  cf__df cf = Some df0 ->
  create_plot_page E py (set_filtered_data fd cf) tab_facet
  = create_plot_page E py cf tab_facet.
Proof.
  intros H. unfold create_plot_page.
  change (cf_facet_x (set_filtered_data fd cf)) with (cf_facet_x cf).
  change (cf_facet_y (set_filtered_data fd cf)) with (cf_facet_y cf).
  destruct (cf_facet_x cf), (cf_facet_y cf).
  - rewrite (make_single_plot_fd E cf df0 fd) by exact H. reflexivity.
  - apply (make_1d_facet_plot_fd E py cf df0 fd). exact H.
  - apply (make_1d_facet_plot_fd E py cf df0 fd). exact H.
  - unfold make_2d_facet_plot. rewrite !make_facets_fd.
    destruct (make_facets E py cf "x") as [xs|e]; [|reflexivity]. cbn [rbind].
    destruct (make_facets E py cf "y") as [ys|e]; [|reflexivity]. cbn [rbind].
    rewrite (make_2d_rows_fd E py cf df0 fd) by exact H. reflexivity.
Qed.

Lemma make_plot_fd (E : External) (py : python) (cf : CrossFilter)
      (df0 fd : DataFrame) :
  cf__df cf = Some df0 ->
  make_plot E py (set_filtered_data fd cf) = make_plot E py cf.
Proof.
  intros H. unfold make_plot.
  change (cf_facet_tab (set_filtered_data fd cf)) with (cf_facet_tab cf).
  destruct (cf_facet_tab cf).
  - rewrite (create_plot_page_fd E py cf df0 fd) by exact H. reflexivity.
  - rewrite make_facets_fd.
    destruct (make_facets E py cf "tab") as [facets|e]; [|reflexivity].
    cbn [rbind]. erewrite mapM_ext; [reflexivity|].
    intros facet. cbv beta.
    rewrite (create_plot_page_fd E py cf df0 fd) by exact H. reflexivity.
Qed.

Lemma set_plot_fd (E : External) (py : python) (cf : CrossFilter)
      (df0 fd : DataFrame) :
  cf__df cf = Some df0 ->
  set_plot E py (set_filtered_data fd cf)
  = (set_filtered_data fd (fst (set_plot E py cf)), snd (set_plot E py cf)).
Proof.
  intros H. unfold set_plot, update_xy_ranges, sbind, lift, modify.
  change (cf_plot_type (set_filtered_data fd cf)) with (cf_plot_type cf).
  assert (Hr : make_xy_ranges E py (cf_plot_type cf) (set_filtered_data fd cf)
               = make_xy_ranges E py (cf_plot_type cf) cf)
    by (destruct cf; reflexivity).
  rewrite Hr.
  destruct (make_xy_ranges E py (cf_plot_type cf) cf) as [r|e]; [|reflexivity].
  cbn [fst snd].
  change (set_ranges (Some (fst r)) (Some (snd r)) (set_filtered_data fd cf))
    with (set_filtered_data fd (set_ranges (Some (fst r)) (Some (snd r)) cf)).
  rewrite (make_plot_fd E py _ df0 fd) by exact H.
  destruct (make_plot E py _) as [plot|e]; reflexivity.
Qed.

(** X20: on a controller that keeps its frame in [_df] the plots are made
    from that frame and never from the filtered source: whatever the
    filtered source holds, [make_plot] builds the same display, and
    [set_plot] computes the same ranges, publishes the same display and
    returns or raises the same. *)
Theorem plot_ignores_filtered_data (E : External) (py : python)
        (cf : CrossFilter) (df0 fd : DataFrame) :
  cf__df cf = Some df0 ->
  make_plot E py (set_filtered_data fd cf) = make_plot E py cf
  /\ set_plot E py (set_filtered_data fd cf)
     = (set_filtered_data fd (fst (set_plot E py cf)),
        snd (set_plot E py cf)).
Proof.
  intros H. split.
  - apply (make_plot_fd E py cf df0). exact H.
  - apply (set_plot_fd E py cf df0). exact H.
Qed.

(** ** A data source with a column the frame lacks *)

Lemma col_pos_In (name : string) (cols : list string) (p : nat) :
  col_pos name cols = Some p -> In name cols.
Proof.
  intros H. destruct (in_dec string_dec name cols) as [Hin|Hn]; [exact Hin|].
  apply col_pos_None in Hn. congruence.
Qed.

Lemma select_columns_missing (df : DataFrame) (names : list string)
      (c : string) :
  In c names -> ~ In c (df_columns df) ->
  exists name,
    select_columns df names = Raise (KeyError name)
    /\ In name names /\ ~ In name (df_columns df).
Proof.
  intros Hc Hmiss. unfold select_columns.
  induction names as [|a names IH]; [destruct Hc|]. simpl.
  destruct (col_pos a (df_columns df)) as [p|] eqn:Ha.
  - cbn [rbind]. pose proof (col_pos_In _ _ _ Ha) as Hin.
    destruct Hc as [->|Hc]; [contradiction|].
    destruct (IH Hc) as [name [Hname [Hn1 Hn2]]].
    exists name. split; [|split; [right; exact Hn1|exact Hn2]].
    destruct (mapM _ names) as [ps|e]; [discriminate|].
    cbn [rbind] in *. exact Hname.
  - exists a. split; [reflexivity|]. split; [left; reflexivity|].
    apply col_pos_None. exact Ha.
Qed.

(** X23: when the data source has a column that the frame lacks (a source
    built from a frame holds the frame's index as one more column, so this
    is the state of a controller that keeps the frame itself in [_df]),
    [handle_filter_selection] raises [KeyError] for such a column once the
    loop over the selections has run through: the plot is not rebuilt, and
    the plot and the ranges stay as they were. *)
Theorem selection_with_missing_column (E : External) (py : python)
        (cf : CrossFilter) (df : DataFrame) (c : string) :
  filter_loop cf (cf_columns cf) (cf_df cf) = Ok df ->
  In c (df_columns (cf_data cf)) ->
  ~ In c (df_columns (cf_df cf)) ->
  exists name,
    snd (handle_filter_selection E py cf) = Raise (KeyError name)
    /\ In name (df_columns (cf_data cf))
    /\ ~ In name (df_columns (cf_df cf))
    /\ cf_plot (fst (handle_filter_selection E py cf)) = cf_plot cf
    /\ cf_x_range (fst (handle_filter_selection E py cf)) = cf_x_range cf
    /\ cf_y_range (fst (handle_filter_selection E py cf)) = cf_y_range cf.
Proof.
  intros Hloop Hc Hmiss.
  pose proof (filter_loop_conjunction_aux cf (cf_columns cf) (cf_df cf) df
                Hloop) as Hdf.
  assert (Hcols : df_columns df = df_columns (cf_df cf))
    by (rewrite Hdf; reflexivity).
  rewrite <- Hcols in Hmiss.
  destruct (select_columns_missing df (df_columns (cf_data cf)) c Hc Hmiss)
    as [name [Hname [Hn1 Hn2]]].
  exists name. unfold handle_filter_selection, sbind, lift.
  rewrite Hloop, Hname. cbn [fst snd]. rewrite <- Hcols. auto 10.
Qed.

(** ** Column descriptors and the first plot *)

Lemma descriptor_dict_snoc (l : list descriptor) (d : descriptor)
      (m : gmap string descriptor) :
  fold_left (fun (m : gmap string descriptor) d => <[col_name d := d]> m) (l ++ [d])%list m
  = <[col_name d := d]> (fold_left (fun (m : gmap string descriptor) d => <[col_name d := d]> m) l m).
Proof. rewrite fold_left_app. reflexivity. Qed.

Lemma descriptor_dict_sound (l : list descriptor) (c : string)
      (d : descriptor) :
  fold_left (fun (m : gmap string descriptor) d => <[col_name d := d]> m) l ∅ !! c = Some d ->
  In d l /\ col_name d = c.
Proof.
  induction l as [|x l IH] using rev_ind.
  - simpl. rewrite lookup_empty. discriminate.
  - rewrite descriptor_dict_snoc.
    destruct (decide (col_name x = c)) as [Hx|Hx].
    + rewrite Hx, lookup_insert_eq. intros [= <-]. split; [|exact Hx].
      apply in_or_app. right. left. reflexivity.
    + rewrite lookup_insert_ne by exact Hx. intros H.
      destruct (IH H) as [Hin Hc]. split; [|exact Hc].
      apply in_or_app. left. exact Hin.
Qed.

Lemma descriptor_dict_last (pre post : list descriptor) (d : descriptor) :
  ~ In (col_name d) (map col_name post) ->
  fold_left (fun (m : gmap string descriptor) d => <[col_name d := d]> m) (pre ++ d :: post)%list ∅
    !! col_name d
  = Some d.
Proof.
  induction post as [|x post IH] using rev_ind; intros Hpost.
  - rewrite descriptor_dict_snoc. apply lookup_insert_eq.
  - rewrite app_comm_cons, app_assoc, descriptor_dict_snoc.
    rewrite map_app, in_app_iff in Hpost. simpl in Hpost.
    rewrite lookup_insert_ne by (intros Heq; apply Hpost; right; left; exact Heq).
    apply IH. tauto.
Qed.

Lemma descriptor_dict_defined (l : list descriptor) (c : string) :
  In c (map col_name l) ->
  is_Some (fold_left (fun (m : gmap string descriptor) d => <[col_name d := d]> m) l ∅ !! c).
Proof.
  induction l as [|x l IH] using rev_ind; [intros []|].
  rewrite map_app, in_app_iff, descriptor_dict_snoc. simpl.
  destruct (decide (col_name x = c)) as [Hx|Hx].
  - intros _. rewrite Hx, lookup_insert_eq. eauto.
  - rewrite lookup_insert_ne by exact Hx. intros [H|[H|[]]]; [auto|].
    contradiction.
Qed.

(** X21: the dictionary of [column_descriptor_dict] is keyed by the names
    of the described columns and by nothing else; the descriptor under a
    name is one of the controller's descriptors and carries that name; and
    of several descriptors of one name it is the last. *)
Theorem column_descriptor_dict_lookup (cf : CrossFilter) (c : string) :
  (In c (map col_name (cf_columns cf))
   <-> is_Some (column_descriptor_dict cf !! c))
  /\ (forall d, column_descriptor_dict cf !! c = Some d ->
                In d (cf_columns cf) /\ col_name d = c)
  /\ (forall pre d post,
        cf_columns cf = (pre ++ d :: post)%list ->
        col_name d = c ->
        ~ In c (map col_name post) ->
        column_descriptor_dict cf !! c = Some d).
Proof.
  unfold column_descriptor_dict. split; [split|split].
  - apply descriptor_dict_defined.
  - intros [d Hd]. apply descriptor_dict_sound in Hd.
    destruct Hd as [Hin <-]. apply in_map. exact Hin.
  - apply descriptor_dict_sound.
  - intros pre d post -> <- Hpost. apply descriptor_dict_last. exact Hpost.
Qed.

Lemma filter_map_descriptor_of (dtype_of : string -> dtype)
      (cols : list string) :
  List.filter (fun x => negb (is_discrete (col_type x)))
              (map (fun c => descriptor_of c (dtype_of c)) cols)
  = map (fun c => descriptor_of c (dtype_of c))
        (List.filter (fun c => negb (is_object (dtype_of c))) cols).
Proof.
  induction cols as [|c cols IH]; simpl; [reflexivity|].
  rewrite IH. destruct (dtype_of c) eqn:Hc; simpl; rewrite ?Hc; reflexivity.
Qed.

Lemma mapM_describe (dtype_of : string -> dtype) (cols : list string) :
  mapM (fun c => describe c (dtype_of c)) cols
  = if forallb (fun c => negb (is_other (dtype_of c))) cols
    then Ok (map (fun c => descriptor_of c (dtype_of c)) cols)
    else Raise (KeyError "mean").
Proof.
  induction cols as [|c cols IH]; simpl; [reflexivity|].
  rewrite IH. unfold describe.
  destruct (dtype_of c); simpl; try reflexivity;
    destruct (forallb _ cols); reflexivity.
Qed.

(** X22: how [create] describes the frame and chooses the first plot.
    [set_metadata] raises [KeyError] and leaves the controller as it was
    when some column of the frame has a dtype that is neither [object] nor
    numeric (its summary has no mean); otherwise it describes the columns
    of the frame, one descriptor each and in their order, a column being
    Discrete exactly when its dtype is [object], and [make_plot_choices]
    then proposes a scatter plot of the first two columns that are not of
    dtype [object], and raises a [ValueError] when the frame has fewer than
    two. *)
Theorem metadata_plot_choices (dtype_of : string -> dtype)
        (cf : CrossFilter) :
  let cols := df_columns (cf_df cf) in
  ((exists c, In c cols /\ dtype_of c = dtype_other) ->
   set_metadata dtype_of cf = (cf, Raise (KeyError "mean")))
  /\ ((forall c, In c cols -> dtype_of c <> dtype_other) ->
      exists cf',
        set_metadata dtype_of cf = (cf', Ok tt)
        /\ cf' = set_columns (cf_columns cf') cf
        /\ map col_name (cf_columns cf') = cols
        /\ (forall d, In d (cf_columns cf') ->
              is_discrete (col_type d) = is_object (dtype_of (col_name d)))
        /\ (forall c, In c cols ->
              column_descriptor_dict cf' !! c
              = Some (descriptor_of c (dtype_of c)))
        /\ match List.filter (fun c => negb (is_object (dtype_of c))) cols
           with
           | x :: y :: _ => make_plot_choices cf' = Ok (x, y, scatter)
           | _ => exists msg, make_plot_choices cf' = Raise (ValueError msg)
           end).
Proof.
  cbv zeta. unfold set_metadata. rewrite mapM_describe. split.
  - intros [c [Hc Hother]].
    assert (forallb (fun c => negb (is_other (dtype_of c)))
                    (df_columns (cf_df cf)) = false) as ->; [|reflexivity].
    apply Bool.not_true_is_false. intros Hall.
    rewrite forallb_forall in Hall. specialize (Hall c Hc).
    rewrite Hother in Hall. discriminate.
  - intros Hnone.
    assert (forallb (fun c => negb (is_other (dtype_of c)))
                    (df_columns (cf_df cf)) = true) as ->.
    { apply forallb_forall. intros c Hc. specialize (Hnone c Hc).
      destruct (dtype_of c); try reflexivity. congruence. }
    eexists. split; [reflexivity|].
    unfold make_plot_choices, continuous_columns, column_descriptor_dict.
    cbn [set_columns cf_columns].
    split; [reflexivity|]. split; [|split; [|split]].
    + rewrite map_map. simpl. apply map_id.
    + intros d Hd. apply in_map_iff in Hd. destruct Hd as [c [<- _]].
      simpl. destruct (dtype_of c); reflexivity.
    + intros c Hc.
      destruct (descriptor_dict_defined
                  (map (fun c => descriptor_of c (dtype_of c))
                       (df_columns (cf_df cf))) c) as [d Hd].
      { rewrite map_map. simpl. rewrite map_id. exact Hc. }
      rewrite Hd. f_equal. apply descriptor_dict_sound in Hd.
      destruct Hd as [Hin Hname]. apply in_map_iff in Hin.
      destruct Hin as [c' [<- _]]. simpl in Hname. subst. reflexivity.
    + rewrite filter_map_descriptor_of.
      destruct (List.filter _ (df_columns (cf_df cf))) as [|x [|y rest]];
        simpl; eauto.
Qed.

(** ** The further properties on the sample data *)



Lemma make_facets_shape_witness :
  exists ffs,
    mapM (field_facets sample_external Py3 sample_cf)
         (dimension_facets sample_cf "x") = Ok ffs
    /\ length [[FDiscrete (new_DiscreteFacet sample_external "category"
                                             (Str "A") None)];
               [FDiscrete (new_DiscreteFacet sample_external "category"
                                             (Str "B") None)]]
       = fold_right Nat.mul 1%nat (map (@length Facet) ffs)
    /\ forall c,
         In c [[FDiscrete (new_DiscreteFacet sample_external "category"
                                             (Str "A") None)];
               [FDiscrete (new_DiscreteFacet sample_external "category"
                                             (Str "B") None)]] ->
         map facet_field c = dimension_facets sample_cf "x"
         /\ Forall2 (fun f ff => In f ff) c ffs.
Proof.
  apply (make_facets_shape sample_external Py3 sample_cf "x").
  vm_compute. reflexivity.
Defined.

Lemma make_facets_unknown_column_witness :
  make_facets sample_external Py3 unknown_facet_cf "x"
  = Raise (KeyError "colour").
Proof.
  apply (make_facets_unknown_column sample_external Py3 unknown_facet_cf "x"
           ["category"] [] "colour" [sample_category_facets]).
  - reflexivity.
  - vm_compute. reflexivity.
  - vm_compute. reflexivity.
Defined.

Lemma make_facets_constant_column_witness :
  exists msg,
    field_facets sample_external Py3 constant_cf "value"
    = Raise (ValueError msg)
    /\ make_facets sample_external Py3 constant_cf "x" = Raise (ValueError msg).
Proof.
  destruct (make_facets_constant_column sample_external Py3 constant_cf "value"
              value_descriptor 0 [2; 2; 2]%Q 2%Q) as [msg [H1 H2]].
  - vm_compute. reflexivity.
  - reflexivity.
  - reflexivity.
  - reflexivity.
  - discriminate.
  - repeat constructor.
  - exists msg. split; [exact H1|]. apply (H2 "x" []). reflexivity.
Defined.

Lemma get_plot_scatter_line_witness :
  get_plot sample_external sample_scatter_plugin
  = Ok (add_glyph (make_figure sample_scatter_plugin)
                  (Scatter "category" "value" sample_frame)).
Proof.
  apply (get_plot_scatter_line sample_external sample_scatter_plugin).
  - simpl. discriminate.
  - simpl. tauto.
  - simpl. tauto.
  - reflexivity.
Defined.

Lemma shared_ranges_cover_witness :
  (forall row, In row (df_values (cf_df sample_cf)) ->
     range_covers (FactorRange [Str "A"; Str "B"]) (row_get 0 row)
     /\ range_covers (DataRange1d (Some 1%Q) (Some 5%Q)) (row_get 1 row))
  /\ (forall factors,
        FactorRange [Str "A"; Str "B"] = FactorRange factors
        \/ DataRange1d (Some 1%Q) (Some 5%Q) = FactorRange factors ->
        StronglySorted cell_lt factors).
Proof.
  apply (shared_ranges_cover sample_external Py3 sample_cf scatter).
  - discriminate.
  - vm_compute. reflexivity.
  - reflexivity.
  - reflexivity.
Defined.

Lemma make_1d_facet_plot_grid_witness :
  exists page all_facets plots grid,
    make_1d_facet_plot sample_external Py3 sample_cf None = Ok page
    /\ make_facets sample_external Py3 sample_cf "x" = Ok all_facets
    /\ length plots = length all_facets
    /\ page = PGridPlot grid (200 * Nat.sqrt_up (length plots))
    /\ Forall2 only_hides plots (concat grid).
Proof.
  destruct (make_1d_facet_plot sample_external Py3 sample_cf None)
    as [page|e] eqn:H; [|vm_compute in H; discriminate H].
  destruct (make_1d_facet_plot_grid sample_external Py3 sample_cf None page H)
    as [all_facets [plots [grid [H1 [H2 [H3 [H4 _]]]]]]].
  exists page, all_facets, plots, grid.
  split; [reflexivity|]. split; [exact H1|].
  split; [symmetry; apply (Forall2_length _ _ _ H2)|].
  split; [exact H3|exact H4].
Defined.

Lemma make_1d_facet_plot_no_facets_witness :
  exists msg,
    make_1d_facet_plot sample_external Py2 empty_cf None
    = Raise (ValueError msg).
Proof.
  apply (make_1d_facet_plot_no_facets sample_external Py2 empty_cf None).
  vm_compute. reflexivity.
Defined.

Lemma make_2d_facet_plot_py2_witness :
  exists page xs ys grid,
    make_2d_facet_plot sample_external Py2 grid_cf None = Ok page
    /\ make_facets sample_external Py2 grid_cf "x" = Ok xs
    /\ make_facets sample_external Py2 grid_cf "y" = Ok ys
    /\ page = PGridPlot grid (200 * length xs)
    /\ length grid = length ys
    /\ forall i row, grid !! i = Some row ->
         length row = length xs
         /\ forall j plot, row !! j = Some plot ->
              xaxis_hidden plot = (i + 1 <? length ys)%nat
              /\ yaxis_hidden plot = negb (j =? 0)%nat.
Proof.
  destruct (make_2d_facet_plot sample_external Py2 grid_cf None)
    as [page|e] eqn:H; [|vm_compute in H; discriminate H].
  destruct (make_2d_facet_plot_py2 sample_external grid_cf None page H)
    as [xs [ys [grid Hgrid]]].
  exists page, xs, ys, grid. split; [reflexivity|exact Hgrid].
Defined.

Lemma hide_internal_axes_py3_then_py2_witness :
  hide_internal_axes Py2 [[blank_figure; blank_figure]; [blank_figure]]
  = hide_internal_axes Py3 [[blank_figure; blank_figure]; [blank_figure]].
Proof.
  apply (hide_internal_axes_py3_then_py2
           [[blank_figure; blank_figure]; [blank_figure]]).
  vm_compute. reflexivity.
Defined.

Lemma make_2d_facet_plot_py3_witness :
  exists xs ys,
    make_facets sample_external Py3 grid_cf "x" = Ok xs
    /\ make_facets sample_external Py3 grid_cf "y" = Ok ys
    /\ (length ys <= 2 \/ length xs <= 1)%nat.
Proof.
  destruct (make_2d_facet_plot sample_external Py3 grid_cf None)
    as [page|e] eqn:H; [|vm_compute in H; discriminate H].
  apply (make_2d_facet_plot_py3 sample_external grid_cf None page H).
Defined.


Lemma string_selection_raises_witness :
  (forall df,
     filter_step string_selection_cf df category_descriptor
     = Raise (KeyError (if String.eqb (col_name category_descriptor) "A"
                        then "True" else "False")))
  /\ exists e,
       handle_filter_selection sample_external Py2 string_selection_cf
       = (string_selection_cf, Raise e).
Proof.
  apply (string_selection_raises sample_external Py2 string_selection_cf
           category_descriptor "category" [Str "A"; Str "B"] "A").
  - left. reflexivity.
  - reflexivity.
  - vm_compute. reflexivity.
  - discriminate.
Defined.

Lemma filtered_data_after_selection_witness :
  cf_filtered_data
    (fst (handle_filter_selection sample_external Py2
                                  (filtering_cf [Str "A"])))
  = keep_rows (cf_df (filtering_cf [Str "A"]))
      (fun row =>
         forallb (fun d => selection_accepts (filtering_cf [Str "A"])
                             (df_columns (cf_df (filtering_cf [Str "A"])))
                             d row)
                 (cf_columns (filtering_cf [Str "A"]))).
Proof.
  apply (filtered_data_after_selection sample_external Py2
           (filtering_cf [Str "A"]) sample_frame_A).
  - reflexivity.
  - repeat constructor; simpl; intuition discriminate.
  - repeat constructor.
  - vm_compute. reflexivity.
Defined.

Lemma setup_filter_widgets_adds_witness :
  exists cf',
    setup_filter_widgets sample_external Py2 [] ["category"] adding_filter_cf
    = (cf', Ok tt)
    /\ cf' = set_filters (cf_filter_sources cf') (cf_filter_widgets cf')
                         adding_filter_cf
    /\ (forall c, In c (cf_filtering_columns adding_filter_cf) ->
                  is_Some (cf_filter_widgets cf' !! c))
    /\ (forall c w, cf_filter_widgets adding_filter_cf !! c = Some w ->
          cf_filter_widgets cf' !! c = Some w
          /\ cf_filter_sources cf' !! c
             = cf_filter_sources adding_filter_cf !! c)
    /\ (forall c w, cf_filter_widgets cf' !! c = Some w ->
          cf_filter_widgets adding_filter_cf !! c = Some w
          \/ (In c (cf_filtering_columns adding_filter_cf)
              /\ exists d series,
                   column_descriptor_dict adding_filter_cf !! c = Some d
                   /\ getitem (cf_df adding_filter_cf) c = Ok series
                   /\ w = fresh_widget d c series)).
Proof.
  destruct (setup_filter_widgets sample_external Py2 [] ["category"]
                                 adding_filter_cf)
    as [cf' [[]|e]] eqn:H; [|vm_compute in H; discriminate H].
  exists cf'. split; [reflexivity|].
  apply (setup_filter_widgets_adds sample_external Py2 [] ["category"]
           adding_filter_cf cf'); [|exact H].
  intros c [].
Defined.

Lemma plot_ignores_filtered_data_witness :
  make_plot sample_external Py2 (set_filtered_data sample_frame_A created_cf)
  = make_plot sample_external Py2 created_cf
  /\ set_plot sample_external Py2 (set_filtered_data sample_frame_A created_cf)
     = (set_filtered_data sample_frame_A
          (fst (set_plot sample_external Py2 created_cf)),
        snd (set_plot sample_external Py2 created_cf)).
Proof.
  apply (plot_ignores_filtered_data sample_external Py2 created_cf
           sample_frame sample_frame_A).
  reflexivity.
Defined.

Lemma selection_with_missing_column_witness :
  exists name,
    snd (handle_filter_selection sample_external Py2 created_cf)
    = Raise (KeyError name)
    /\ In name (df_columns (cf_data created_cf))
    /\ ~ In name (df_columns (cf_df created_cf))
    /\ cf_plot (fst (handle_filter_selection sample_external Py2 created_cf))
       = cf_plot created_cf
    /\ cf_x_range
         (fst (handle_filter_selection sample_external Py2 created_cf))
       = cf_x_range created_cf
    /\ cf_y_range
         (fst (handle_filter_selection sample_external Py2 created_cf))
       = cf_y_range created_cf.
Proof.
  apply (selection_with_missing_column sample_external Py2 created_cf
           sample_frame_A "index").
  - vm_compute. reflexivity.
  - simpl. tauto.
  - simpl. intros [H|[H|[]]]; discriminate H.
Defined.
